(** * The GCS object testbench: a shallow embedding of [gcs_object.py]

    The development follows
    [google/cloud/storage/testbench/gcs_object.py]: the Python values the
    code manipulates, the two classes [GcsObjectVersion] and [GcsObject],
    and the rewrite protocol that spans the object registry.  Exceptions
    are explicit results, and a method that mutates [self] is a state
    transformer whose final state is kept also when it raises, as Python
    keeps the fields assigned before a [raise]. *)

From Stdlib Require Import ZArith String Ascii List Lia DecimalString DecimalZ.
From stdpp Require Import gmap strings list fin_maps sorting.

#[global] Set Warnings "-register-all".
#[local] Open Scope string_scope.
#[local] Open Scope Z_scope.

(** ** Python values and primitives *)

Module Py.

(** Exceptions.  [ErrorResponse] is the testbench's own error class; the
    others are the interpreter's. *)
Inductive exn :=
| ErrorResponse (msg : string) (status_code : Z)
| KeyError (key : string)
| IndexError
| TypeError
| ValueError
| AttributeError
| UnicodeDecodeError.

Inductive result (A : Type) :=
| Ok (a : A)
| Raise (e : exn).
Arguments Ok {A} a.
Arguments Raise {A} e.

(** JSON-shaped values: what [json.loads] returns and what the metadata
    dictionaries hold.  JSON numbers are integers here. *)
Inductive pyval :=
| VNone
| VBool (b : bool)
| VInt (z : Z)
| VStr (s : string)
| VList (l : list pyval)
| VDict (d : gmap string pyval).

(** [len(s)], counted in [Z] from the left. *)
Fixpoint len_from (n : Z) (s : string) : Z :=
  match s with
  | EmptyString => n
  | String _ s' => len_from (n + 1) s'
  end.

Definition len (s : string) : Z := len_from 0 s.

(** [s.startswith(p)] *)
Definition startswith (s p : string) : bool := String.prefix p s.

Fixpoint sdrop (n : nat) (s : string) : string :=
  match n, s with
  | O, _ => s
  | S n', String _ s' => sdrop n' s'
  | S _, EmptyString => EmptyString
  end.

Fixpoint stake (n : nat) (s : string) : string :=
  match n, s with
  | S n', String c s' => String c (stake n' s')
  | _, _ => EmptyString
  end.

(** A slice bound as Python normalises it: a negative bound counts from
    the end, and the result is clamped to [0, len]. *)
Definition clamp_index (n i : Z) : Z :=
  let i := if i <? 0 then i + n else i in
  Z.max 0 (Z.min n i).

(** [s[i:j]]; [None] is an omitted bound. *)
Definition slice (s : string) (i j : option Z) : string :=
  let n := len s in
  let lo := match i with Some i => clamp_index n i | None => 0 end in
  let hi := match j with Some j => clamp_index n j | None => n end in
  if hi <=? lo then EmptyString
  else stake (Z.to_nat (hi - lo)) (sdrop (Z.to_nat lo) s).

Fixpoint find_aux (sub s : string) (pos : Z) : Z :=
  if String.prefix sub s then pos
  else match s with
       | EmptyString => -1
       | String _ s' => find_aux sub s' (pos + 1)
       end.

(** [s.find(sub, start)]: the lowest index at or after [start] where
    [sub] occurs, or -1. *)
Definition find (s sub : string) (start : Z) : Z :=
  let n := len s in
  let st := if start <? 0 then Z.max 0 (start + n) else start in
  if n <? st then -1 else find_aux sub (sdrop (Z.to_nat st) s) st.

(** The scan of [s.split(sep, maxsplit)] for a non-empty [sep]: [skip]
    counts the separator characters still to be passed over, [cur] is the
    piece being read (reversed), [budget] the splits still allowed
    ([None]: no limit). *)
Fixpoint split_go (sep s : string) (skip : nat) (cur : string)
    (budget : option nat) : list string :=
  match s with
  | EmptyString => [String.rev cur]
  | String c s' =>
      match skip with
      | S k => split_go sep s' k cur budget
      | O =>
          let allowed := match budget with Some O => false | _ => true end in
          if allowed && String.prefix sep s then
            String.rev cur ::
              split_go sep s' (String.length sep - 1) EmptyString
                (match budget with Some (S b) => Some b | _ => budget end)
          else split_go sep s' O (String c cur) budget
      end
  end.

(** [s.split(sep)] and [s.split(sep, maxsplit)]; an empty separator is a
    [ValueError]. *)
Definition split (s sep : string) (maxsplit : option nat) : result (list string) :=
  match sep with
  | EmptyString => Raise ValueError
  | _ => Ok (split_go sep s O EmptyString maxsplit)
  end.

(** [s.partition(sep)] for a non-empty [sep]. *)
Definition partition (s sep : string) : string * string * string :=
  let i := find s sep 0 in
  if i <? 0 then (s, EmptyString, EmptyString)
  else (slice s None (Some i), sep, slice s (Some (i + len sep)) None).

(** [sep.join(l)] *)
Definition join (sep : string) (l : list string) : string := String.concat sep l.

(** [str(n)] for an integer. *)
Definition str (z : Z) : string := NilZero.string_of_int (Z.to_int z).

Definition is_space (c : ascii) : bool :=
  let n := nat_of_ascii c in
  ((9 <=? n) && (n <=? 13))%nat || (n =? 32)%nat.

Definition is_digit (c : ascii) : bool :=
  let n := nat_of_ascii c in ((48 <=? n) && (n <=? 57))%nat.

Fixpoint lstrip (s : string) : string :=
  match s with
  | String c s' => if is_space c then lstrip s' else s
  | EmptyString => EmptyString
  end.

Definition strip (s : string) : string :=
  String.rev (lstrip (String.rev (lstrip s))).

Fixpoint parse_digits (s : string) (acc : Z) : option Z :=
  match s with
  | EmptyString => Some acc
  | String c s' =>
      if is_digit c
      then parse_digits s' (10 * acc + (Z.of_nat (nat_of_ascii c) - 48))
      else None
  end.

Definition parse_unsigned (s : string) : option Z :=
  match s with
  | EmptyString => None
  | _ => parse_digits s 0
  end.

(** [int(s)] for a string: surrounding blanks, an optional sign, decimal
    digits.  [None] stands for the [ValueError] of a malformed literal. *)
Definition int_of_str (s : string) : option Z :=
  match strip s with
  | String "+" r => parse_unsigned r
  | String "-" r => Z.opp <$> parse_unsigned r
  | r => parse_unsigned r
  end.

Definition int (s : string) : result Z :=
  match int_of_str s with
  | Some z => Ok z
  | None => Raise ValueError
  end.

(** [x == s] for a JSON value [x] and a string [s]: only a string can be
    equal to a string. *)
Definition eq_str (x : pyval) (s : string) : bool :=
  match x with
  | VStr t => String.eqb t s
  | _ => false
  end.

(** [x == n] for a JSON value [x] and an integer [n]; [True] is [1] and
    [False] is [0]. *)
Definition eq_int (x : pyval) (n : Z) : bool :=
  match x with
  | VInt z => z =? n
  | VBool b => (if b then 1 else 0) =? n
  | _ => false
  end.

(** [x + 1] *)
Definition add1 (x : pyval) : result pyval :=
  match x with
  | VInt z => Ok (VInt (z + 1))
  | VBool b => Ok (VInt ((if b then 1 else 0) + 1))
  | _ => Raise TypeError
  end.

(** [x + s] where [s] is a string: defined when [x] is a string. *)
Definition add_str (x : pyval) (s : string) : result string :=
  match x with
  | VStr t => Ok (t ++ s)
  | _ => Raise TypeError
  end.

(** [for e in x]: the elements a loop over [x] visits. *)
Definition iter (x : pyval) : result (list pyval) :=
  match x with
  | VList l => Ok l
  | VDict d => Ok (VStr <$> (map_to_list d).*1)
  | VStr s => Ok ((fun c => VStr (String c EmptyString)) <$> list_ascii_of_string s)
  | _ => Raise TypeError
  end.

(** [x.get(k)] and [x.get(k, default)]: only a dictionary has [get]. *)
Definition get (x : pyval) (k : string) (dflt : pyval) : result pyval :=
  match x with
  | VDict d => Ok (default dflt (d !! k))
  | _ => Raise AttributeError
  end.

End Py.
Export Py.

(** Carriage return, line feed: the line terminator of the multipart
    format. *)
Definition CRLF : string :=
  String (ascii_of_nat 13) (String (ascii_of_nat 10) EmptyString).

(** ** Methods as state transformers

    A method body is a computation over the object it mutates.  The
    state that comes out of a [Raise] is the state at the point of the
    [raise]: nothing is rolled back. *)

Definition M (S A : Type) : Type := S -> result A * S.

Definition ret {S A} (a : A) : M S A := fun s => (Ok a, s).

Definition bind {S A B} (c : M S A) (k : A -> M S B) : M S B :=
  fun s =>
    match c s with
    | (Ok a, s') => k a s'
    | (Raise e, s') => (Raise e, s')
    end.

Definition raise {S A} (e : exn) : M S A := fun s => (Raise e, s).

Definition lift {S A} (r : result A) : M S A := fun s => (r, s).

Definition get_self {S} : M S S := fun s => (Ok s, s).

Definition put_self {S} (s : S) : M S unit := fun _ => (Ok tt, s).

Definition modify_self {S} (f : S -> S) : M S unit := fun s => (Ok tt, f s).

Declare Scope method_scope.
Delimit Scope method_scope with method.
Notation "x <- c ;; k" := (bind c (fun x => k))
  (at level 100, c at next level, right associativity) : method_scope.
Notation "c ;;; k" := (bind c (fun _ => k))
  (at level 100, right associativity) : method_scope.

(** The same sequencing for code that touches no object. *)
Definition rbind {A B} (r : result A) (k : A -> result B) : result B :=
  match r with
  | Ok a => k a
  | Raise e => Raise e
  end.

Declare Scope result_scope.
Delimit Scope result_scope with result.
Notation "x <- c ;; k" := (rbind c (fun x => k))
  (at level 100, c at next level, right associativity) : result_scope.

(** ** The request and the collaborators *)

(** A [flask.Request] as the code reads it: query parameters, headers
    (looked up by their lower-case names) and the raw body. *)
Record Request := {
  args : gmap string string;
  headers : gmap string string;
  data : string;
}.

(** Modelled from the spec: the bucket class is not part of this file.  A
    bucket lookup returns bucket metadata, including the owner entity, and
    [versioning_enabled()]. *)
Record GcsBucket := {
  bucket_metadata : gmap string pyval;
  versioning_enabled : bool;
}.

(** Modelled from the spec: [error_response.ErrorResponse] carries a
    message and an HTTP-style status code, 400 when unspecified. *)
Definition default_status_code : Z := 400.

(** What the module imports: the standard library ([hashlib], [base64],
    [json], string formatting) and the helpers of [testbench_utils],
    none of which is defined in this file. *)
Class Collaborators := {
  (** [hashlib.md5(media).digest()] *)
  md5_digest : string -> string;
  (** [base64.b64encode] *)
  b64encode : string -> string;
  (** [json.loads]; [None] is its [ValueError] *)
  json_loads : string -> option pyval;
  (** ['%s' % x] for a JSON value *)
  format_value : pyval -> string;
  (** [testbench_utils.canonical_entity_name] *)
  canonical_entity_name : string -> string;
  (** [testbench_utils.corrupt_media] *)
  corrupt_media : string -> string;
  (** [testbench_utils.extract_media] *)
  extract_media : Request -> string;
  (** [testbench_utils.lookup_bucket] *)
  lookup_bucket : string -> result GcsBucket;
  (** [testbench_utils.validate_customer_encryption_headers] on the key,
      hash and algorithm header values *)
  validate_customer_encryption_headers :
    option string -> option string -> option string -> result unit;
  (** what [testbench_utils.raise_csek_error] raises *)
  csek_error : exn;
}.

(** [json.loads(s)] *)
Definition loads `{Collaborators} (s : string) : result pyval :=
  match json_loads s with
  | Some v => Ok v
  | None => Raise ValueError
  end.

(** An optional string as a JSON value. *)
Definition of_opt_str (o : option string) : pyval :=
  match o with
  | Some s => VStr s
  | None => VNone
  end.

(** [x is None] for the result of a dictionary [get]. *)
Definition is_none (x : option pyval) : bool :=
  match x with
  | None | Some VNone => true
  | _ => false
  end.

(** [x == h] for the result of a dictionary [get] and an optional header
    value. *)
Definition eq_opt_str (x : option pyval) (h : option string) : bool :=
  match x, h with
  | None, None | Some VNone, None => true
  | Some (VStr s), Some t => String.eqb s t
  | _, _ => false
  end.

(** Modelled from the spec: [testbench_utils.index_acl] is not part of
    this file.  The ACL index is the access-control list keyed by the
    entity of each entry, one entry per entity, the last one winning.  An
    entry without an entity is filed under [None]; an entity that is
    neither a string nor absent is refused. *)
Definition acl_entity (d : gmap string pyval) : result (option string) :=
  match d !! "entity" with
  | None | Some VNone => Ok None
  | Some (VStr s) => Ok (Some s)
  | Some _ => Raise TypeError
  end.

Fixpoint index_acl_list (l : list pyval) (indexed : gmap (option string) pyval)
    : result (gmap (option string) pyval) :=
  match l with
  | [] => Ok indexed
  | VDict d :: l' =>
      (k <- acl_entity d ;; index_acl_list l' (<[k := VDict d]> indexed))%result
  | _ :: _ => Raise AttributeError
  end.

Definition index_acl (acl : pyval) : result (gmap (option string) pyval) :=
  (l <- Py.iter acl ;; index_acl_list l ∅)%result.

(** [indexed.values()] *)
Definition values (indexed : gmap (option string) pyval) : list pyval :=
  (map_to_list indexed).*2.

(** ** [class GcsObjectVersion]: a single revision of an object *)

Module GcsObjectVersion.
Section Methods.
Context `{C : Collaborators}.
#[local] Open Scope method_scope.

Record t := {
  gcs_url : string;
  bucket_name : string;
  name : string;
  generation : Z;
  object_id : string;
  media : string;
  metadata : gmap string pyval;
}.

Definition set_metadata (m : gmap string pyval) (self : t) : t :=
  {| gcs_url := gcs_url self; bucket_name := bucket_name self;
     name := name self; generation := generation self;
     object_id := object_id self; media := media self; metadata := m |}.

(** [self.metadata[k] = v] *)
Definition setitem (k : string) (v : pyval) : M t unit :=
  modify_self (fun self => set_metadata (<[k := v]> (metadata self)) self).

(** [base64.b64encode(hashlib.md5(media).digest())] *)
Definition md5_b64 (media : string) : string := b64encode (md5_digest media).

Definition mismatched_md5 (expected : string) (actual : pyval) : exn :=
  ErrorResponse
    ("Mismatched MD5 hash expected=" ++ expected ++ ", actual=" ++ format_value actual)
    default_status_code.

(** [_validate_hashes]: validate the md5Hash field against the stored
    media. *)
Definition _validate_hashes : M t unit :=
  self <- get_self ;;
  let actual := default (VStr "") (metadata self !! "md5Hash") in
  let expected := md5_b64 (media self) in
  if negb (Py.eq_str actual expected)
  then raise (mismatched_md5 expected actual)
  else ret tt.

(** The local [tmp] of [update_from_metadata] once the values that
    cannot be changed via updates have been reset. *)
Definition merged (now : string) (patch : gmap string pyval) (self : t)
    : gmap string pyval :=
  let tmp := patch ∪ metadata self in
  let tmp := <["bucket" := default (VStr (name self)) (tmp !! "bucket")]> tmp in
  let tmp := <["name" := default (VStr (name self)) (tmp !! "name")]> tmp in
  let timestamp := now in
  (* Some values cannot be changed via updates, so we always reset them. *)
  <["kind" := VStr "storage#object"]>
  (<["bucket" := VStr (bucket_name self)]>
  (<["name" := VStr (name self)]>
  (<["id" := VStr (object_id self)]>
  (<["selfLink" := VStr (gcs_url self ++ name self)]>
  (<["projectNumber" := VStr "123456789"]>
  (<["updated" := VStr timestamp]> tmp)))))).

(** [update_from_metadata]: merge the patch, bump the metageneration,
    store the result, and then validate it. *)
Definition update_from_metadata (now : string) (patch : gmap string pyval) : M t unit :=
  self <- get_self ;;
  let tmp := merged now patch self in
  metageneration <- lift (Py.add1 (default (VInt 0) (tmp !! "metageneration"))) ;;
  let tmp := <["metageneration" := metageneration]> tmp in
  put_self (set_metadata tmp self) ;;;
  _validate_hashes.

(** [validate_encryption_for_read] *)
Definition validate_encryption_for_read (request : Request) (prefix : string) : M t unit :=
  self <- get_self ;;
  let key_header := prefix ++ "-key" in
  let hash_header := prefix ++ "-key-sha256" in
  let algo_header := prefix ++ "-algorithm" in
  let encryption := metadata self !! "customerEncryption" in
  if is_none encryption then
    match headers request !! key_header with
    | None => ret tt
    | Some _ => raise csek_error
    end
  else
    let key_header_value := headers request !! key_header in
    let hash_header_value := headers request !! hash_header in
    let algo_header_value := headers request !! algo_header in
    lift (validate_customer_encryption_headers
            key_header_value hash_header_value algo_header_value) ;;;
    stored <- lift (match encryption with
                    | Some (VDict d) => Ok (d !! "keySha256")
                    | _ => Raise AttributeError
                    end) ;;
    if negb (eq_opt_str stored hash_header_value)
    then raise csek_error
    else ret tt.

(** [_capture_customer_encryption] *)
Definition _capture_customer_encryption (request : Request) : M t unit :=
  match headers request !! "x-goog-encryption-key" with
  | None => ret tt
  | Some _ =>
      let prefix := "x-goog-encryption" in
      let key_header_value := headers request !! (prefix ++ "-key") in
      let hash_header_value := headers request !! (prefix ++ "-key-sha256") in
      let algo_header_value := headers request !! (prefix ++ "-algorithm") in
      lift (validate_customer_encryption_headers
              key_header_value hash_header_value algo_header_value) ;;;
      setitem "customerEncryption"
        (VDict (<["encryptionAlgorithm" := of_opt_str algo_header_value]>
               (<["keySha256" := of_opt_str hash_header_value]> ∅)))
  end.

(** [insert_acl]: insert or update the entry of [entity]. *)
Definition insert_acl (entity role : string) : M t pyval :=
  self <- get_self ;;
  let entity := canonical_entity_name entity in
  let email := if Py.startswith entity "user-" then entity else "" in
  indexed <- lift (index_acl (default (VList []) (metadata self !! "acl"))) ;;
  id <- lift (Py.add_str (default (VStr "") (metadata self !! "id")) ("/" ++ entity)) ;;
  selfLink <- lift (Py.add_str (default VNone (metadata self !! "selfLink"))
                      ("/acl/" ++ entity)) ;;
  let entry :=
    VDict (list_to_map [
      ("bucket", VStr (bucket_name self));
      ("email", VStr email);
      ("entity", VStr entity);
      ("entity_id", VStr "");
      ("etag", default (VStr "XYZ=") (metadata self !! "etag"));
      ("generation", VInt (generation self));
      ("id", VStr id);
      ("kind", VStr "storage#objectAccessControl");
      ("object", VStr (name self));
      ("role", VStr role);
      ("selfLink", VStr selfLink)]) in
  let indexed := <[Some entity := entry]> indexed in
  setitem "acl" (VList (values indexed)) ;;;
  ret entry.

(** [delete_acl]: [indexed.pop(entity)] raises [KeyError] when the entity
    has no entry. *)
Definition delete_acl (entity : string) : M t unit :=
  self <- get_self ;;
  let entity := canonical_entity_name entity in
  indexed <- lift (index_acl (default (VList []) (metadata self !! "acl"))) ;;
  match indexed !! Some entity with
  | None => raise (KeyError entity)
  | Some _ =>
      let indexed := delete (Some entity) indexed in
      setitem "acl" (VList (values indexed))
  end.

(** The loop of [get_acl]: the first entry whose entity equals
    [entity]. *)
Fixpoint get_acl_loop (entity : string) (acls : list pyval) : result (option pyval) :=
  match acls with
  | [] => Ok None
  | acl :: rest =>
      (e <- Py.get acl "entity" (VStr "") ;;
       if Py.eq_str e entity then Ok (Some acl) else get_acl_loop entity rest)%result
  end.

(** [get_acl] *)
Definition get_acl (entity : string) : M t pyval :=
  self <- get_self ;;
  let entity := canonical_entity_name entity in
  acls <- lift (Py.iter (default (VList []) (metadata self !! "acl"))) ;;
  found <- lift (get_acl_loop entity acls) ;;
  match found with
  | Some acl => ret acl
  | None =>
      raise (ErrorResponse
               ("Entity " ++ entity ++ " not found in object " ++ name self)
               default_status_code)
  end.

(** [update_acl] *)
Definition update_acl (entity role : string) : M t pyval := insert_acl entity role.

(** [_update_predefined_acl] *)
Definition _update_predefined_acl (predefined_acl : option string) : M t unit :=
  self <- get_self ;;
  let predefined_acl := default "projectPrivate" predefined_acl in
  insert_acl (canonical_entity_name "project-owners-123456789") "OWNER" ;;;
  bucket <- lift (lookup_bucket (bucket_name self)) ;;
  let owner := bucket_metadata bucket !! "owner" in
  owner_entity <-
    (if is_none owner then ret (VStr "project-owners-123456789")
     else lift (Py.get (default VNone owner) "entity" VNone)) ;;
  let insert_owner (role : string) : M t unit :=
    match owner_entity with
    | VStr e => insert_acl e role ;;; ret tt
    | _ => raise AttributeError
    end in
  if String.eqb predefined_acl "authenticatedRead" then
    insert_acl "allAuthenticatedUsers" "READER" ;;; ret tt
  else if String.eqb predefined_acl "bucketOwnerFullControl" then
    insert_owner "OWNER"
  else if String.eqb predefined_acl "bucketOwnerRead" then
    insert_owner "READER"
  else if String.eqb predefined_acl "private" then
    insert_acl "project-owners" "OWNER" ;;; ret tt
  else if String.eqb predefined_acl "projectPrivate" then
    insert_acl (canonical_entity_name "project-editors-123456789") "OWNER" ;;;
    insert_acl (canonical_entity_name "project-viewers-123456789") "READER" ;;;
    ret tt
  else if String.eqb predefined_acl "publicRead" then
    insert_acl (canonical_entity_name "allUsers") "READER" ;;; ret tt
  else
    raise (ErrorResponse "Invalid predefinedAcl value" 400).

(** [reset_predefined_acl] *)
Definition reset_predefined_acl (predefined_acl : option string) : M t unit :=
  setitem "acl" (VList []) ;;;
  _update_predefined_acl predefined_acl.

Definition acl2json_mapping : gmap string string :=
  list_to_map [
    ("authenticated-read", "authenticatedRead");
    ("bucket-owner-full-control", "bucketOwnerFullControl");
    ("bucket-owner-read", "bucketOwnerRead");
    ("private", "private");
    ("project-private", "projectPrivate");
    ("public-read", "publicRead")].

(** The fields and the metadata [__init__] sets before its first method
    call. *)
Definition init_fields (gcs_url bucket_name name : string) (generation : Z)
    (request : Request) (media : string) (now : string) : t :=
  let timestamp := now in
  let media :=
    match headers request !! "x-goog-testbench-instructions" with
    | Some instructions =>
        if String.eqb instructions "inject-upload-data-error"
        then corrupt_media media else media
    | None => media
    end in
  let metadata : gmap string pyval :=
    list_to_map [
      ("timeCreated", VStr timestamp);
      ("updated", VStr timestamp);
      ("metageneration", VInt 0);
      ("generation", VInt generation);
      ("location", VStr "US");
      ("storageClass", VStr "STANDARD");
      ("size", VInt (Py.len media));
      ("etag", VStr "XYZ=");
      ("owner", VDict (list_to_map [
         ("entity", VStr "project-owners-123456789");
         ("entityId", VStr "")]));
      ("md5Hash", VStr (md5_b64 media))] in
  let metadata :=
    match headers request !! "content-type" with
    | Some ct => <["contentType" := VStr ct]> metadata
    | None => metadata
    end in
  {| gcs_url := gcs_url; bucket_name := bucket_name; name := name;
     generation := generation;
     object_id := bucket_name ++ "/o/" ++ name ++ "/" ++ Py.str generation;
     media := media; metadata := metadata |}.

(** The method calls of [__init__], in order. *)
Definition init_body (request : Request) (now : string) : M t unit :=
  (* Update the derived metadata attributes (e.g.: id, kind, selfLink) *)
  update_from_metadata now ∅ ;;;
  (* Capture any encryption key headers. *)
  _capture_customer_encryption request ;;;
  _update_predefined_acl (args request !! "predefinedAcl") ;;;
  match headers request !! "x-goog-acl" with
  | None => ret tt
  | Some acl =>
      match acl2json_mapping !! acl with
      | Some predefined => _update_predefined_acl (Some predefined)
      | None =>
          raise (ErrorResponse ("Invalid predefinedAcl value " ++ acl) 400)
      end
  end.

(** [GcsObjectVersion(gcs_url, bucket_name, name, generation, request,
    media)]: the new revision, or the exception the constructor raises
    (the half-built object is then unreachable). *)
Definition new (gcs_url bucket_name name : string) (generation : Z)
    (request : Request) (media : string) (now : string) : result t :=
  match init_body request now
          (init_fields gcs_url bucket_name name generation request media now) with
  | (Ok _, self) => Ok self
  | (Raise e, _) => Raise e
  end.

(** [insert_acl] with the role as the caller hands it over: [patch_acl]
    passes on whatever JSON value the payload holds under [role]. *)
Definition insert_acl_value (entity : string) (role : pyval) : M t pyval :=
  self <- get_self ;;
  let entity := canonical_entity_name entity in
  let email := if Py.startswith entity "user-" then entity else "" in
  indexed <- lift (index_acl (default (VList []) (metadata self !! "acl"))) ;;
  id <- lift (Py.add_str (default (VStr "") (metadata self !! "id")) ("/" ++ entity)) ;;
  selfLink <- lift (Py.add_str (default VNone (metadata self !! "selfLink"))
                      ("/acl/" ++ entity)) ;;
  let entry :=
    VDict (list_to_map [
      ("bucket", VStr (bucket_name self));
      ("email", VStr email);
      ("entity", VStr entity);
      ("entity_id", VStr "");
      ("etag", default (VStr "XYZ=") (metadata self !! "etag"));
      ("generation", VInt (generation self));
      ("id", VStr id);
      ("kind", VStr "storage#objectAccessControl");
      ("object", VStr (name self));
      ("role", role);
      ("selfLink", VStr selfLink)]) in
  let indexed := <[Some entity := entry]> indexed in
  setitem "acl" (VList (values indexed)) ;;;
  ret entry.

(** [patch_acl]: patch a single AccessControl entry. *)
Definition patch_acl (entity : string) (request : Request) : M t pyval :=
  acl <- get_acl entity ;;
  payload <- lift (loads (data request)) ;;
  request_entity <- lift (Py.get payload "entity" VNone) ;;
  (if negb (is_none (Some request_entity)) && negb (Py.eq_str request_entity entity)
   then raise (ErrorResponse
                 ("Entity mismatch in ObjectAccessControls: patch, expected=" ++ entity
                  ++ ", got=" ++ format_value request_entity)
                 default_status_code)
   else ret tt) ;;;
  match headers request !! "if-match" with
  | Some etag_match =>
      etag <- lift (Py.get acl "etag" VNone) ;;
      if negb (Py.eq_str etag etag_match)
      then raise (ErrorResponse "Precondition Failed" 412) else ret tt
  | None => ret tt
  end ;;;
  match headers request !! "if-none-match" with
  | Some etag_none_match =>
      etag <- lift (Py.get acl "etag" VNone) ;;
      if negb (Py.eq_str etag etag_none_match)
      then raise (ErrorResponse "Precondition Failed" 412) else ret tt
  | None => ret tt
  end ;;;
  role <- lift (Py.get payload "role" VNone) ;;
  if is_none (Some role)
  then raise (ErrorResponse "Missing role value" default_status_code)
  else insert_acl_value entity role.

End Methods.
End GcsObjectVersion.

(** ** [class GcsObject]: an object with all its revisions *)

Module GcsObject.
Section Methods.
Context `{C : Collaborators}.
#[local] Open Scope method_scope.

(** The dictionary [make_rewrite_operation] builds for one rewrite. *)
Record RewriteOperation := {
  id : Z;
  original_arguments : gmap string pyval;
  actual_generation : option Z;
  bytes_rewritten : Z;
  body : pyval;
}.

Definition set_bytes_rewritten (n : Z) (op : RewriteOperation) : RewriteOperation :=
  {| id := id op; original_arguments := original_arguments op;
     actual_generation := actual_generation op; bytes_rewritten := n;
     body := body op |}.

(** [self.generation] is an integer, or [None] once the last revision
    has been deleted. *)
Record t := {
  bucket_name : string;
  name : string;
  generation : option Z;
  revisions : gmap Z GcsObjectVersion.t;
  rewrite_token_generator : Z;
  rewrite_operations : gmap string RewriteOperation;
}.

Definition set_generation (g : option Z) (self : t) : t :=
  {| bucket_name := bucket_name self; name := name self; generation := g;
     revisions := revisions self;
     rewrite_token_generator := rewrite_token_generator self;
     rewrite_operations := rewrite_operations self |}.

Definition set_revisions (r : gmap Z GcsObjectVersion.t) (self : t) : t :=
  {| bucket_name := bucket_name self; name := name self;
     generation := generation self; revisions := r;
     rewrite_token_generator := rewrite_token_generator self;
     rewrite_operations := rewrite_operations self |}.

Definition set_rewrite_token_generator (n : Z) (self : t) : t :=
  {| bucket_name := bucket_name self; name := name self;
     generation := generation self; revisions := revisions self;
     rewrite_token_generator := n;
     rewrite_operations := rewrite_operations self |}.

Definition set_rewrite_operations (ops : gmap string RewriteOperation) (self : t) : t :=
  {| bucket_name := bucket_name self; name := name self;
     generation := generation self; revisions := revisions self;
     rewrite_token_generator := rewrite_token_generator self;
     rewrite_operations := ops |}.

(** [GcsObject(bucket_name, name)] *)
Definition new (bucket_name name : string) : t :=
  {| bucket_name := bucket_name; name := name; generation := Some 0;
     revisions := ∅; rewrite_token_generator := 0; rewrite_operations := ∅ |}.

(** [get_revision_by_generation]; the generation may be [None]. *)
Definition get_revision_by_generation (self : t) (generation : option Z)
    : option GcsObjectVersion.t :=
  g ← generation; revisions self !! g.

(** [get_latest] *)
Definition get_latest (self : t) : option GcsObjectVersion.t :=
  get_revision_by_generation self (generation self).

(** [get_revision] *)
Definition get_revision (request : Request) (version_field_name : string)
    : M t (option GcsObjectVersion.t) :=
  self <- get_self ;;
  match args request !! version_field_name with
  | None => ret (get_latest self)
  | Some generation =>
      g <- lift (Py.int generation) ;;
      match revisions self !! g with
      | None =>
          raise (ErrorResponse
                   ("Precondition Failed: generation " ++ generation ++ " not found")
                   default_status_code)
      | Some version => ret (Some version)
      end
  end.

(** The local variable [generation] of [del_revision]: the query
    parameter, a string, or else [self.generation]. *)
Inductive generation_arg :=
| FromRequest (s : string)
| FromSelf (g : option Z).

(** [int(generation)] *)
Definition int_generation (generation : generation_arg) : result Z :=
  match generation with
  | FromRequest s => Py.int s
  | FromSelf (Some g) => Ok g
  | FromSelf None => Raise TypeError
  end.

(** [generation == self.generation]: a string is never equal to an
    integer or to [None]. *)
Definition eq_generation (generation : generation_arg) (current : option Z) : bool :=
  match generation with
  | FromRequest _ => false
  | FromSelf g => bool_decide (g = current)
  end.

(** [sorted(self.revisions.keys())] *)
Definition sorted_keys (revisions : gmap Z GcsObjectVersion.t) : list Z :=
  merge_sort Z.le (map_to_list revisions).*1.

(** [del_revision]: returns [True] if the object entry in the bucket
    should be deleted. *)
Definition del_revision (request : Request) : M t bool :=
  self <- get_self ;;
  let generation' :=
    match args request !! "generation" with
    | Some s => FromRequest s
    | None => FromSelf (generation self)
    end in
  g <- lift (int_generation generation') ;;
  match revisions self !! g with
  | None => raise (KeyError (Py.str g))
  | Some _ =>
      put_self (set_revisions (delete g (revisions self)) self) ;;;
      self <- get_self ;;
      if bool_decide (size (revisions self) = 0%nat) then
        put_self (set_generation None self) ;;;
        ret true
      else
        (if eq_generation generation' (generation self)
         then put_self (set_generation (last (sorted_keys (revisions self))) self)
         else ret tt) ;;;
        ret false
  end.

(** Run a revision method on the revision stored under [g], which is
    mutated in place. *)
Definition on_revision {A} (g : Z) (version : GcsObjectVersion.t)
    (c : M GcsObjectVersion.t A) : M t A :=
  fun self =>
    let '(r, version') := c version in
    (r, set_revisions (<[g := version']> (revisions self)) self).

(** One element of a sequence handed to [dict.update]: it is read as a
    sequence itself and must hold exactly two elements, the key and the
    value ([ValueError] otherwise; [TypeError] when it cannot be
    iterated).  A string is read as its characters and a dictionary as
    its keys, as [Py.iter] gives them.  A list or a dictionary cannot be
    a key.  A key that is no string (a number, a boolean, [None]) gives
    an entry that the metadata of this model, which holds the entries
    under string keys, does not record: [None] here. *)
Definition update_pair (item : pyval) : result (option (string * pyval)) :=
  (elements <- Py.iter item ;;
   match elements with
   | [key; value] =>
       match key with
       | VStr k => Ok (Some (k, value))
       | VList _ | VDict _ => Raise TypeError
       | _ => Ok None
       end
   | _ => Raise ValueError
   end)%result.

Fixpoint update_pairs (items : list pyval) (tmp : gmap string pyval)
    : result (gmap string pyval) :=
  match items with
  | [] => Ok tmp
  | item :: items' =>
      (pair <- update_pair item ;;
       update_pairs items'
         match pair with
         | Some (k, v) => <[k := v]> tmp
         | None => tmp
         end)%result
  end.

(** The argument of [dict.update], as the entries it sets: those of a
    dictionary, or else the key/value pairs of a sequence, a later pair
    replacing an earlier one for the same key. *)
Definition as_update (x : pyval) : result (gmap string pyval) :=
  match x with
  | VDict d => Ok d
  | _ => (items <- Py.iter x ;; update_pairs items ∅)%result
  end.

(** [update_revision] *)
Definition update_revision (request : Request) (now : string) : M t GcsObjectVersion.t :=
  self <- get_self ;;
  found <-
    match args request !! "generation" with
    | None => ret (generation self, get_latest self)
    | Some generation =>
        g <- lift (Py.int generation) ;;
        match revisions self !! g with
        | None =>
            raise (ErrorResponse
                     ("Precondition Failed: generation " ++ generation ++ " not found")
                     default_status_code)
        | Some version => ret (Some g, Some version)
        end
    end ;;
  metadata <- lift (loads (data request)) ;;
  match found with
  | (Some g, Some version) =>
      patch <- lift (as_update metadata) ;;
      on_revision g version (GcsObjectVersion.update_from_metadata now patch) ;;;
      self <- get_self ;;
      match revisions self !! g with
      | Some version => ret version
      | None => raise AttributeError
      end
  | _ => raise AttributeError
  end.

Definition precondition_failed : exn := ErrorResponse "Precondition Failed" 412.

(** [check_preconditions_by_value]: verify that the given precondition
    values are met. *)
Definition check_preconditions_by_value
    (generation_match generation_not_match
     metageneration_match metageneration_not_match : option string) : M t unit :=
  self <- get_self ;;
  match generation_match with
  | Some gm =>
      n <- lift (Py.int gm) ;;
      if negb (bool_decide (Some n = generation self))
      then raise precondition_failed else ret tt
  | None => ret tt
  end ;;;
  (* This object does not exist (yet), testing in this case is special. *)
  match generation_not_match with
  | Some gnm =>
      n <- lift (Py.int gnm) ;;
      if bool_decide (Some n = generation self)
      then raise precondition_failed else ret tt
  | None => ret tt
  end ;;;
  if bool_decide (generation self = Some 0) then
    match metageneration_match, metageneration_not_match with
    | None, None => ret tt
    | _, _ => raise precondition_failed
    end
  else
    match get_latest self with
    | None => raise (ErrorResponse "Object not found" 404)
    | Some current =>
        let metageneration :=
          default VNone (GcsObjectVersion.metadata current !! "metageneration") in
        match metageneration_not_match with
        | Some mnm =>
            n <- lift (Py.int mnm) ;;
            if Py.eq_int metageneration n
            then raise precondition_failed else ret tt
        | None => ret tt
        end ;;;
        match metageneration_match with
        | Some mm =>
            n <- lift (Py.int mm) ;;
            if negb (Py.eq_int metageneration n)
            then raise precondition_failed else ret tt
        | None => ret tt
        end
    end.

(** [check_preconditions], with the parameter names it reads. *)
Definition check_preconditions_named (request : Request)
    (if_generation_match if_generation_not_match
     if_metageneration_match if_metageneration_not_match : string) : M t unit :=
  check_preconditions_by_value
    (args request !! if_generation_match)
    (args request !! if_generation_not_match)
    (args request !! if_metageneration_match)
    (args request !! if_metageneration_not_match).

Definition check_preconditions (request : Request) : M t unit :=
  check_preconditions_named request
    "ifGenerationMatch" "ifGenerationNotMatch"
    "ifMetagenerationMatch" "ifMetagenerationNotMatch".

(** [_insert_revision]: at every call site [self.generation] has just
    been incremented, so the key is an integer. *)
Definition _insert_revision (revision : GcsObjectVersion.t) : M t unit :=
  self <- get_self ;;
  g <- lift (match generation self with Some g => Ok g | None => Raise TypeError end) ;;
  bucket <- lift (lookup_bucket (bucket_name self)) ;;
  if negb (versioning_enabled bucket) then
    put_self (set_revisions {[g := revision]} self)
  else
    put_self (set_revisions (<[g := revision]> (revisions self)) self).

(** [self.generation += 1], returning the new value. *)
Definition increment_generation : M t Z :=
  self <- get_self ;;
  match generation self with
  | Some g => put_self (set_generation (Some (g + 1)) self) ;;; ret (g + 1)
  | None => raise TypeError
  end.

(** [meta = revision.metadata.setdefault('metadata', {}); meta[k] = v] *)
Definition set_testbench_meta (k : string) (v : pyval)
    (revision : GcsObjectVersion.t) : result GcsObjectVersion.t :=
  match GcsObjectVersion.metadata revision !! "metadata" with
  | None =>
      Ok (GcsObjectVersion.set_metadata
            (<["metadata" := VDict {[k := v]}]> (GcsObjectVersion.metadata revision))
            revision)
  | Some (VDict meta) =>
      Ok (GcsObjectVersion.set_metadata
            (<["metadata" := VDict (<[k := v]> meta)]> (GcsObjectVersion.metadata revision))
            revision)
  | Some _ => Raise TypeError
  end.

(** A method call on a local revision: the revision after the call, or
    the exception (the local object is then dropped with the frame). *)
Definition call {A} (c : M GcsObjectVersion.t A) (revision : GcsObjectVersion.t)
    : result GcsObjectVersion.t :=
  match c revision with
  | (Ok _, revision') => Ok revision'
  | (Raise e, _) => Raise e
  end.

(** [insert] *)
Definition insert (gcs_url : string) (request : Request) (now : string)
    : M t GcsObjectVersion.t :=
  let media := extract_media request in
  g <- increment_generation ;;
  self <- get_self ;;
  revision <- lift (GcsObjectVersion.new gcs_url (bucket_name self) (name self) g
                      request media now) ;;
  revision <- lift (set_testbench_meta "x_testbench_upload" (VStr "simple") revision) ;;
  _insert_revision revision ;;;
  ret revision.

(** [key.encode('ascii', 'ignore')] on a byte string: the implicit
    decoding refuses a byte outside ASCII. *)
Definition encode_ascii (key : string) : result string :=
  if forallb (fun c => (nat_of_ascii c <? 128)%nat) (list_ascii_of_string key)
  then Ok key else Raise UnicodeDecodeError.

(** The [while] loop of [_parse_part].  The loop need not terminate (a
    part without a blank line is scanned again and again), hence the
    fuel: [None] is a run that has not finished within [fuel]
    iterations. *)
Fixpoint _parse_part_loop (fuel : nat) (multipart_upload_part : string)
    (headers : gmap string string) (index next_line : Z)
    : option (result (gmap string string * string)) :=
  if negb (next_line =? index) then
    match fuel with
    | O => None
    | S fuel' =>
        let header_line :=
          Py.slice multipart_upload_part (Some index) (Some next_line) in
        match Py.split header_line ": " (Some 2%nat) with
        | Ok [key; value] =>
            match encode_ascii key with
            | Ok key =>
                let headers := <[key := value]> headers in
                let index := next_line + 2 in
                let next_line := Py.find multipart_upload_part CRLF index in
                _parse_part_loop fuel' multipart_upload_part headers index next_line
            | Raise e => Some (Raise e)
            end
        | Ok _ => Some (Raise ValueError)
        | Raise e => Some (Raise e)
        end
    end
  else Some (Ok (headers, Py.slice multipart_upload_part (Some (next_line + 2)) None)).

(** [_parse_part]: parse a portion of a multipart, breaking out the
    headers and the payload. *)
Definition _parse_part (fuel : nat) (multipart_upload_part : string)
    : option (result (gmap string string * string)) :=
  let headers : gmap string string := ∅ in
  let index := 0 in
  let next_line := Py.find multipart_upload_part CRLF index in
  _parse_part_loop fuel multipart_upload_part headers index next_line.

(** [parts[i]] *)
Definition getitem (parts : list string) (i : nat) : result string :=
  match parts !! i with
  | Some p => Ok p
  | None => Raise IndexError
  end.

(** The decoding steps of [insert_multipart], which come before any
    assignment to [self]: the resource part's body, the media part's
    headers and the media. *)
Definition decode_multipart (fuel : nat) (request : Request)
    : option (result (string * gmap string string * string)) :=
  match headers request !! "content-type" with
  | None =>
      Some (Raise (ErrorResponse
              "Missing or invalid content-type header in multipart upload"
              default_status_code))
  | Some content_type =>
      if negb (Py.startswith content_type "multipart/related") then
        Some (Raise (ErrorResponse
                "Missing or invalid content-type header in multipart upload"
                default_status_code))
      else
        let '(_, _, boundary) := Py.partition content_type "boundary=" in
        let marker := "--" ++ boundary ++ CRLF in
        let body := extract_media request in
        match Py.split body marker None with
        | Raise e => Some (Raise e)
        | Ok parts =>
            (* parts[1] is the JSON resource object part, with some headers *)
            match getitem parts 1 with
            | Raise e => Some (Raise e)
            | Ok part1 =>
                match _parse_part fuel part1 with
                | None => None
                | Some (Raise e) => Some (Raise e)
                | Some (Ok (resource_headers, resource_body)) =>
                    (* parts[2] is the media, with some headers *)
                    match getitem parts 2 with
                    | Raise e => Some (Raise e)
                    | Ok part2 =>
                        match _parse_part fuel part2 with
                        | None => None
                        | Some (Raise e) => Some (Raise e)
                        | Some (Ok (media_headers, media_body)) =>
                            let end_ :=
                              Py.find media_body
                                (CRLF ++ "--" ++ boundary ++ "--" ++ CRLF) 0 in
                            if end_ =? -1 then
                              Some (Raise (ErrorResponse
                                      ("Missing end marker (--" ++ boundary
                                       ++ "--) in media body")
                                      default_status_code))
                            else
                              Some (Ok (resource_body, media_headers,
                                        Py.slice media_body None (Some end_)))
                        end
                    end
                end
            end
        end
  end.

(** [insert_multipart] after the decoding. *)
Definition insert_decoded (gcs_url : string) (request : Request) (now : string)
    (resource_body : string) (media_headers : gmap string string)
    (media_body : string) : M t GcsObjectVersion.t :=
  g <- increment_generation ;;
  self <- get_self ;;
  revision <- lift (GcsObjectVersion.new gcs_url (bucket_name self) (name self) g
                      request media_body now) ;;
  resource <- lift (loads resource_body) ;;
  revision <- lift (set_testbench_meta "x_testbench_upload" (VStr "multipart") revision) ;;
  md5 <- lift (Py.get resource "md5Hash" (VStr "")) ;;
  revision <- lift (set_testbench_meta "x_testbench_md5" md5 revision) ;;
  (* Apply any overrides from the resource object part. *)
  patch <- lift (as_update resource) ;;
  revision <- lift (call (GcsObjectVersion.update_from_metadata now patch) revision) ;;
  (* The content-type needs to be patched up, yuck. *)
  revision <-
    match media_headers !! "content-type" with
    | Some ct =>
        lift (call (GcsObjectVersion.update_from_metadata now
                      {["contentType" := VStr ct]}) revision)
    | None => ret revision
    end ;;
  _insert_revision revision ;;;
  ret revision.

(** [insert_multipart]; [None] when the decoding does not finish within
    [fuel] loop iterations. *)
Definition insert_multipart (fuel : nat) (gcs_url : string) (request : Request)
    (now : string) (self : t) : option (result GcsObjectVersion.t * t) :=
  match decode_multipart fuel request with
  | None => None
  | Some (Raise e) => Some (Raise e, self)
  | Some (Ok (resource_body, media_headers, media_body)) =>
      Some (insert_decoded gcs_url request now resource_body media_headers
              media_body self)
  end.

(** The loop of [insert_xml] over the [x-goog-hash] header: the last
    [md5=] pair wins. *)
Definition xml_md5hash (request : Request) : option string :=
  match headers request !! "x-goog-hash" with
  | None => None
  | Some goog_hash =>
      foldl (fun md5hash hash =>
               if Py.startswith hash "md5="
               then Some (Py.slice hash (Some 4) None) else md5hash)
            None (Py.split_go "," goog_hash O EmptyString None)
  end.

(** [insert_xml]: the insert operation of the XML API. *)
Definition insert_xml (gcs_url : string) (request : Request) (now : string)
    : M t GcsObjectVersion.t :=
  let media := extract_media request in
  g <- increment_generation ;;
  self <- get_self ;;
  let md5hash := xml_md5hash request in
  revision <- lift (GcsObjectVersion.new gcs_url (bucket_name self) (name self) g
                      request media now) ;;
  revision <- lift (set_testbench_meta "x_testbench_upload" (VStr "xml") revision) ;;
  revision <-
    match md5hash with
    | Some md5hash =>
        revision <- lift (set_testbench_meta "x_testbench_md5" (VStr md5hash) revision) ;;
        lift (call (GcsObjectVersion.update_from_metadata now
                      {["md5Hash" := VStr md5hash]}) revision)
    | None => ret revision
    end ;;
  _insert_revision revision ;;;
  ret revision.

(** [rewrite_fixed_args]: the arguments that should not change between
    requests for the same rewrite operation. *)
Definition rewrite_fixed_args : list string := [
  "destinationKmsKeyName"; "destinationPredefinedAcl";
  "ifGenerationMatch"; "ifGenerationNotMatch";
  "ifMetagenerationMatch"; "ifMetagenerationNotMatch";
  "ifSourceGenerationMatch"; "ifSourceGenerationNotMatch";
  "ifSourceMetagenerationMatch"; "ifSourceMetagenerationNotMatch";
  "maxBytesRewrittenPerCall"; "projection"; "sourceGeneration";
  "userProject"].

(** [capture_rewrite_operation_arguments]: captures the arguments used to
    validate related rewrite calls. *)
Definition capture_rewrite_operation_arguments (request : Request)
    (destination_bucket destination_object : string) : gmap string pyval :=
  let original_arguments : gmap string pyval :=
    foldl (fun d arg => <[arg := of_opt_str (args request !! arg)]> d)
          ∅ rewrite_fixed_args in
  <["destination_bucket" := VStr destination_bucket]>
  (<["destination_object" := VStr destination_object]> original_arguments).

(** [str(generation)], where the generation may be [None]. *)
Definition str_generation (generation : option Z) : string :=
  match generation with
  | Some g => Py.str g
  | None => "None"
  end.

(** [make_rewrite_token] *)
Definition make_rewrite_token (operation : RewriteOperation)
    (destination_bucket destination_object : string) (generation : option Z) : string :=
  b64encode (Py.join "/" [
    Py.str (id operation);
    destination_bucket;
    destination_object;
    str_generation generation;
    Py.str (bytes_rewritten operation)]).

(** [make_rewrite_operation] *)
Definition make_rewrite_operation (request : Request)
    (destination_bucket destination_object : string)
    : M t (string * RewriteOperation) :=
  self <- get_self ;;
  generation' <-
    match args request !! "sourceGeneration" with
    | None => ret (generation self)
    | Some s => g <- lift (Py.int s) ;; ret (Some g)
    end ;;
  put_self (set_rewrite_token_generator (rewrite_token_generator self + 1) self) ;;;
  self <- get_self ;;
  body <- lift (loads (data request)) ;;
  let original_arguments :=
    capture_rewrite_operation_arguments request destination_object destination_object in
  let operation :=
    {| id := rewrite_token_generator self;
       original_arguments := original_arguments;
       actual_generation := generation';
       bytes_rewritten := 0;
       body := body |} in
  let token :=
    make_rewrite_token operation destination_bucket destination_object generation' in
  ret (token, operation).

(** [rewrite_finish]: complete a rewrite from [source] into this
    object. *)
Definition rewrite_finish (gcs_url : string) (request : Request) (now : string)
    (body : pyval) (source : GcsObjectVersion.t) : M t GcsObjectVersion.t :=
  let media := GcsObjectVersion.media source in
  check_preconditions request ;;;
  g <- increment_generation ;;
  self <- get_self ;;
  revision <- lift (GcsObjectVersion.new gcs_url (bucket_name self) (name self) g
                      request media now) ;;
  patch <- lift (as_update body) ;;
  revision <- lift (call (GcsObjectVersion.update_from_metadata now patch) revision) ;;
  _insert_revision revision ;;;
  ret revision.

(** Modelled from the spec: the object registry of [testbench_utils]
    ([get_object], [insert_object]) is not part of this file.  An Object
    is identified by (bucket, name); the registry maps that pair to the
    object. *)
Definition get_object (objects : gmap (string * string) t)
    (bucket_name object_name : string) (default_value : t)
    : (string * string) * t :=
  let object_path := (bucket_name, object_name) in
  (object_path, default default_value (objects !! object_path)).

Definition insert_object (object_path : string * string) (value : t)
    (objects : gmap (string * string) t) : gmap (string * string) t :=
  <[object_path := value]> objects.

(** A method call on the receiver: [self] is the object registered under
    [self_path], and what the method assigns is seen by every later
    lookup of that path.  A call needs a receiver; with nothing under
    [self_path] the model answers with the [AttributeError] of a call on
    [None]. *)
Definition on_self {A} (self_path : string * string) (c : M t A)
    : M (gmap (string * string) t) A :=
  fun objects =>
    match objects !! self_path with
    | Some self =>
        let '(r, self') := c self in (r, <[self_path := self']> objects)
    | None => (Raise AttributeError, objects)
    end.

(** [object_path, destination = get_object(...)], a method call on
    [destination], then [insert_object(object_path, destination)].  When
    the call raises, a registered destination keeps what the method had
    assigned, and a fresh one is dropped. *)
Definition on_destination {A} (destination_bucket destination_object : string)
    (c : M t A) : M (gmap (string * string) t) A :=
  fun objects =>
    let '(object_path, destination) :=
      get_object objects destination_bucket destination_object
        (new destination_bucket destination_object) in
    let '(r, destination') := c destination in
    match r with
    | Ok a => (Ok a, insert_object object_path destination' objects)
    | Raise e =>
        (Raise e,
         match objects !! object_path with
         | Some _ => <[object_path := destination']> objects
         | None => objects
         end)
    end.

(** [self.rewrite_operations.pop(rewrite_token, None)] *)
Definition pop_rewrite_operation (rewrite_token : string) : M t (option RewriteOperation) :=
  self <- get_self ;;
  match rewrite_operations self !! rewrite_token with
  | Some rewrite =>
      put_self (set_rewrite_operations
                  (delete rewrite_token (rewrite_operations self)) self) ;;;
      ret (Some rewrite)
  | None => ret None
  end.

(** [set(a) ^ set(b)] for two dictionaries: the symmetric difference of
    their key sets. *)
Definition keys_symmetric_difference (a b : gmap string pyval) : gset string :=
  (dom a ∖ dom b) ∪ (dom b ∖ dom a).

Definition rewrite_response (object_size : Z) (done : bool)
    (resource : option pyval) (total_bytes_rewritten : Z) (rewrite_token : string)
    : gmap string pyval :=
  let result : gmap string pyval :=
    <["kind" := VStr "storage#rewriteResponse"]>
    (<["objectSize" := VInt object_size]> ∅) in
  let result := <["done" := VBool done]> result in
  let result :=
    match resource with
    | Some r => <["resource" := r]> result
    | None => result
    end in
  <["totalBytesRewritten" := VInt total_bytes_rewritten]>
  (<["rewriteToken" := VStr rewrite_token]> result).

(** The second half of [rewrite_step], from the comparison of the
    arguments on: [body] and [rewrite] are the locals the first half has
    set. *)
Definition rewrite_advance (self_path : string * string) (gcs_url : string)
    (request : Request) (now : string)
    (destination_bucket destination_object : string)
    (body : pyval) (rewrite : RewriteOperation)
    : M (gmap (string * string) t) (gmap string pyval) :=
  (* Compare the difference to the original arguments, on the first call
     this is a waste, but the code is easier to follow. *)
  let current_arguments :=
    capture_rewrite_operation_arguments request destination_bucket destination_object in
  let diff :=
    keys_symmetric_difference current_arguments (original_arguments rewrite) in
  if negb (bool_decide (size diff = 0%nat)) then
    raise (ErrorResponse "Mismatched arguments to rewrite" 412)
  else
    source <- on_self self_path
                (self <- get_self ;;
                 ret (get_revision_by_generation self (actual_generation rewrite))) ;;
    match source with
    | None => raise AttributeError
    | Some source =>
        lift (fst (GcsObjectVersion.validate_encryption_for_read request
                     "x-goog-copy-source-encryption" source)) ;;;
        let bytes_rewritten := bytes_rewritten rewrite + 1024 * 1024 in
        let object_size := Py.len (GcsObjectVersion.media source) in
        if object_size <=? bytes_rewritten then
          let bytes_rewritten := object_size in
          (* Success, the operation completed. Return the new object: *)
          revision <- on_destination destination_bucket destination_object
                        (rewrite_finish gcs_url request now body source) ;;
          ret (rewrite_response object_size true
                 (Some (VDict (GcsObjectVersion.metadata revision)))
                 bytes_rewritten "")
        else
          let rewrite := set_bytes_rewritten bytes_rewritten rewrite in
          let rewrite_token :=
            make_rewrite_token rewrite destination_bucket destination_object
              (Some (GcsObjectVersion.generation source)) in
          on_self self_path
            (modify_self (fun self =>
               set_rewrite_operations
                 (<[rewrite_token := rewrite]> (rewrite_operations self)) self)) ;;;
          ret (rewrite_response object_size false None bytes_rewritten rewrite_token)
    end.

(** [rewrite_step]: execute an iteration of [Objects: rewrite]. *)
Definition rewrite_step (self_path : string * string) (gcs_url : string)
    (request : Request) (now : string)
    (destination_bucket destination_object : string)
    : M (gmap (string * string) t) (gmap string pyval) :=
  body <- lift (loads (data request)) ;;
  let start :=
    on_self self_path
      (make_rewrite_operation request destination_bucket destination_bucket) in
  started <-
    match args request !! "rewriteToken" with
    | Some rewrite_token =>
        if negb (String.eqb rewrite_token "") then
          (* Note that we remove the rewrite operation, not just look it up.
             That way if the operation completes in this call, and/or fails,
             it is already removed. *)
          rewrite <- on_self self_path (pop_rewrite_operation rewrite_token) ;;
          match rewrite with
          | None => raise (ErrorResponse "Invalid or expired token in rewrite" 410)
          | Some rewrite => ret (rewrite_token, rewrite)
          end
        else start
    | None => start
    end ;;
  rewrite_advance self_path gcs_url request now
    destination_bucket destination_object body (snd started).

(** [patch_revision]: patch the metadata of a particular object revision.
    [testbench_utils.json_api_patch] is not part of this file and is
    taken as the function [json_api_patch] of the original dictionary,
    the patch and the keys to recurse on.  The loop visits the items of
    the patch in the order of the dictionary. *)
Definition writeable_keys : list string := [
  "acl"; "cacheControl"; "contentDisposition"; "contentEncoding";
  "contentLanguage"; "contentType"; "metadata"].

Definition patch_revision
    (json_api_patch : gmap string pyval -> gmap string pyval -> list string ->
                      result (gmap string pyval))
    (request : Request) : M t GcsObjectVersion.t :=
  self <- get_self ;;
  found <-
    match args request !! "generation" with
    | None => ret (generation self, get_latest self)
    | Some generation =>
        g <- lift (Py.int generation) ;;
        match revisions self !! g with
        | None =>
            raise (ErrorResponse
                     ("Precondition Failed: generation " ++ generation ++ " not found")
                     default_status_code)
        | Some version => ret (Some g, Some version)
        end
    end ;;
  patch <- lift (loads (data request)) ;;
  patch <- lift (match patch with VDict d => Ok d | _ => Raise AttributeError end) ;;
  match List.find (fun kv => negb (bool_decide (kv.1 ∈ writeable_keys)))
          (map_to_list patch) with
  | Some (key, _) =>
      raise (ErrorResponse ("Invalid metadata change. " ++ key ++ " is not writeable") 503)
  | None =>
      match found with
      | (Some g, Some version) =>
          patched <- lift (json_api_patch (GcsObjectVersion.metadata version) patch
                             ["metadata"]) ;;
          metageneration <-
            lift (Py.add1 (default (VInt 0) (patched !! "metageneration"))) ;;
          let version :=
            GcsObjectVersion.set_metadata
              (<["metageneration" := metageneration]> patched) version in
          modify_self (fun self =>
            set_revisions (<[g := version]> (revisions self)) self) ;;;
          ret version
      | _ => raise AttributeError
      end
  end.

(** [copy_from]: insert a new revision with the media of
    [source_revision]. *)
Definition copy_from (gcs_url : string) (request : Request) (now : string)
    (source_revision : GcsObjectVersion.t) : M t GcsObjectVersion.t :=
  g <- increment_generation ;;
  lift (fst (GcsObjectVersion.validate_encryption_for_read request
               "x-goog-encryption" source_revision)) ;;;
  self <- get_self ;;
  revision <- lift (GcsObjectVersion.new gcs_url (bucket_name self) (name self) g
                      request (GcsObjectVersion.media source_revision) now) ;;
  revision <- lift (call (GcsObjectVersion.reset_predefined_acl
                            (args request !! "destinationPredefinedAcl")) revision) ;;
  metadata <- lift (loads (data request)) ;;
  patch <- lift (as_update metadata) ;;
  revision <- lift (call (GcsObjectVersion.update_from_metadata now patch) revision) ;;
  _insert_revision revision ;;;
  ret revision.

(** [compose_from]: insert a new revision holding [composed_media]. *)
Definition compose_from (gcs_url : string) (request : Request) (now : string)
    (composed_media : string) : M t GcsObjectVersion.t :=
  g <- increment_generation ;;
  self <- get_self ;;
  revision <- lift (GcsObjectVersion.new gcs_url (bucket_name self) (name self) g
                      request composed_media now) ;;
  revision <- lift (call (GcsObjectVersion.reset_predefined_acl
                            (args request !! "destinationPredefinedAcl")) revision) ;;
  payload <- lift (loads (data request)) ;;
  destination <- lift (Py.get payload "destination" VNone) ;;
  revision <-
    (if is_none (Some destination) then ret revision
     else
       patch <- lift (as_update destination) ;;
       lift (call (GcsObjectVersion.update_from_metadata now patch) revision)) ;;
  _insert_revision revision ;;;
  ret revision.

End Methods.
End GcsObject.

(** ** Vocabulary of the statements *)

(** [preserves R c]: whatever its outcome, [c] takes a state to an
    [R]-related one. *)
Definition preserves {S A} (R : S -> S -> Prop) (c : M S A) : Prop :=
  forall s, R s (c s).2.

(** Two revisions that differ at most in the metadata stored under the
    keys of [ks]. *)
Definition same_except `{Collaborators} (ks : list string)
    (a b : GcsObjectVersion.t) : Prop :=
  GcsObjectVersion.gcs_url a = GcsObjectVersion.gcs_url b /\
  GcsObjectVersion.bucket_name a = GcsObjectVersion.bucket_name b /\
  GcsObjectVersion.name a = GcsObjectVersion.name b /\
  GcsObjectVersion.generation a = GcsObjectVersion.generation b /\
  GcsObjectVersion.object_id a = GcsObjectVersion.object_id b /\
  GcsObjectVersion.media a = GcsObjectVersion.media b /\
  forall k, k ∉ ks ->
    GcsObjectVersion.metadata b !! k = GcsObjectVersion.metadata a !! k.

(** The metadata keys the ACL and encryption methods assign. *)
Definition acl_keys : list string := ["acl"; "customerEncryption"].

(** The state a precondition is checked against, as the rules read it:
    the object is absent, its generation counting as 0, or it has a
    current generation and metageneration. *)
Inductive object_state :=
| Absent
| Present (generation metageneration : Z).

Definition state_generation (st : object_state) : Z :=
  match st with
  | Absent => 0
  | Present g _ => g
  end.

(** The four rules, one per condition; an absent condition is always
    satisfied.  A supplied value counts through the integer it denotes. *)
Definition generation_match_passes (st : object_state) (v : option string) : Prop :=
  match v with
  | None => True
  | Some s => Py.int_of_str s = Some (state_generation st)
  end.

Definition generation_not_match_passes (st : object_state) (v : option string) : Prop :=
  match v with
  | None => True
  | Some s => exists n, Py.int_of_str s = Some n /\ n <> state_generation st
  end.

Definition metageneration_match_passes (st : object_state) (v : option string) : Prop :=
  match v, st with
  | None, _ => True
  | Some _, Absent => False
  | Some s, Present _ mg => Py.int_of_str s = Some mg
  end.

Definition metageneration_not_match_passes (st : object_state) (v : option string) : Prop :=
  match v, st with
  | None, _ => True
  | Some _, Absent => False
  | Some s, Present _ mg => exists n, Py.int_of_str s = Some n /\ n <> mg
  end.

Definition conditions_pass (st : object_state)
    (generation_match generation_not_match
     metageneration_match metageneration_not_match : option string) : Prop :=
  generation_match_passes st generation_match /\
  generation_not_match_passes st generation_not_match /\
  metageneration_match_passes st metageneration_match /\
  metageneration_not_match_passes st metageneration_not_match.

(** The object states the rules speak of: generation 0 for the absent
    object, or a current generation whose revision is stored. *)
Definition describes `{Collaborators} (self : GcsObject.t) (st : object_state) : Prop :=
  match st with
  | Absent => GcsObject.generation self = Some 0
  | Present g mg =>
      g <> 0 /\ GcsObject.generation self = Some g /\
      exists current,
        GcsObject.revisions self !! g = Some current /\
        GcsObjectVersion.metadata current !! "metageneration" = Some (VInt mg)
  end.

(** The three ways to upload a revision; the multipart decoder runs on
    fuel. *)
Inductive upload :=
| Simple
| Multipart (fuel : nat)
| Xml.

(** One upload call; [None] when the multipart decoding does not
    finish. *)
Definition run_upload `{Collaborators} (u : upload) (gcs_url : string)
    (request : Request) (now : string) (self : GcsObject.t)
    : option (result GcsObjectVersion.t * GcsObject.t) :=
  match u with
  | Simple => Some (GcsObject.insert gcs_url request now self)
  | Multipart fuel => GcsObject.insert_multipart fuel gcs_url request now self
  | Xml => Some (GcsObject.insert_xml gcs_url request now self)
  end.

(** A sequence of upload calls on one object, every one of which
    succeeds: the revision each call returns, with the object as the call
    leaves it.  [None] when some call raises or does not return. *)
Fixpoint run_uploads `{Collaborators}
    (calls : list (upload * string * Request * string)) (self : GcsObject.t)
    : option (list (GcsObjectVersion.t * GcsObject.t)) :=
  match calls with
  | [] => Some []
  | (u, gcs_url, request, now) :: rest =>
      match run_upload u gcs_url request now self with
      | Some (Ok revision, self') =>
          trace ← run_uploads rest self';
          Some ((revision, self') :: trace)
      | _ => None
      end
  end.

(** Whether a string contains the separator of the token fields. *)
Fixpoint has_slash (s : string) : bool :=
  match s with
  | EmptyString => false
  | String c s' => Ascii.eqb c "/" || has_slash s'
  end.

(** A request that starts a rewrite: it carries no token, or the empty
    one. *)
Definition starts_rewrite (request : Request) : Prop :=
  args request !! "rewriteToken" = None \/
  args request !! "rewriteToken" = Some EmptyString.

(** The generation [make_rewrite_operation] resolves for the source. *)
Definition source_generation `{Collaborators} (request : Request)
    (self : GcsObject.t) : result (option Z) :=
  match args request !! "sourceGeneration" with
  | None => Ok (GcsObject.generation self)
  | Some s => (g <- Py.int s ;; Ok (Some g))%result
  end.

(** The operation [make_rewrite_operation] builds when [rewrite_step]
    calls it (with the destination bucket in both destination
    positions). *)
Definition started_operation `{Collaborators} (request : Request)
    (destination_bucket : string) (self : GcsObject.t)
    (generation : option Z) (body : pyval) : GcsObject.RewriteOperation :=
  {| GcsObject.id := GcsObject.rewrite_token_generator self + 1;
     GcsObject.original_arguments :=
       GcsObject.capture_rewrite_operation_arguments request
         destination_bucket destination_bucket;
     GcsObject.actual_generation := generation;
     GcsObject.bytes_rewritten := 0;
     GcsObject.body := body |}.

(** The source of a rewrite passes the encryption check of a request. *)
Definition source_readable `{Collaborators} (request : Request)
    (source : GcsObjectVersion.t) : Prop :=
  (GcsObjectVersion.validate_encryption_for_read request
     "x-goog-copy-source-encryption" source).1 = Ok tt.

(** Every token of the table ends with the byte count of the operation
    stored under it, as [make_rewrite_token] builds it. *)
Definition tokens_wf `{Collaborators} (self : GcsObject.t) : Prop :=
  forall token op,
    GcsObject.rewrite_operations self !! token = Some op ->
    exists fields,
      token = b64encode (fields ++ String "/" (Py.str (GcsObject.bytes_rewritten op))).

(** Every stored operation holds arguments captured by
    [capture_rewrite_operation_arguments]. *)
Definition arguments_wf `{Collaborators} (self : GcsObject.t) : Prop :=
  forall token op,
    GcsObject.rewrite_operations self !! token = Some op ->
    exists request destination,
      GcsObject.original_arguments op =
        GcsObject.capture_rewrite_operation_arguments request destination destination.

(** Two objects with the same table of rewrite operations. *)
Definition same_operations `{Collaborators} (a b : GcsObject.t) : Prop :=
  GcsObject.rewrite_operations a = GcsObject.rewrite_operations b.

(** The access-control list of a revision: [self.metadata.get('acl', [])]. *)
Definition acl_of `{Collaborators} (self : GcsObjectVersion.t) : pyval :=
  default (VList []) (GcsObjectVersion.metadata self !! "acl").

(** The entity of an ACL entry. *)
Definition entry_entity (e : pyval) : option string :=
  match e with
  | VDict d => match d !! "entity" with Some (VStr s) => Some s | _ => None end
  | _ => None
  end.

(** An access-control list as the data model has it: every entry names
    its entity, and no two entries name the same. *)
Definition acl_wf (l : list pyval) : Prop :=
  Forall (fun e => is_Some (entry_entity e)) l /\ NoDup (entry_entity <$> l).

(** The entries of the access-control list of a revision. *)
Definition acl_entries `{Collaborators} (self : GcsObjectVersion.t) : list pyval :=
  match acl_of self with
  | VList l => l
  | _ => []
  end.

(** A revision the ACL methods can work on: its access-control list is
    well formed, and its id and selfLink are strings. *)
Definition acl_ready `{Collaborators} (self : GcsObjectVersion.t) : Prop :=
  (exists l, acl_of self = VList l /\ acl_wf l) /\
  (exists id, default (VStr "") (GcsObjectVersion.metadata self !! "id") = VStr id) /\
  (exists selfLink, GcsObjectVersion.metadata self !! "selfLink" = Some (VStr selfLink)).

(** The names [_update_predefined_acl] knows. *)
Definition predefined_acls : list string := [
  "authenticatedRead"; "bucketOwnerFullControl"; "bucketOwnerRead";
  "private"; "projectPrivate"; "publicRead"].

(** The bucket names no owner, or names it by an entity string. *)
Definition bucket_owner_ok (bucket : GcsBucket) : Prop :=
  match bucket_metadata bucket !! "owner" with
  | None | Some VNone => True
  | Some (VDict d) => exists e, d !! "entity" = Some (VStr e)
  | Some _ => False
  end.

(** The owner entity [_update_predefined_acl] reads off the bucket. *)
Definition bucket_owner_entity (bucket : GcsBucket) : string :=
  match bucket_metadata bucket !! "owner" with
  | Some (VDict d) =>
      match d !! "entity" with Some (VStr e) => e | _ => "" end
  | _ => "project-owners-123456789"
  end.

(** The entities [_update_predefined_acl] inserts for a policy, before
    [insert_acl] canonicalises them once more. *)
Definition predefined_entities `{Collaborators} (bucket : GcsBucket)
    (predefined_acl : string) : list string :=
  canonical_entity_name "project-owners-123456789" ::
  (if String.eqb predefined_acl "authenticatedRead" then ["allAuthenticatedUsers"]
   else if String.eqb predefined_acl "bucketOwnerFullControl"
        then [bucket_owner_entity bucket]
   else if String.eqb predefined_acl "bucketOwnerRead" then [bucket_owner_entity bucket]
   else if String.eqb predefined_acl "private" then ["project-owners"]
   else if String.eqb predefined_acl "projectPrivate"
        then [canonical_entity_name "project-editors-123456789";
              canonical_entity_name "project-viewers-123456789"]
   else if String.eqb predefined_acl "publicRead" then [canonical_entity_name "allUsers"]
   else []).

(** The request asks for no customer-supplied encryption key, or for one
    whose headers are valid. *)
Definition encryption_headers_ok `{Collaborators} (request : Request) : Prop :=
  match headers request !! "x-goog-encryption-key" with
  | None => True
  | Some _ =>
      validate_customer_encryption_headers
        (headers request !! "x-goog-encryption-key")
        (headers request !! "x-goog-encryption-key-sha256")
        (headers request !! "x-goog-encryption-algorithm") = Ok tt
  end.

(** The predefined ACLs the request asks for, under [predefinedAcl] and
    under [x-goog-acl], are known ones. *)
Definition acl_request_ok (request : Request) : Prop :=
  match args request !! "predefinedAcl" with
  | None => True
  | Some p => p ∈ predefined_acls
  end /\
  match headers request !! "x-goog-acl" with
  | None => True
  | Some acl => is_Some (GcsObjectVersion.acl2json_mapping !! acl)
  end.

(** [self'] is [self] after the insertion of ACL entries for the
    entities [xs]: it is still ready for the ACL methods, nothing outside
    the ACL has changed, every entity of [xs] has an entry, and every
    other entry is an old one. *)
Definition acl_inserted `{Collaborators} (xs : list string)
    (self self' : GcsObjectVersion.t) : Prop :=
  acl_ready self' /\
  same_except acl_keys self self' /\
  (forall e, e ∈ acl_entries self' ->
     e ∈ acl_entries self \/
     exists x, x ∈ xs /\ entry_entity e = Some (canonical_entity_name x)) /\
  (forall x, x ∈ xs ->
     exists e, e ∈ acl_entries self' /\ entry_entity e = Some (canonical_entity_name x)).

(** Whether a character occurs in a string. *)
Fixpoint contains (x : ascii) (s : string) : bool :=
  match s with
  | EmptyString => false
  | String c s' => Ascii.eqb c x || contains x s'
  end.

(** A header a multipart part can carry so that [_parse_part] reads it
    back: neither the key nor the value holds a colon or a carriage
    return, and the key is ASCII. *)
Definition header_ok (kv : string * string) : Prop :=
  contains ":" kv.1 = false /\
  contains (ascii_of_nat 13) kv.1 = false /\
  forallb (fun c => (nat_of_ascii c <? 128)%nat) (list_ascii_of_string kv.1) = true /\
  contains ":" kv.2 = false /\
  contains (ascii_of_nat 13) kv.2 = false.

(** A part of a multipart body: the header lines, an empty line, the
    payload. *)
Definition render_part (headers : list (string * string)) (payload : string) : string :=
  foldr (fun kv rest => kv.1 ++ ": " ++ kv.2 ++ CRLF ++ rest) (CRLF ++ payload) headers.

(** ** A testbench to run the code on

    Stand-ins for the collaborators, with the interfaces above: enough
    to execute the methods on concrete requests. *)

Module Demo.

(** Decodes the empty JSON object, surrounded by blanks or not, and
    refuses everything else, the empty string included. *)
Definition read_json (s : string) : option pyval :=
  if String.eqb (Py.strip s) "{}" then Some (VDict ∅) else None.

Definition show_value (v : pyval) : string :=
  match v with
  | VStr s => s
  | VInt z => Py.str z
  | VNone => "None"
  | VBool true => "True"
  | VBool false => "False"
  | VList _ => "[...]"
  | VDict _ => "{...}"
  end.

(** One bucket without versioning, one with. *)
Definition find_bucket (bucket_name : string) : result GcsBucket :=
  if String.eqb bucket_name "bucket" then
    Ok {| bucket_metadata := ∅; versioning_enabled := false |}
  else if String.eqb bucket_name "versioned" then
    Ok {| bucket_metadata := ∅; versioning_enabled := true |}
  else Raise (ErrorResponse ("Bucket " ++ bucket_name ++ " not found") 404).

(** A 16-byte digest read off the front of the payload, and the identity
    as the encoding: two injective-enough stand-ins whose cost does not
    grow with the payload. *)
Definition digest (media : string) : string :=
  Py.stake 16 (media ++ "................").

#[export] Instance collaborators : Collaborators := {|
  md5_digest := digest;
  b64encode := fun s => s;
  json_loads := read_json;
  format_value := show_value;
  canonical_entity_name := fun entity => entity;
  corrupt_media := fun media => String "!" media;
  extract_media := data;
  lookup_bucket := find_bucket;
  validate_customer_encryption_headers := fun _ _ _ => Ok tt;
  csek_error := ErrorResponse "Missing a SHA256 hash of the encryption key" 400;
|}.

Definition gcs_url : string := "http://localhost/storage/v1/b/bucket/o/".
Definition now : string := "2018-01-01T00:00:00Z".

Definition request (a h : list (string * string)) (body : string) : Request :=
  {| args := list_to_map a; headers := list_to_map h; data := body |}.

(** [s] repeated [2^k] times. *)
Fixpoint doubled (k : nat) (s : string) : string :=
  match k with
  | O => s
  | S k' => let t := doubled k' s in t ++ t
  end.

(** A payload of exactly 3 MiB. *)
Definition three_mib : string := doubled 20 "abc".

(** The state of an object after a call. *)
Definition after {A} (c : M GcsObject.t A) (self : GcsObject.t) : GcsObject.t :=
  (c self).2.

(** An object holding one revision, uploaded with the payload "hello". *)
Definition hello : GcsObject.t :=
  after (GcsObject.insert gcs_url (request [] [] "hello") now)
    (GcsObject.new "bucket" "object").

(** Its revision. *)
Definition hello_revision : GcsObjectVersion.t :=
  default
    (GcsObjectVersion.init_fields gcs_url "bucket" "object" 1
       (request [] [] "hello") "hello" now)
    (GcsObject.get_latest hello).

(** A revision as the constructor returns it. *)
Definition constructed : GcsObjectVersion.t :=
  match GcsObjectVersion.new gcs_url "bucket" "object" 1
          (request [] [] "hello") "hello" now with
  | Ok revision => revision
  | Raise _ =>
      GcsObjectVersion.init_fields gcs_url "bucket" "object" 1
        (request [] [] "hello") "hello" now
  end.

(** The same object after an upload that the constructor refuses for its
    [x-goog-acl] header. *)
Definition hello_after_refused_upload : GcsObject.t :=
  after (GcsObject.insert gcs_url (request [] [("x-goog-acl", "bogus")] "bye") now)
    hello.

(** An object of the versioned bucket after two uploads. *)
Definition two_generations : GcsObject.t :=
  after (GcsObject.insert gcs_url (request [] [] "second") now)
    (after (GcsObject.insert gcs_url (request [] [] "first") now)
       (GcsObject.new "versioned" "object")).

(** The body of a multipart upload: an empty resource object and the
    media "hello". *)
Definition multipart_body : string :=
  "--frontier" ++ CRLF ++
  "content-type: application/json" ++ CRLF ++ CRLF ++
  "{}" ++ CRLF ++
  "--frontier" ++ CRLF ++
  "content-type: text/plain" ++ CRLF ++ CRLF ++
  "hello" ++ CRLF ++
  "--frontier--" ++ CRLF.

Definition multipart_request : Request :=
  request [] [("content-type", "multipart/related; boundary=frontier")] multipart_body.

(** Three uploads in a row, one of each kind, into a new object of the
    bucket without versioning, and what they return. *)
Definition xml_request : Request :=
  request [] [("x-goog-hash", "crc32c=AAAAAA==,md5=hello...........")] "hello".

Definition three_uploads : list (upload * string * Request * string) :=
  [ (Simple, gcs_url, request [] [] "hello", now);
    (Xml, gcs_url, xml_request, now);
    (Multipart 10, gcs_url, multipart_request, now) ].

Definition upload_trace : list (GcsObjectVersion.t * GcsObject.t) :=
  default [] (run_uploads three_uploads (GcsObject.new "bucket" "object")).

(** An XML upload of "hello" that declares another digest. *)
Definition wrong_md5_request : Request :=
  request [] [("x-goog-hash", "md5=AAAA")] "hello".

(** The ACL list of the revision of [hello]. *)
Definition hello_acl : list pyval :=
  match acl_of hello_revision with
  | VList l => l
  | _ => []
  end.

Definition viewers_entry : pyval :=
  default VNone (hello_acl !! 2%nat).

(** An object whose one revision holds 3 MiB, in a registry of its
    own. *)
Definition big : GcsObject.t :=
  after (GcsObject.insert gcs_url (request [] [] three_mib) now)
    (GcsObject.new "bucket" "big").

Definition big_revision : GcsObjectVersion.t :=
  default
    (GcsObjectVersion.init_fields gcs_url "bucket" "big" 1
       (request [] [] three_mib) three_mib now)
    (GcsObject.get_latest big).

Definition big_path : string * string := ("bucket", "big").

Definition registry : gmap (string * string) GcsObject.t := {[ big_path := big ]}.

(** The token the first and the second call of a rewrite of [big] into
    bucket/copy return. *)
Definition token1 : string := "1/bucket/copy/1/1048576".
Definition token2 : string := "1/bucket/copy/1/2097152".

(** The operation the initiating call builds, and the object once the
    call has stored it with its first megabyte. *)
Definition operation0 : GcsObject.RewriteOperation :=
  started_operation (request [] [] "{}") "bucket" big (Some 1) (VDict ∅).

Definition operation1 : GcsObject.RewriteOperation :=
  GcsObject.set_bytes_rewritten 1048576 operation0.

Definition big1 : GcsObject.t :=
  GcsObject.set_rewrite_operations
    (<[token1 := operation1]> (GcsObject.rewrite_operations big))
    (GcsObject.set_rewrite_token_generator
       (GcsObject.rewrite_token_generator big + 1) big).

(** A continuation that presents the first token with another
    [ifGenerationMatch] than the initiating request, which had none. *)
Definition drifted_request : Request :=
  request [("rewriteToken", token1); ("ifGenerationMatch", "7")] [] "{}".

(** A continuation whose body is not JSON. *)
Definition malformed_request : Request :=
  request [("rewriteToken", token1)] [] "".

(** The registry after the initiating call and after the first
    continuation. *)
Definition registry1 : gmap (string * string) GcsObject.t :=
  (GcsObject.rewrite_step big_path gcs_url (request [] [] "{}") now
     "bucket" "copy" registry).2.

Definition registry2 : gmap (string * string) GcsObject.t :=
  (GcsObject.rewrite_step big_path gcs_url
     (request [("rewriteToken", token1)] [] "{}") now "bucket" "copy" registry1).2.

(** A patch that tries to rename the revision. *)
Definition renaming_patch : gmap string pyval :=
  list_to_map [("contentType", VStr "text/plain"); ("name", VStr "other")].

Definition hello_renamed : GcsObjectVersion.t :=
  (GcsObjectVersion.update_from_metadata now renaming_patch hello_revision).2.

(** An upload that asks for two predefined ACLs. *)
Definition acl_request : Request :=
  request [("predefinedAcl", "private")] [("x-goog-acl", "public-read")] "hello".

(** An upload with a customer-supplied encryption key. *)
Definition encrypted_request : Request :=
  request []
    [("x-goog-encryption-key", "key");
     ("x-goog-encryption-key-sha256", "hash");
     ("x-goog-encryption-algorithm", "AES256")] "hello".

Definition hello_encrypted : GcsObjectVersion.t :=
  (GcsObjectVersion._capture_customer_encryption encrypted_request hello_revision).2.

(** Two uploads into the versioned bucket. *)
Definition versioned_uploads : list (upload * string * Request * string) :=
  [ (Simple, gcs_url, request [] [] "first", now);
    (Xml, gcs_url, request [] [] "second", now) ].

Definition versioned_trace : list (GcsObjectVersion.t * GcsObject.t) :=
  default [] (run_uploads versioned_uploads (GcsObject.new "versioned" "object")).

(** The registry holding [hello] alone. *)
Definition hello_path : string * string := ("bucket", "object").

Definition hello_registry : gmap (string * string) GcsObject.t :=
  {[hello_path := hello]}.

(** A stand-in for [testbench_utils.json_api_patch]: the patch laid over
    the original. *)
Definition overlay (original patch : gmap string pyval) (recurse_on : list string)
    : result (gmap string pyval) :=
  Ok (patch ∪ original).

(** The bucket [find_bucket] answers for "bucket". *)
Definition plain_bucket : GcsBucket :=
  {| bucket_metadata := ∅; versioning_enabled := false |}.

(** A second reading of request bodies, for the examples that need a
    non-empty JSON object: the body names one key, which is given the
    string value "x".  The other collaborators are as before. *)
Definition read_key (s : string) : option pyval :=
  if String.eqb s "" then None else Some (VDict {[s := VStr "x"]}).

Definition keyed_collaborators : Collaborators := {|
  md5_digest := digest;
  b64encode := fun s => s;
  json_loads := read_key;
  format_value := show_value;
  canonical_entity_name := fun entity => entity;
  corrupt_media := fun media => String "!" media;
  extract_media := data;
  lookup_bucket := find_bucket;
  validate_customer_encryption_headers := fun _ _ _ => Ok tt;
  csek_error := ErrorResponse "Missing a SHA256 hash of the encryption key" 400;
|}.

(** A rewrite operation on [hello], as an initiating call builds it. *)
Definition small_operation : GcsObject.RewriteOperation :=
  started_operation (request [] [] "{}") "bucket" hello (Some 1) (VDict ∅).

(** The registry holding the object whose last upload was refused. *)
Definition dangling_registry : gmap (string * string) GcsObject.t :=
  {[hello_path := hello_after_refused_upload]}.

(** An access-control list that names the entity "a" twice, and the
    revision of [hello] once an update has stored it. *)
Definition acl_entry (entity role : string) : pyval :=
  VDict (list_to_map [("entity", VStr entity); ("role", VStr role)]).

Definition repeated_acl : list pyval :=
  [acl_entry "a" "READER"; acl_entry "a" "OWNER"; acl_entry "b" "READER"].

Definition hello_repeated : GcsObjectVersion.t :=
  (GcsObjectVersion.update_from_metadata now {["acl" := VList repeated_acl]}
     hello_revision).2.

End Demo.

(** * Properties *)

Set Warnings "-clear-no-such-hyp".

Example find_examples :
  Py.find "ab: c" ": " 0 = 2 /\ Py.find "abc" "x" 0 = -1 /\ Py.find "abc" "c" 5 = -1.
Proof. repeat split; reflexivity. Qed.

(** ** Reasoning about methods *)

Section Preserves.
Context {S : Type} (R : S -> S -> Prop) `{!Reflexive R, !Transitive R}.

Lemma preserves_ret {A} (a : A) : preserves R (ret a).
Proof. intros s. reflexivity. Qed.

Lemma preserves_raise {A} e : preserves R (@raise S A e).
Proof. intros s. reflexivity. Qed.

Lemma preserves_lift {A} (r : result A) : preserves R (lift r).
Proof. intros s. reflexivity. Qed.

Lemma preserves_get_self : preserves R (@get_self S).
Proof. intros s. reflexivity. Qed.

Lemma preserves_bind {A B} (c : M S A) (k : A -> M S B) :
  preserves R c -> (forall a, preserves R (k a)) -> preserves R (bind c k).
Proof.
  intros Hc Hk s. unfold bind. specialize (Hc s).
  destruct (c s) as [[a|e] s1]; simpl in *; [|done].
  etrans; [exact Hc|apply Hk].
Qed.

End Preserves.

(** Membership of a string in a list of literals, and its negation. *)
Ltac in_literals :=
  repeat first [apply list_elem_of_here | apply list_elem_of_further].
Ltac not_in_literals :=
  let H := fresh in
  intros H;
  repeat (apply elem_of_cons in H as [H|H]; [discriminate H|]);
  by apply elem_of_nil in H.

(** ** Facts about [GcsObjectVersion] *)

Section VersionFacts.
Context `{C : Collaborators}.
Import GcsObjectVersion.

Lemma same_except_refl ks : Reflexive (same_except ks).
Proof. intros a. unfold same_except. naive_solver. Qed.

Lemma same_except_trans ks : Transitive (same_except ks).
Proof.
  intros a b c (?&?&?&?&?&?&Hab) (?&?&?&?&?&?&Hbc). unfold same_except.
  repeat split; try congruence. intros k Hk. rewrite Hbc, Hab; done.
Qed.

Lemma preserves_setitem ks k v : k ∈ ks -> preserves (same_except ks) (setitem k v).
Proof.
  intros Hk s. unfold setitem, modify_self, same_except; simpl.
  repeat split; try done. intros k' Hk'. rewrite lookup_insert_ne; [done|].
  intros ->. done.
Qed.

Ltac preserves_step :=
  first
    [ apply preserves_ret; apply same_except_refl
    | apply preserves_raise; apply same_except_refl
    | apply preserves_lift; apply same_except_refl
    | apply preserves_get_self; apply same_except_refl
    | apply preserves_setitem; unfold acl_keys; in_literals
    | apply preserves_bind; [apply same_except_trans| |intros ?]
    | match goal with
      | |- preserves _ (match ?x with _ => _ end) => destruct x
      | |- preserves _ (if ?x then _ else _) => destruct x
      end ].

Lemma preserves_insert_acl entity role :
  preserves (same_except acl_keys) (insert_acl entity role).
Proof. unfold insert_acl. repeat preserves_step. Qed.

Lemma preserves_capture_customer_encryption request :
  preserves (same_except acl_keys) (_capture_customer_encryption request).
Proof. unfold _capture_customer_encryption. repeat preserves_step. Qed.

Lemma preserves_update_predefined_acl predefined_acl :
  preserves (same_except acl_keys) (_update_predefined_acl predefined_acl).
Proof.
  unfold _update_predefined_acl.
  repeat first [apply preserves_insert_acl | preserves_step].
Qed.

(** What [update_from_metadata] does, case by case: a metageneration
    that cannot be incremented stops the call before [self.metadata] is
    assigned; otherwise the merged dictionary is stored, and the outcome
    is that of the validation which follows. *)
Lemma update_from_metadata_eq now patch self :
  update_from_metadata now patch self =
  match Py.add1 (default (VInt 0) (merged now patch self !! "metageneration")) with
  | Raise e => (Raise e, self)
  | Ok mg =>
      let tmp := <["metageneration" := mg]> (merged now patch self) in
      let actual := default (VStr "") (tmp !! "md5Hash") in
      let expected := md5_b64 (media self) in
      (if Py.eq_str actual expected then Ok tt
       else Raise (mismatched_md5 expected actual),
       set_metadata tmp self)
  end.
Proof.
  unfold update_from_metadata, _validate_hashes.
  unfold bind, get_self, lift, put_self, raise, ret.
  destruct (Py.add1 _) as [mg|e]; [|reflexivity]. simpl.
  destruct (Py.eq_str _ _); reflexivity.
Qed.

Lemma merged_lookup_other now patch self k :
  k ∉ ["kind"; "bucket"; "name"; "id"; "selfLink"; "projectNumber"; "updated"] ->
  merged now patch self !! k = (patch ∪ metadata self) !! k.
Proof.
  intros Hk. unfold merged.
  repeat (rewrite lookup_insert_ne; [|intros <-; apply Hk; in_literals]). done.
Qed.

Lemma init_body_same_except request now self0 :
  same_except acl_keys
    (update_from_metadata now ∅ self0).2 (init_body request now self0).2.
Proof.
  unfold init_body. unfold bind at 1.
  destruct (update_from_metadata now ∅ self0) as [[[]|e] s1]; simpl;
    [|apply same_except_refl].
  match goal with |- same_except _ ?s (?c ?s).2 =>
    revert s; change (preserves (same_except acl_keys) c) end.
  repeat first [ apply preserves_capture_customer_encryption
               | apply preserves_update_predefined_acl
               | preserves_step ].
Qed.

Lemma init_body_metageneration request now self0 self :
  metadata self0 !! "metageneration" = Some (VInt 0) ->
  init_body request now self0 = (Ok tt, self) ->
  metadata self !! "metageneration" = Some (VInt 1).
Proof.
  intros H0 Hrun.
  pose proof (init_body_same_except request now self0) as Hp.
  rewrite Hrun in Hp. simpl in Hp.
  destruct Hp as (_&_&_&_&_&_&Hp). rewrite Hp by (unfold acl_keys; not_in_literals).
  rewrite update_from_metadata_eq.
  rewrite merged_lookup_other by not_in_literals.
  rewrite lookup_union_r by apply lookup_empty.
  rewrite H0. simpl. apply lookup_insert_eq.
Qed.

(** What the constructor leaves in the fields and under the metadata
    keys it does not hand to the ACL and encryption methods. *)
Lemma new_revision_fields
    gcs_url bucket_name name generation request media now revision :
  GcsObjectVersion.new gcs_url bucket_name name generation request media now
    = Ok revision ->
  let self0 := init_fields gcs_url bucket_name name generation request media now in
  GcsObjectVersion.generation revision = generation /\
  GcsObjectVersion.bucket_name revision = bucket_name /\
  GcsObjectVersion.name revision = name /\
  GcsObjectVersion.media revision = GcsObjectVersion.media self0 /\
  metadata revision !! "md5Hash" = Some (VStr (md5_b64 (GcsObjectVersion.media revision))) /\
  metadata revision !! "metadata" = None /\
  metadata revision !! "metageneration" = Some (VInt 1).
Proof.
  intros Hnew self0. unfold GcsObjectVersion.new in Hnew. fold self0 in Hnew.
  destruct (init_body _ _ _) as [[[]|e] self] eqn:Hrun; [|done].
  injection Hnew as ->.
  pose proof (init_body_same_except request now self0) as Hp.
  rewrite Hrun in Hp. simpl in Hp.
  rewrite update_from_metadata_eq in Hp.
  assert (Hmg : merged now ∅ self0 !! "metageneration" = Some (VInt 0)).
  { rewrite merged_lookup_other by not_in_literals.
    rewrite lookup_union_r by apply lookup_empty.
    unfold self0, init_fields; simpl.
    destruct (headers request !! "content-type");
      repeat (rewrite lookup_insert_ne by done); by rewrite ?lookup_insert_eq. }
  rewrite Hmg in Hp. simpl in Hp.
  destruct Hp as (_&Hb&Hn&Hg&_&Hm&Hp). simpl in *.
  rewrite <- Hg, <- Hb, <- Hn, <- Hm.
  repeat split; try reflexivity.
  - rewrite Hp by (unfold acl_keys; not_in_literals).
    rewrite lookup_insert_ne by done.
    rewrite merged_lookup_other by not_in_literals.
    rewrite lookup_union_r by apply lookup_empty.
    unfold self0, init_fields; simpl.
    destruct (headers request !! "content-type"); simpl;
      repeat (rewrite lookup_insert_ne by done); by rewrite ?lookup_insert_eq.
  - rewrite Hp by (unfold acl_keys; not_in_literals).
    rewrite lookup_insert_ne by done.
    rewrite merged_lookup_other by not_in_literals.
    rewrite lookup_union_r by apply lookup_empty.
    unfold self0, init_fields; simpl.
    destruct (headers request !! "content-type"); simpl;
      repeat (rewrite lookup_insert_ne by done); by rewrite ?lookup_empty.
  - rewrite Hp by (unfold acl_keys; not_in_literals). apply lookup_insert_eq.
Qed.

(** C2 (not met by the code).  When the update would leave the stored
    md5Hash different from the checksum of the payload, the call fails
    with the checksum-mismatch error, but the revision is not left in its
    pre-call state: [self.metadata] is assigned before the validation, so
    the merged dictionary, with the mismatched md5Hash and the
    incremented metageneration, is what the revision holds afterwards. *)
Theorem update_from_metadata_keeps_mismatched_state now patch self mg :
  let tmp := <["metageneration" := mg]> (merged now patch self) in
  let actual := default (VStr "") (tmp !! "md5Hash") in
  let expected := md5_b64 (media self) in
  Py.add1 (default (VInt 0) (merged now patch self !! "metageneration")) = Ok mg ->
  Py.eq_str (default (VStr "") (metadata self !! "md5Hash")) expected = true ->
  Py.eq_str actual expected = false ->
  exists self',
    update_from_metadata now patch self = (Raise (mismatched_md5 expected actual), self') /\
    metadata self' = tmp /\
    metadata self' <> metadata self /\
    Py.eq_str (default (VStr "") (metadata self' !! "md5Hash")) (md5_b64 (media self'))
      = false.
Proof.
  intros tmp actual expected Hmg Hpre Hpost.
  exists (set_metadata tmp self). rewrite update_from_metadata_eq, Hmg. simpl.
  fold tmp. fold actual. fold expected. rewrite Hpost.
  split; [reflexivity|]. split; [reflexivity|]. split; [|reflexivity].
  simpl. intros Heq. subst actual. rewrite Heq in Hpost. congruence.
Qed.

End VersionFacts.


(** ** Facts about [GcsObject] *)

Section ObjectFacts.
Context `{C : Collaborators}.
Import GcsObject.

(** C5 (not met by the code).  A [del_revision] whose request names the
    current generation, while other revisions remain, deletes that
    revision and returns [False], but leaves [self.generation] as it was:
    the query parameter is a string, and the comparison
    [generation == self.generation] of a string with an integer is never
    true.  The pointer then names a generation that is no longer a key of
    the non-empty revisions mapping. *)
Theorem del_revision_named_current_generation_dangles request self s g :
  args request !! "generation" = Some s ->
  Py.int_of_str s = Some g ->
  generation self = Some g ->
  is_Some (revisions self !! g) ->
  (exists g', g' <> g /\ is_Some (revisions self !! g')) ->
  exists self',
    del_revision request self = (Ok false, self') /\
    generation self' = Some g /\
    revisions self' = delete g (revisions self) /\
    revisions self' <> ∅ /\
    revisions self' !! g = None.
Proof.
  intros Hreq Hint Hgen [v Hv] (g' & Hne & [v' Hv']).
  exists (set_revisions (delete g (revisions self)) self).
  assert (Hsize : size (delete g (revisions self)) <> 0%nat).
  { intros H0. apply map_size_empty_inv in H0.
    assert (delete g (revisions self) !! g' = Some v') as Hl
      by (rewrite lookup_delete_ne; done).
    rewrite H0, lookup_empty in Hl. done. }
  split.
  - unfold del_revision, bind, get_self, lift, put_self, ret.
    rewrite Hreq. unfold int_generation, Py.int. rewrite Hint, Hv. simpl.
    rewrite bool_decide_eq_false_2 by done. reflexivity.
  - simpl. repeat split; [done| |apply lookup_delete_eq].
    intros H0. apply Hsize. rewrite H0. apply map_size_empty.
Qed.

Lemma last_elem_of {A} (l : list A) x : last l = Some x -> x ∈ l.
Proof.
  intros H. apply last_Some in H as [l' ->]. apply elem_of_app. right. by left.
Qed.

(** With the generation defaulted to the current one, the pointer is
    moved to a surviving revision. *)
Lemma del_revision_default_generation request self g :
  args request !! "generation" = None ->
  generation self = Some g ->
  is_Some (revisions self !! g) ->
  exists self' b,
    del_revision request self = (Ok b, self') /\
    revisions self' = delete g (revisions self) /\
    (revisions self' <> ∅ ->
     exists g', generation self' = Some g' /\ is_Some (revisions self' !! g')).
Proof.
  intros Hreq Hgen [v Hv].
  unfold del_revision, bind, get_self, lift, put_self, ret.
  rewrite Hreq, Hgen. simpl. rewrite Hv. simpl.
  case_bool_decide as Hsize.
  - eexists _, _. split; [reflexivity|]. simpl. split; [done|].
    intros Hne. apply map_size_empty_inv in Hsize. done.
  - rewrite bool_decide_eq_true_2 by done.
    eexists _, _. split; [reflexivity|]. simpl. split; [done|]. intros _.
    destruct (last (sorted_keys (delete g (revisions self)))) as [g'|] eqn:Hlast.
    + exists g'. split; [done|]. apply last_elem_of in Hlast.
      unfold sorted_keys in Hlast. rewrite merge_sort_Permutation in Hlast.
      apply list_elem_of_fmap in Hlast as ([k x] & -> & Hin).
      apply elem_of_map_to_list in Hin. eauto.
    + exfalso. apply last_None in Hlast. apply Hsize.
      assert (Hnil : (map_to_list (delete g (revisions self))).*1 = []).
      { apply Permutation_nil. rewrite <- Hlast. unfold sorted_keys.
        by rewrite merge_sort_Permutation. }
      apply fmap_nil_inv in Hnil. apply map_to_list_empty_iff in Hnil.
      rewrite Hnil. apply map_size_empty.
Qed.

End ObjectFacts.


Section Preconditions.
Context `{C : Collaborators}.
Import GcsObject.

Ltac run_check :=
  unfold check_preconditions_by_value, bind, get_self, lift, raise, ret, Py.int;
  simpl.

Lemma check_preconditions_absent self gm gnm mm mnm :
  generation self = Some 0 ->
  check_preconditions_by_value gm gnm mm mnm self = (Ok tt, self) <->
  conditions_pass Absent gm gnm mm mnm.
Proof.
  intros Hgen. unfold conditions_pass, generation_match_passes,
    generation_not_match_passes, metageneration_match_passes,
    metageneration_not_match_passes. simpl.
  run_check. rewrite Hgen.
  destruct gm as [gm|], gnm as [gnm|], mm as [mm|], mnm as [mnm|];
    repeat match goal with
      | |- context [Py.int_of_str ?s] =>
          let E := fresh "E" in destruct (Py.int_of_str s) eqn:E; simpl
      end;
    repeat (case_bool_decide; simpl);
    split; intros ?; try done; try naive_solver.
Qed.

Lemma check_preconditions_present self g mg current gm gnm mm mnm :
  g <> 0 ->
  generation self = Some g ->
  revisions self !! g = Some current ->
  GcsObjectVersion.metadata current !! "metageneration" = Some (VInt mg) ->
  check_preconditions_by_value gm gnm mm mnm self = (Ok tt, self) <->
  conditions_pass (Present g mg) gm gnm mm mnm.
Proof.
  intros Hg Hgen Hcur Hmg. unfold conditions_pass, generation_match_passes,
    generation_not_match_passes, metageneration_match_passes,
    metageneration_not_match_passes. simpl.
  run_check. unfold get_latest, get_revision_by_generation.
  rewrite Hgen. simpl. rewrite Hcur, Hmg. simpl.
  rewrite (bool_decide_eq_false_2 (Some g = Some 0)) by congruence.
  destruct gm as [gm|], gnm as [gnm|], mm as [mm|], mnm as [mnm|];
    repeat match goal with
      | |- context [Py.int_of_str ?s] =>
          let E := fresh "E" in destruct (Py.int_of_str s) eqn:E; simpl
      end;
    repeat (case_bool_decide; simpl);
    repeat match goal with
      | |- context [(?a =? ?b)] =>
          let E := fresh "E" in destruct (Z.eqb_spec a b); simpl
      end;
    split; intros ?; try done; try naive_solver.
Qed.

(** A state the rules do not speak of: the generation pointer is not 0
    and no revision is stored under it.  The two generation conditions
    are examined, the must-equal one first, and then the check fails for
    want of the revision; the metageneration conditions are never
    looked at. *)
Lemma check_preconditions_dangling self gm gnm mm mnm :
  generation self <> Some 0 ->
  get_latest self = None ->
  check_preconditions_by_value gm gnm mm mnm self =
    (Raise
       match gm with
       | Some s =>
           match Py.int_of_str s with
           | None => ValueError
           | Some n =>
               if bool_decide (Some n = generation self) then
                 match gnm with
                 | Some s' =>
                     match Py.int_of_str s' with
                     | None => ValueError
                     | Some n' =>
                         if bool_decide (Some n' = generation self)
                         then ErrorResponse "Precondition Failed" 412
                         else ErrorResponse "Object not found" 404
                     end
                 | None => ErrorResponse "Object not found" 404
                 end
               else ErrorResponse "Precondition Failed" 412
           end
       | None =>
           match gnm with
           | Some s' =>
               match Py.int_of_str s' with
               | None => ValueError
               | Some n' =>
                   if bool_decide (Some n' = generation self)
                   then ErrorResponse "Precondition Failed" 412
                   else ErrorResponse "Object not found" 404
               end
           | None => ErrorResponse "Object not found" 404
           end
       end,
     self).
Proof.
  intros Hgen Hlatest. run_check. rewrite Hlatest.
  rewrite (bool_decide_eq_false_2 (generation self = Some 0)) by done.
  destruct gm as [gm|], gnm as [gnm|];
    repeat match goal with
      | |- context [Py.int_of_str ?s] =>
          let E := fresh "E" in destruct (Py.int_of_str s) eqn:E; simpl
      end;
    repeat (case_bool_decide; simpl); reflexivity.
Qed.

(** C3 (amended).  In an object state the rules speak of (the absent
    object, whose generation is 0, or a current generation whose
    revision is stored) [check_preconditions_by_value] passes exactly
    when every supplied condition passes, an absent condition being
    always satisfied.  In any other state, where the generation pointer
    is not 0 and no revision is stored under it, the check never passes
    and the error is determined by the generation conditions alone,
    the must-equal one first: a supplied value that is no integer is a
    [ValueError], a supplied condition that fails is "Precondition
    Failed" (412), and when both pass or are absent the error is "Object
    not found" (404), whatever metageneration conditions are given. *)
Theorem check_preconditions_by_value_decides self gm gnm mm mnm :
  (forall st, describes self st ->
     check_preconditions_by_value gm gnm mm mnm self = (Ok tt, self) <->
     conditions_pass st gm gnm mm mnm) /\
  (generation self <> Some 0 -> get_latest self = None ->
   let equal_passes :=
     match gm with
     | None => True
     | Some s => exists n, Py.int_of_str s = Some n /\ Some n = generation self
     end in
   let not_equal_passes :=
     match gnm with
     | None => True
     | Some s => exists n, Py.int_of_str s = Some n /\ Some n <> generation self
     end in
   (equal_passes -> not_equal_passes ->
    check_preconditions_by_value gm gnm mm mnm self =
      (Raise (ErrorResponse "Object not found" 404), self)) /\
   (forall s, gm = Some s -> Py.int_of_str s = None ->
    check_preconditions_by_value gm gnm mm mnm self = (Raise ValueError, self)) /\
   (forall s n, gm = Some s -> Py.int_of_str s = Some n -> Some n <> generation self ->
    check_preconditions_by_value gm gnm mm mnm self =
      (Raise (ErrorResponse "Precondition Failed" 412), self)) /\
   (forall s, equal_passes -> gnm = Some s -> Py.int_of_str s = None ->
    check_preconditions_by_value gm gnm mm mnm self = (Raise ValueError, self)) /\
   (forall s n, equal_passes -> gnm = Some s -> Py.int_of_str s = Some n ->
    Some n = generation self ->
    check_preconditions_by_value gm gnm mm mnm self =
      (Raise (ErrorResponse "Precondition Failed" 412), self))).
Proof.
  split.
  - intros [|g mg]; simpl.
    + apply check_preconditions_absent.
    + intros (Hg & Hgen & current & Hcur & Hmg).
      by eapply check_preconditions_present.
  - intros Hgen Hlatest equal_passes not_equal_passes.
    rewrite (check_preconditions_dangling self gm gnm mm mnm Hgen Hlatest).
    subst equal_passes not_equal_passes.
    repeat split.
    + intros Hgm Hgnm.
      destruct gm as [s|]; [destruct Hgm as (n & -> & Hn)|];
        (destruct gnm as [s'|]; [destruct Hgnm as (n' & -> & Hn')|]);
        rewrite ?bool_decide_eq_true_2, ?bool_decide_eq_false_2 by done; reflexivity.
    + intros s -> Hs. by rewrite Hs.
    + intros s n -> Hs Hn. rewrite Hs. by rewrite bool_decide_eq_false_2.
    + intros s Hgm -> Hs. rewrite Hs.
      destruct gm as [s0|]; [destruct Hgm as (n & -> & Hn)|];
        rewrite ?bool_decide_eq_true_2 by done; reflexivity.
    + intros s n Hgm -> Hs Hn. rewrite Hs.
      destruct gm as [s0|]; [destruct Hgm as (n0 & -> & Hn0)|];
        rewrite ?bool_decide_eq_true_2 by done; reflexivity.
Qed.

End Preconditions.


Section Uploads.
Context `{C : Collaborators}.
Import GcsObject.

Lemma increment_generation_eq self g :
  generation self = Some g ->
  increment_generation self = (Ok (g + 1), set_generation (Some (g + 1)) self).
Proof. intros H. unfold increment_generation, bind, get_self. by rewrite H. Qed.

Lemma insert_revision_eq revision self g bucket :
  generation self = Some g ->
  lookup_bucket (bucket_name self) = Ok bucket ->
  _insert_revision revision self =
  (Ok tt,
   set_revisions
     (if versioning_enabled bucket then <[g := revision]> (revisions self)
      else {[g := revision]}) self).
Proof.
  intros Hg Hb. unfold _insert_revision, bind, get_self, lift, put_self.
  rewrite Hg, Hb. simpl. by destruct (versioning_enabled bucket).
Qed.

Lemma set_testbench_meta_fields k v revision revision' :
  set_testbench_meta k v revision = Ok revision' ->
  GcsObjectVersion.generation revision' = GcsObjectVersion.generation revision /\
  GcsObjectVersion.media revision' = GcsObjectVersion.media revision /\
  forall k', k' <> "metadata" ->
    GcsObjectVersion.metadata revision' !! k' = GcsObjectVersion.metadata revision !! k'.
Proof.
  unfold set_testbench_meta. intros H.
  repeat case_match; simplify_eq; simpl;
    (repeat split; [done..|]); intros; by rewrite lookup_insert_ne.
Qed.

Lemma call_update_from_metadata now patch revision revision' :
  call (GcsObjectVersion.update_from_metadata now patch) revision = Ok revision' ->
  GcsObjectVersion.generation revision' = GcsObjectVersion.generation revision /\
  GcsObjectVersion.media revision' = GcsObjectVersion.media revision /\
  exists mg,
    GcsObjectVersion.metadata revision' =
      <["metageneration" := mg]> (GcsObjectVersion.merged now patch revision) /\
    Py.eq_str (default (VStr "") (GcsObjectVersion.metadata revision' !! "md5Hash"))
      (GcsObjectVersion.md5_b64 (GcsObjectVersion.media revision')) = true.
Proof.
  unfold call. rewrite update_from_metadata_eq. intros H.
  destruct (Py.add1 _) as [mg|]; [|done]. simpl in H.
  destruct (Py.eq_str _ _) eqn:Heq; [|done]. injection H as <-. simpl.
  repeat split. exists mg. done.
Qed.

(** Every upload that returns installs the revision it returns under
    the next generation; without versioning it is the only one kept. *)
Lemma upload_installs u gcs_url request now self g bucket revision self' :
  generation self = Some g ->
  lookup_bucket (bucket_name self) = Ok bucket ->
  run_upload u gcs_url request now self = Some (Ok revision, self') ->
  self' =
    set_revisions
      (if versioning_enabled bucket then <[g + 1 := revision]> (revisions self)
       else {[g + 1 := revision]})
      (set_generation (Some (g + 1)) self) /\
  GcsObjectVersion.generation revision = g + 1.
Proof.
  intros Hg Hb Hrun.
  assert (Hins : forall revision,
    _insert_revision revision (set_generation (Some (g + 1)) self) =
    (Ok tt,
     set_revisions
       (if versioning_enabled bucket then <[g + 1 := revision]> (revisions self)
        else {[g + 1 := revision]}) (set_generation (Some (g + 1)) self))).
  { intros r.
    exact (insert_revision_eq r (set_generation (Some (g + 1)) self) (g + 1) bucket
             eq_refl Hb). }
  destruct u as [|fuel|]; simpl in Hrun.
  - injection Hrun as Hrun. unfold insert, bind in Hrun.
    rewrite (increment_generation_eq _ _ Hg) in Hrun. unfold get_self, lift, ret in Hrun.
    simpl in Hrun.
    destruct (GcsObjectVersion.new _ _ _ _ _ _ _) as [r0|] eqn:Hnew; [|done].
    destruct (set_testbench_meta _ _ r0) as [r1|] eqn:Hmeta; [|done].
    rewrite Hins in Hrun. injection Hrun as <- <-.
    split; [done|].
    apply set_testbench_meta_fields in Hmeta as (-> & _).
    by apply new_revision_fields in Hnew as (-> & _).
  - unfold insert_multipart in Hrun.
    destruct (decode_multipart fuel request) as [[[[resource_body media_headers] media_body]|]|];
      [|done..].
    injection Hrun as Hrun. unfold insert_decoded, bind in Hrun.
    rewrite (increment_generation_eq _ _ Hg) in Hrun. unfold get_self, lift, ret in Hrun.
    simpl in Hrun.
    destruct (GcsObjectVersion.new _ _ _ _ _ _ _) as [r0|] eqn:Hnew; [|done].
    destruct (loads resource_body) as [resource|]; [|done].
    destruct (set_testbench_meta _ _ r0) as [r1|] eqn:Hmeta1; [|done].
    destruct (Py.get resource _ _) as [md5|]; [|done].
    destruct (set_testbench_meta _ _ r1) as [r2|] eqn:Hmeta2; [|done].
    destruct (as_update resource) as [patch|]; [|done].
    destruct (call _ r2) as [r3|] eqn:Hupd; [|done].
    apply new_revision_fields in Hnew as (Hg0 & _).
    apply set_testbench_meta_fields in Hmeta1 as (Hg1 & _).
    apply set_testbench_meta_fields in Hmeta2 as (Hg2 & _).
    apply call_update_from_metadata in Hupd as (Hg3 & _).
    destruct (media_headers !! "content-type") as [ct|].
    + destruct (call _ r3) as [r4|] eqn:Hupd2; [|done].
      apply call_update_from_metadata in Hupd2 as (Hg4 & _).
      rewrite Hins in Hrun. injection Hrun as <- <-. split; [done|]. congruence.
    + rewrite Hins in Hrun. injection Hrun as <- <-. split; [done|]. congruence.
  - injection Hrun as Hrun. unfold insert_xml, bind in Hrun.
    rewrite (increment_generation_eq _ _ Hg) in Hrun. unfold get_self, lift, ret in Hrun.
    simpl in Hrun.
    destruct (GcsObjectVersion.new _ _ _ _ _ _ _) as [r0|] eqn:Hnew; [|done].
    destruct (set_testbench_meta _ _ r0) as [r1|] eqn:Hmeta1; [|done].
    apply new_revision_fields in Hnew as (Hg0 & _).
    apply set_testbench_meta_fields in Hmeta1 as (Hg1 & _).
    destruct (xml_md5hash request) as [md5hash|].
    + destruct (set_testbench_meta _ _ r1) as [r2|] eqn:Hmeta2; [|done].
      destruct (call _ r2) as [r3|] eqn:Hupd; [|done].
      apply set_testbench_meta_fields in Hmeta2 as (Hg2 & _).
      apply call_update_from_metadata in Hupd as (Hg3 & _).
      rewrite Hins in Hrun. injection Hrun as <- <-. split; [done|]. congruence.
    + rewrite Hins in Hrun. injection Hrun as <- <-. split; [done|]. congruence.
Qed.

(** C4.  Along any sequence of successful [insert], [insert_multipart]
    and [insert_xml] calls on an object whose bucket has versioning
    disabled, after the call number [i] (counting from 0) the revisions
    mapping is exactly the revision that call returned, stored under its
    generation, which is the generation before the sequence plus [i + 1]:
    one more than after the previous call. *)
Theorem uploads_without_versioning calls : forall self g bucket trace,
  generation self = Some g ->
  lookup_bucket (bucket_name self) = Ok bucket ->
  versioning_enabled bucket = false ->
  run_uploads calls self = Some trace ->
  forall (i : nat) revision self_i,
    trace !! i = Some (revision, self_i) ->
    revisions self_i = {[g + Z.of_nat i + 1 := revision]} /\
    GcsObjectVersion.generation revision = g + Z.of_nat i + 1 /\
    generation self_i = Some (g + Z.of_nat i + 1).
Proof.
  induction calls as [|[[[u gcs_url] request] now] rest IH];
    intros self g bucket trace Hg Hb Hv Hrun i revision self_i Hi.
  - simpl in Hrun. injection Hrun as <-. done.
  - simpl in Hrun.
    destruct (run_upload u gcs_url request now self) as [[[r|] self1]|] eqn:Hup;
      [|done..].
    destruct (run_uploads rest self1) as [trace'|] eqn:Hrest; [|done].
    simpl in Hrun. injection Hrun as <-.
    destruct (upload_installs _ _ _ _ _ _ _ _ _ Hg Hb Hup) as [-> Hr].
    rewrite Hv in *.
    destruct i as [|i]; simpl in Hi.
    + injection Hi as <- <-. simpl. rewrite Z.add_0_r. done.
    + eapply (IH _ (g + 1) bucket) in Hrest; [| done | done | done | exact Hi].
      replace (g + Z.of_nat (S i) + 1) with (g + 1 + Z.of_nat i + 1) by lia.
      exact Hrest.
Qed.

End Uploads.


Section XmlUpload.
Context `{C : Collaborators}.
Import GcsObject.

Lemma set_testbench_meta_fresh k v revision :
  GcsObjectVersion.metadata revision !! "metadata" = None ->
  set_testbench_meta k v revision =
  Ok (GcsObjectVersion.set_metadata
        (<["metadata" := VDict {[k := v]}]> (GcsObjectVersion.metadata revision))
        revision).
Proof. intros H. unfold set_testbench_meta. by rewrite H. Qed.

Lemma set_testbench_meta_again k v k0 v0 revision :
  set_testbench_meta k v
    (GcsObjectVersion.set_metadata
       (<["metadata" := VDict {[k0 := v0]}]> (GcsObjectVersion.metadata revision))
       revision) =
  Ok (GcsObjectVersion.set_metadata
        (<["metadata" := VDict (<[k := v]> {[k0 := v0]})]>
           (GcsObjectVersion.metadata revision))
        revision).
Proof.
  unfold set_testbench_meta. simpl. rewrite lookup_insert_eq.
  by rewrite insert_insert_eq.
Qed.

(** The outcome of [insert_xml] once the constructor has returned and the
    request declares an md5. *)
Lemma insert_xml_declared gcs_url request now self g md5hash revision0 :
  generation self = Some g ->
  xml_md5hash request = Some md5hash ->
  GcsObjectVersion.new gcs_url (bucket_name self) (name self) (g + 1) request
    (extract_media request) now = Ok revision0 ->
  let expected := GcsObjectVersion.md5_b64 (GcsObjectVersion.media revision0) in
  let self1 := set_generation (Some (g + 1)) self in
  exists revision,
    GcsObjectVersion.metadata revision !! "md5Hash" = Some (VStr md5hash) /\
    GcsObjectVersion.media revision = GcsObjectVersion.media revision0 /\
    GcsObjectVersion.metadata revision !! "metageneration" = Some (VInt 2) /\
    insert_xml gcs_url request now self =
      if String.eqb md5hash expected
      then bind (_insert_revision revision) (fun _ => ret revision) self1
      else (Raise (GcsObjectVersion.mismatched_md5 expected (VStr md5hash)), self1).
Proof.
  intros Hg Hmd5 Hnew expected self1.
  pose proof (new_revision_fields _ _ _ _ _ _ _ _ Hnew) as (_&_&_&_&_&Hmeta&Hmg).
  eexists. split; [|split; [|split]]; cycle 3.
  - unfold insert_xml. unfold bind at 1.
    rewrite (increment_generation_eq _ _ Hg). fold self1.
    unfold bind at 1. unfold get_self. unfold bind at 1. simpl bucket_name. simpl name.
    rewrite Hnew. unfold lift at 1. unfold bind at 1.
    rewrite (set_testbench_meta_fresh _ _ _ Hmeta). unfold lift at 1.
    rewrite Hmd5. unfold bind at 1. unfold bind at 1.
    rewrite set_testbench_meta_again. unfold lift at 1.
    unfold call. rewrite update_from_metadata_eq.
    rewrite merged_lookup_other by not_in_literals.
    rewrite lookup_union_r by (by rewrite lookup_singleton_ne).
    simpl GcsObjectVersion.metadata at 1.
    rewrite lookup_insert_ne by done. rewrite Hmg. simpl Py.add1. cbv iota.
    cbv zeta. rewrite lookup_insert_ne by done.
    rewrite merged_lookup_other by not_in_literals.
    rewrite lookup_union_l' by (rewrite lookup_singleton_eq; eauto).
    rewrite lookup_singleton_eq. simpl default. simpl GcsObjectVersion.media.
    fold expected. unfold Py.eq_str.
    destruct (String.eqb md5hash expected) eqn:Heq; unfold lift at 1; reflexivity.
  - simpl. rewrite lookup_insert_ne by done.
    rewrite merged_lookup_other by not_in_literals.
    rewrite lookup_union_l' by (rewrite lookup_singleton_eq; eauto).
    apply lookup_singleton_eq.
  - reflexivity.
  - simpl. apply lookup_insert_eq.
Qed.

(** C6 (amended).  For an [insert_xml] request whose [x-goog-hash]
    header carries an [md5=<value>] pair, the declared value does not
    override the validation: [update_from_metadata] stores it and then
    compares it with the checksum of the payload.  Whenever the upload
    returns, the stored md5Hash is the declared value and it equals the
    computed checksum.  When the constructor accepts the request: a
    declared value that differs from the computed checksum makes
    [insert_xml] fail with the checksum-mismatch error, and no revision
    is inserted; a declared value equal to it makes the upload succeed,
    provided the bucket exists. *)
Theorem insert_xml_validates_declared_md5 gcs_url request now self g md5hash :
  generation self = Some g ->
  xml_md5hash request = Some md5hash ->
  (forall revision self',
     insert_xml gcs_url request now self = (Ok revision, self') ->
     GcsObjectVersion.metadata revision !! "md5Hash" = Some (VStr md5hash) /\
     md5hash = GcsObjectVersion.md5_b64 (GcsObjectVersion.media revision)) /\
  (forall revision0,
     GcsObjectVersion.new gcs_url (bucket_name self) (name self) (g + 1) request
       (extract_media request) now = Ok revision0 ->
     md5hash <> GcsObjectVersion.md5_b64 (GcsObjectVersion.media revision0) ->
     exists self',
       insert_xml gcs_url request now self =
         (Raise (ErrorResponse
                   ("Mismatched MD5 hash expected="
                    ++ GcsObjectVersion.md5_b64 (GcsObjectVersion.media revision0)
                    ++ ", actual=" ++ format_value (VStr md5hash))
                   default_status_code),
          self') /\
       revisions self' = revisions self) /\
  (forall revision0 bucket,
     GcsObjectVersion.new gcs_url (bucket_name self) (name self) (g + 1) request
       (extract_media request) now = Ok revision0 ->
     md5hash = GcsObjectVersion.md5_b64 (GcsObjectVersion.media revision0) ->
     lookup_bucket (bucket_name self) = Ok bucket ->
     exists revision self',
       insert_xml gcs_url request now self = (Ok revision, self') /\
       GcsObjectVersion.metadata revision !! "md5Hash" = Some (VStr md5hash)).
Proof.
  intros Hg Hmd5. split; [|split].
  - intros revision self' Hrun.
    destruct (GcsObjectVersion.new gcs_url (bucket_name self) (name self) (g + 1)
                request (extract_media request) now) as [revision0|e] eqn:Hnew.
    + destruct (insert_xml_declared _ _ _ _ _ _ _ Hg Hmd5 Hnew)
        as (r & Hmd & Hmedia & _ & Heqn).
      rewrite Heqn in Hrun. destruct (String.eqb md5hash _) eqn:Heq; [|done].
      unfold bind, ret in Hrun.
      destruct (_insert_revision r _) as [[[]|] s]; [|done].
      injection Hrun as <- <-. split; [done|].
      apply String.eqb_eq in Heq. by rewrite Hmedia.
    + unfold insert_xml, bind in Hrun.
      rewrite (increment_generation_eq _ _ Hg) in Hrun.
      unfold get_self, lift in Hrun. simpl in Hrun. rewrite Hnew in Hrun. done.
  - intros revision0 Hnew Hne.
    destruct (insert_xml_declared _ _ _ _ _ _ _ Hg Hmd5 Hnew)
      as (r & Hmd & Hmedia & _ & Heqn).
    apply String.eqb_neq in Hne. rewrite Hne in Heqn.
    eexists. split; [exact Heqn|reflexivity].
  - intros revision0 bucket Hnew Heq Hb.
    destruct (insert_xml_declared _ _ _ _ _ _ _ Hg Hmd5 Hnew)
      as (r & Hmd & Hmedia & _ & Heqn).
    apply String.eqb_eq in Heq. rewrite Heq in Heqn. rewrite Heqn.
    unfold bind, ret.
    rewrite (insert_revision_eq r (set_generation (Some (g + 1)) self) (g + 1) bucket
               eq_refl Hb).
    eauto.
Qed.

(** A revision that is the current one of an object whose generation is
    not 0: a metageneration-must-equal condition alone passes exactly
    when it names the stored metageneration. *)
Lemma metageneration_must_equal self g current mg s :
  generation self = Some g ->
  g <> 0 ->
  revisions self !! g = Some current ->
  GcsObjectVersion.metadata current !! "metageneration" = Some (VInt mg) ->
  check_preconditions_by_value None None (Some s) None self = (Ok tt, self) <->
  Py.int_of_str s = Some mg.
Proof.
  intros Hgen Hg Hcur Hmg.
  rewrite (check_preconditions_present self g mg current None None (Some s) None
             Hg Hgen Hcur Hmg).
  unfold conditions_pass. simpl. tauto.
Qed.

(** C10 (amended).  Immediately after the construction of a
    [GcsObjectVersion] completes, for any request and payload, the
    stored metageneration is 1, never 0: the constructor starts the
    counter at 0 and its one call of [update_from_metadata] increments
    it.  A revision freshly installed by [insert], or by [insert_xml]
    for a request that declares no md5, is the current one and still has
    metageneration 1: a metageneration-must-equal precondition against
    it passes exactly when it names 1. *)
Theorem new_revision_metageneration_is_1 :
  (forall gcs_url bucket_name name generation request media now revision,
     GcsObjectVersion.new gcs_url bucket_name name generation request media now
       = Ok revision ->
     GcsObjectVersion.metadata revision !! "metageneration" = Some (VInt 1)) /\
  (forall gcs_url request now self revision self',
     insert gcs_url request now self = (Ok revision, self') ->
     get_latest self' = Some revision /\
     GcsObjectVersion.metadata revision !! "metageneration" = Some (VInt 1) /\
     (generation self' <> Some 0 ->
      forall s,
        check_preconditions_by_value None None (Some s) None self' = (Ok tt, self') <->
        Py.int_of_str s = Some 1)) /\
  (forall gcs_url request now self revision self',
     xml_md5hash request = None ->
     insert_xml gcs_url request now self = (Ok revision, self') ->
     get_latest self' = Some revision /\
     GcsObjectVersion.metadata revision !! "metageneration" = Some (VInt 1) /\
     (generation self' <> Some 0 ->
      forall s,
        check_preconditions_by_value None None (Some s) None self' = (Ok tt, self') <->
        Py.int_of_str s = Some 1)).
Proof.
  assert (Hinstalled : forall r (self : t) g bucket mg,
    lookup_bucket (bucket_name self) = Ok bucket ->
    GcsObjectVersion.metadata r !! "metageneration" = Some (VInt mg) ->
    let self' :=
      set_revisions
        (if versioning_enabled bucket then <[g + 1 := r]> (revisions self)
         else {[g + 1 := r]}) (set_generation (Some (g + 1)) self) in
    get_latest self' = Some r /\
    GcsObjectVersion.metadata r !! "metageneration" = Some (VInt mg) /\
    (generation self' <> Some 0 ->
     forall s,
       check_preconditions_by_value None None (Some s) None self' = (Ok tt, self') <->
       Py.int_of_str s = Some mg)).
  { intros r self g bucket mg Hb Hmg self'.
    assert (Hcur : revisions self' !! (g + 1) = Some r).
    { subst self'. simpl.
      destruct (versioning_enabled bucket);
        [apply lookup_insert_eq | apply lookup_singleton_eq]. }
    split; [exact Hcur|]. split; [exact Hmg|].
    intros Hne s.
    apply (metageneration_must_equal self' (g + 1) r mg s eq_refl); [|done..].
    intros H0. apply Hne. subst self'. simpl. by rewrite H0. }
  split; [|split].
  - intros * Hnew. by apply new_revision_fields in Hnew as (_&_&_&_&_&_&?).
  - intros gcs_url request now self revision self' Hrun.
    unfold insert, bind in Hrun.
    destruct (generation self) as [g|] eqn:Hg;
      [|by unfold increment_generation, bind, get_self in Hrun; rewrite Hg in Hrun].
    rewrite (increment_generation_eq _ _ Hg) in Hrun.
    unfold get_self, lift, ret in Hrun. simpl in Hrun.
    destruct (GcsObjectVersion.new _ _ _ _ _ _ _) as [r0|] eqn:Hnew; [|done].
    destruct (set_testbench_meta _ _ r0) as [r1|] eqn:Hmeta; [|done].
    destruct (lookup_bucket (bucket_name self)) as [bucket|] eqn:Hb.
    2:{ unfold _insert_revision, bind, get_self, lift in Hrun. simpl in Hrun.
        by rewrite Hb in Hrun. }
    rewrite (insert_revision_eq r1 (set_generation (Some (g + 1)) self) (g + 1) bucket
               eq_refl Hb) in Hrun.
    injection Hrun as <- <-.
    apply new_revision_fields in Hnew as (_&_&_&_&_&_&Hmg).
    apply set_testbench_meta_fields in Hmeta as (_ & _ & Hkeep).
    apply (Hinstalled r1 self g bucket 1 Hb). by rewrite Hkeep.
  - intros gcs_url request now self revision self' Hmd5 Hrun.
    destruct (generation self) as [g|] eqn:Hg;
      [|by unfold insert_xml, increment_generation, bind, get_self in Hrun;
           rewrite Hg in Hrun].
    unfold insert_xml in Hrun. unfold bind at 1 in Hrun.
    rewrite (increment_generation_eq _ _ Hg) in Hrun.
    unfold bind at 1 in Hrun. unfold get_self in Hrun.
    unfold bind at 1 in Hrun. simpl bucket_name in Hrun. simpl name in Hrun.
    destruct (GcsObjectVersion.new gcs_url (bucket_name self) (name self) (g + 1)
                request (extract_media request) now) as [r0|e] eqn:Hnew; [|done].
    unfold lift at 1 in Hrun. rewrite Hmd5 in Hrun.
    unfold bind at 1 in Hrun.
    destruct (set_testbench_meta _ _ r0) as [r1|] eqn:Hmeta; [|done].
    unfold lift at 1 in Hrun. unfold bind at 1 in Hrun. unfold ret at 1 in Hrun.
    unfold bind, ret in Hrun.
    destruct (lookup_bucket (bucket_name self)) as [bucket|] eqn:Hb.
    2:{ unfold _insert_revision, bind, get_self, lift in Hrun. simpl in Hrun.
        by rewrite Hb in Hrun. }
    rewrite (insert_revision_eq r1 (set_generation (Some (g + 1)) self) (g + 1) bucket
               eq_refl Hb) in Hrun.
    injection Hrun as <- <-.
    apply new_revision_fields in Hnew as (_&_&_&_&_&_&Hmg).
    apply set_testbench_meta_fields in Hmeta as (_ & _ & Hkeep).
    apply (Hinstalled r1 self g bucket 1 Hb). by rewrite Hkeep.
Qed.

End XmlUpload.


(** ** Strings: decimal numerals and the fields of a token *)

Section Strings.

Lemma append_nil (b : string) : ("" ++ b)%string = b.
Proof. reflexivity. Qed.

Lemma append_cons c (a b : string) : (String c a ++ b)%string = String c (a ++ b).
Proof. reflexivity. Qed.

Lemma append_assoc (a b c : string) : ((a ++ b) ++ c)%string = (a ++ (b ++ c))%string.
Proof.
  induction a as [|x a IH]; rewrite ?append_nil, ?append_cons; [done|].
  by f_equal.
Qed.

Lemma has_slash_append a b : has_slash (a ++ String "/" b) = true.
Proof.
  induction a as [|x a IH]; rewrite ?append_nil, ?append_cons; simpl; [done|].
  rewrite IH. apply orb_true_r.
Qed.

(** The text after the last separator is determined by the whole. *)
Lemma last_field_inj a a' x y :
  has_slash x = false -> has_slash y = false ->
  (a ++ String "/" x)%string = (a' ++ String "/" y)%string -> x = y.
Proof.
  intros Hx Hy. revert a'.
  induction a as [|c a IH]; intros [|c' a'] H;
    rewrite ?append_nil, ?append_cons in H.
  - by injection H.
  - injection H as _ ->. by rewrite has_slash_append in Hx.
  - injection H as _ <-. by rewrite has_slash_append in Hy.
  - injection H as _ H. by apply IH in H.
Qed.

Lemma string_of_uint_no_slash d : has_slash (NilEmpty.string_of_uint d) = false.
Proof. induction d; simpl; done. Qed.

Lemma str_no_slash z : has_slash (Py.str z) = false.
Proof.
  unfold Py.str, NilZero.string_of_int, NilZero.string_of_uint.
  destruct (Z.to_int z) as [d|d]; destruct d; simpl;
    try done; apply string_of_uint_no_slash.
Qed.

Lemma str_inj z z' : Py.str z = Py.str z' -> z = z'.
Proof.
  unfold Py.str. intros H. apply DecimalZ.to_int_inj.
  assert (Hnn : forall z, Z.to_int z <> Decimal.Pos Decimal.Nil /\
                          Z.to_int z <> Decimal.Neg Decimal.Nil).
  { intros [|p|p]; simpl; split; try done;
      intros [=Hp]; by apply DecimalPos.Unsigned.to_uint_nonnil in Hp. }
  destruct (Hnn z) as [H1 H2], (Hnn z') as [H1' H2'].
  pose proof (NilZero.isi _ H1 H2) as E. pose proof (NilZero.isi _ H1' H2') as E'.
  rewrite H in E. rewrite E in E'. by injection E'.
Qed.

Lemma len_from_append n a b : Py.len_from n (a ++ b) = Py.len_from (Py.len_from n a) b.
Proof.
  revert n. induction a as [|c a IH]; intros n;
    rewrite ?append_nil, ?append_cons; simpl; [done|]. apply IH.
Qed.

Lemma len_from_shift n s : Py.len_from n s = n + Py.len s.
Proof.
  unfold Py.len. revert n. induction s as [|c s IH]; intros n; simpl; [lia|].
  rewrite IH, (IH (0 + 1)). lia.
Qed.

Lemma len_append a b : Py.len (a ++ b) = Py.len a + Py.len b.
Proof. unfold Py.len at 1. rewrite len_from_append, len_from_shift. done. Qed.

End Strings.


(** ** The rewrite protocol *)

Section Rewrite.
Context `{C : Collaborators}.
Import GcsObject.

Lemma capture_dom request db do request' db' do' :
  dom (capture_rewrite_operation_arguments request db do) =
  dom (capture_rewrite_operation_arguments request' db' do').
Proof.
  unfold capture_rewrite_operation_arguments, rewrite_fixed_args. simpl.
  rewrite !dom_insert_L. reflexivity.
Qed.

Lemma keys_symmetric_difference_same_dom (a b : gmap string pyval) :
  dom a = dom b -> keys_symmetric_difference a b = ∅.
Proof. unfold keys_symmetric_difference. intros ->. set_solver. Qed.

Lemma on_self_eq {A} p (c : M t A) objects self :
  objects !! p = Some self ->
  on_self p c objects = ((c self).1, <[p := (c self).2]> objects).
Proof. intros H. unfold on_self. rewrite H. by destruct (c self). Qed.

(** The second half of a step, once the source is found and readable:
    either the rewrite is finished into the destination, or the operation
    is stored again under a new token. *)
Lemma rewrite_advance_eq p gcs_url request now db do body rewrite objects self source :
  objects !! p = Some self ->
  dom (original_arguments rewrite) =
    dom (capture_rewrite_operation_arguments request db do) ->
  get_revision_by_generation self (actual_generation rewrite) = Some source ->
  source_readable request source ->
  rewrite_advance p gcs_url request now db do body rewrite objects =
  let object_size := Py.len (GcsObjectVersion.media source) in
  let total := bytes_rewritten rewrite + 1048576 in
  if object_size <=? total then
    match on_destination db do (rewrite_finish gcs_url request now body source) objects with
    | (Ok revision, objects') =>
        (Ok (rewrite_response object_size true
               (Some (VDict (GcsObjectVersion.metadata revision))) object_size ""),
         objects')
    | (Raise e, objects') => (Raise e, objects')
    end
  else
    let rewrite' := set_bytes_rewritten total rewrite in
    let token := make_rewrite_token rewrite' db do
                   (Some (GcsObjectVersion.generation source)) in
    (Ok (rewrite_response object_size false None total token),
     <[p := set_rewrite_operations (<[token := rewrite']> (rewrite_operations self)) self]>
       objects).
Proof.
  intros Hself Hdom Hsource Hread. unfold rewrite_advance.
  rewrite keys_symmetric_difference_same_dom by done.
  rewrite size_empty. rewrite bool_decide_eq_true_2 by done.
  change (negb true) with false. cbv iota.
  unfold bind at 1. rewrite (on_self_eq _ _ _ _ Hself).
  unfold bind at 1, get_self, ret. simpl fst. simpl snd.
  rewrite Hsource. rewrite (insert_id _ _ _ Hself).
  unfold bind at 1. unfold lift at 1. unfold source_readable in Hread.
  rewrite Hread. change (1024 * 1024) with 1048576. cbv zeta.
  destruct (Py.len (GcsObjectVersion.media source) <=? bytes_rewritten rewrite + 1048576).
  - unfold bind, ret. by destruct (on_destination _ _ _ _) as [[?|?] ?].
  - unfold bind. rewrite (on_self_eq _ _ _ _ Hself). reflexivity.
Qed.

Lemma rewrite_step_bad_body p gcs_url request now db do objects :
  json_loads (data request) = None ->
  rewrite_step p gcs_url request now db do objects = (Raise ValueError, objects).
Proof. intros H. unfold rewrite_step, bind, lift, loads. by rewrite H. Qed.

Lemma rewrite_step_start p gcs_url request now db do objects self body ag :
  objects !! p = Some self ->
  starts_rewrite request ->
  json_loads (data request) = Some body ->
  source_generation request self = Ok ag ->
  rewrite_step p gcs_url request now db do objects =
  rewrite_advance p gcs_url request now db do body
    (started_operation request db self ag body)
    (<[p := set_rewrite_token_generator (rewrite_token_generator self + 1) self]> objects).
Proof.
  intros Hself Hstart Hbody Hag. unfold rewrite_step.
  unfold bind at 1. unfold lift at 1, loads. rewrite Hbody.
  assert (Hmk : on_self p (make_rewrite_operation request db db) objects =
    (Ok (make_rewrite_token (started_operation request db self ag body) db db ag,
         started_operation request db self ag body),
     <[p := set_rewrite_token_generator (rewrite_token_generator self + 1) self]> objects)).
  { rewrite (on_self_eq _ _ _ _ Hself).
    unfold make_rewrite_operation, bind, get_self, lift, ret, put_self, loads.
    unfold source_generation in Hag. rewrite Hbody.
    destruct (args request !! "sourceGeneration") as [s|].
    - simpl in Hag. unfold rbind in Hag. destruct (Py.int s) as [g|]; [|done].
      injection Hag as <-. reflexivity.
    - injection Hag as <-. reflexivity. }
  destruct Hstart as [-> | ->]; simpl; unfold bind; rewrite Hmk; reflexivity.
Qed.

Lemma rewrite_step_continue p gcs_url request now db do objects self body token op :
  objects !! p = Some self ->
  args request !! "rewriteToken" = Some token ->
  token <> EmptyString ->
  json_loads (data request) = Some body ->
  rewrite_operations self !! token = Some op ->
  rewrite_step p gcs_url request now db do objects =
  rewrite_advance p gcs_url request now db do body op
    (<[p := set_rewrite_operations (delete token (rewrite_operations self)) self]> objects).
Proof.
  intros Hself Htoken Hne Hbody Hop. unfold rewrite_step.
  unfold bind at 1. unfold lift at 1, loads. rewrite Hbody, Htoken.
  apply String.eqb_neq in Hne. rewrite Hne. change (negb false) with true. cbv iota.
  unfold bind. rewrite (on_self_eq _ _ _ _ Hself).
  unfold pop_rewrite_operation, bind, get_self, put_self, ret. rewrite Hop.
  reflexivity.
Qed.

Lemma rewrite_step_gone p gcs_url request now db do objects self body token :
  objects !! p = Some self ->
  args request !! "rewriteToken" = Some token ->
  token <> EmptyString ->
  json_loads (data request) = Some body ->
  rewrite_operations self !! token = None ->
  rewrite_step p gcs_url request now db do objects =
  (Raise (ErrorResponse "Invalid or expired token in rewrite" 410), objects).
Proof.
  intros Hself Htoken Hne Hbody Hop. unfold rewrite_step.
  unfold bind at 1. unfold lift at 1, loads. rewrite Hbody, Htoken.
  apply String.eqb_neq in Hne. rewrite Hne. change (negb false) with true. cbv iota.
  unfold bind. rewrite (on_self_eq _ _ _ _ Hself).
  unfold pop_rewrite_operation, bind, get_self, put_self, ret, raise. rewrite Hop.
  simpl. by rewrite (insert_id _ _ _ Hself).
Qed.

End Rewrite.


Section RewriteTable.
Context `{C : Collaborators}.
Import GcsObject.

Lemma get_revision_after_table_update self ops n generation :
  get_revision_by_generation
    (set_rewrite_operations ops (set_rewrite_token_generator n self)) generation =
  get_revision_by_generation self generation.
Proof. reflexivity. Qed.

Lemma same_operations_refl : Reflexive same_operations.
Proof. by intros a. Qed.

Lemma same_operations_trans : Transitive same_operations.
Proof. unfold same_operations. by intros a b c -> ->. Qed.

Ltac table_step :=
  first
    [ apply preserves_ret; apply same_operations_refl
    | apply preserves_raise; apply same_operations_refl
    | apply preserves_lift; apply same_operations_refl
    | apply preserves_get_self; apply same_operations_refl
    | apply preserves_bind; [apply same_operations_trans| |intros ?]
    | match goal with
      | |- preserves _ (match ?x with _ => _ end) => destruct x
      | |- preserves _ (if ?x then _ else _) => destruct x
      end ].

Lemma preserves_check_preconditions request :
  preserves same_operations (check_preconditions request).
Proof.
  unfold check_preconditions, check_preconditions_named,
    check_preconditions_by_value.
  repeat table_step.
Qed.

Lemma preserves_increment_generation :
  preserves same_operations increment_generation.
Proof.
  intros s. unfold increment_generation, bind, get_self.
  by destruct (generation s).
Qed.

Lemma preserves_insert_revision revision :
  preserves same_operations (_insert_revision revision).
Proof.
  intros s. unfold _insert_revision, bind, get_self, lift, put_self.
  destruct (generation s); [|done]. simpl.
  destruct (lookup_bucket _) as [b|]; [|done]. simpl.
  by destruct (versioning_enabled b).
Qed.

Lemma preserves_rewrite_finish gcs_url request now body source :
  preserves same_operations (rewrite_finish gcs_url request now body source).
Proof.
  unfold rewrite_finish.
  repeat first [ apply preserves_check_preconditions
               | apply preserves_increment_generation
               | apply preserves_insert_revision
               | table_step ].
Qed.

Lemma on_destination_table {A} db do (c : M t A) objects p self :
  objects !! p = Some self ->
  preserves same_operations c ->
  exists self',
    (on_destination db do c objects).2 !! p = Some self' /\
    rewrite_operations self' = rewrite_operations self.
Proof.
  intros Hself Hc. unfold on_destination, get_object, insert_object.
  destruct (decide ((db, do) = p)) as [->|Hne].
  - rewrite Hself. simpl. specialize (Hc self).
    destruct (c self) as [[a|e] d]; simpl in *;
      exists d; by rewrite lookup_insert_eq.
  - destruct (c _) as [[a|e] d]; simpl.
    + exists self. by rewrite lookup_insert_ne.
    + exists self. destruct (objects !! (db, do)); by rewrite ?lookup_insert_ne.
Qed.

(** What a step leaves in the table of the receiver: the table as it
    was, or the table with the advanced operation under its new token. *)
Lemma rewrite_advance_table p gcs_url request now db do body op objects self :
  objects !! p = Some self ->
  exists self',
    (rewrite_advance p gcs_url request now db do body op objects).2 !! p = Some self' /\
    (rewrite_operations self' = rewrite_operations self \/
     exists generation,
       let op' := set_bytes_rewritten (bytes_rewritten op + 1048576) op in
       rewrite_operations self' =
         <[make_rewrite_token op' db do generation := op']> (rewrite_operations self)).
Proof.
  intros Hself. unfold rewrite_advance.
  destruct (negb _); [exists self; by split; [|left]|].
  unfold bind at 1. rewrite (on_self_eq _ _ _ _ Hself).
  unfold bind at 1, get_self, ret. simpl fst. simpl snd.
  rewrite (insert_id _ _ _ Hself).
  destruct (get_revision_by_generation self (actual_generation op)) as [source|];
    [|exists self; by split; [|left]].
  unfold bind at 1, lift at 1.
  destruct ((GcsObjectVersion.validate_encryption_for_read _ _ source).1);
    [|exists self; by split; [|left]].
  change (1024 * 1024) with 1048576. cbv zeta.
  destruct (Py.len (GcsObjectVersion.media source) <=? bytes_rewritten op + 1048576).
  - destruct (on_destination_table db do
                (rewrite_finish gcs_url request now body source) objects p self Hself
                (preserves_rewrite_finish _ _ _ _ _)) as (self' & Hl & Hops).
    exists self'. split; [|by left]. unfold bind, ret.
    by destruct (on_destination _ _ _ _) as [[?|?] ?].
  - unfold bind. rewrite (on_self_eq _ _ _ _ Hself). simpl.
    eexists. rewrite lookup_insert_eq. split; [done|]. right. eexists. reflexivity.
Qed.

End RewriteTable.


Section RewriteSteps.
Context `{C : Collaborators}.
Import GcsObject.

(** The comparison of [rewrite_step] looks at the names of the captured
    arguments only, and those are the same for every request: the
    difference it computes is empty whatever values the two requests
    carry. *)
Lemma rewrite_arguments_never_differ request db do request' db' do' :
  keys_symmetric_difference
    (capture_rewrite_operation_arguments request db do)
    (capture_rewrite_operation_arguments request' db' do') = ∅.
Proof. apply keys_symmetric_difference_same_dom, capture_dom. Qed.

(** A step that leaves the rewrite unfinished, in full: the initiating
    call, and a continuation. *)
Lemma rewrite_step_start_progress
    p gcs_url request now db do objects self body generation source :
  objects !! p = Some self ->
  starts_rewrite request ->
  json_loads (data request) = Some body ->
  source_generation request self = Ok generation ->
  get_revision_by_generation self generation = Some source ->
  source_readable request source ->
  1048576 < Py.len (GcsObjectVersion.media source) ->
  let op := set_bytes_rewritten 1048576
              (started_operation request db self generation body) in
  let token := make_rewrite_token op db do
                 (Some (GcsObjectVersion.generation source)) in
  rewrite_step p gcs_url request now db do objects =
    (Ok (rewrite_response (Py.len (GcsObjectVersion.media source)) false None
           1048576 token),
     <[p := set_rewrite_operations (<[token := op]> (rewrite_operations self))
              (set_rewrite_token_generator (rewrite_token_generator self + 1) self)]>
       objects).
Proof.
  intros Hself Hstart Hbody Hgen Hsource Hread Hlt op token.
  rewrite (rewrite_step_start _ _ _ _ _ _ _ _ _ _ Hself Hstart Hbody Hgen).
  erewrite rewrite_advance_eq;
    [ | apply lookup_insert_eq | apply capture_dom | exact Hsource | exact Hread ].
  cbv zeta. simpl bytes_rewritten. rewrite (proj2 (Z.leb_gt _ _)) by lia.
  rewrite insert_insert_eq. reflexivity.
Qed.

Lemma rewrite_step_continue_progress
    p gcs_url request now db do objects self body token op source :
  objects !! p = Some self ->
  args request !! "rewriteToken" = Some token ->
  token <> EmptyString ->
  json_loads (data request) = Some body ->
  rewrite_operations self !! token = Some op ->
  (exists request0 destination,
     original_arguments op =
       capture_rewrite_operation_arguments request0 destination destination) ->
  get_revision_by_generation self (actual_generation op) = Some source ->
  source_readable request source ->
  bytes_rewritten op + 1048576 < Py.len (GcsObjectVersion.media source) ->
  let op' := set_bytes_rewritten (bytes_rewritten op + 1048576) op in
  let token' := make_rewrite_token op' db do
                  (Some (GcsObjectVersion.generation source)) in
  rewrite_step p gcs_url request now db do objects =
    (Ok (rewrite_response (Py.len (GcsObjectVersion.media source)) false None
           (bytes_rewritten op + 1048576) token'),
     <[p := set_rewrite_operations
              (<[token' := op']> (delete token (rewrite_operations self))) self]>
       objects).
Proof.
  intros Hself Htoken Hne Hbody Hop (request0 & d & Hargs) Hsource Hread Hlt op' token'.
  rewrite (rewrite_step_continue _ _ _ _ _ _ _ _ _ _ _ Hself Htoken Hne Hbody Hop).
  erewrite rewrite_advance_eq;
    [ | apply lookup_insert_eq | rewrite Hargs; apply capture_dom
      | exact Hsource | exact Hread ].
  cbv zeta. rewrite (proj2 (Z.leb_gt _ _)) by lia.
  rewrite insert_insert_eq. reflexivity.
Qed.

(** C1 (not met by the code).  A continuation call is not refused for a
    changed fixed argument.  Whatever query parameters the continuation
    request carries, when the token names a stored operation whose source
    is still readable and not yet exhausted, the call returns a progress
    record: the values of the fixed arguments play no part in the
    comparison with the captured ones. *)
Theorem rewrite_step_accepts_changed_arguments
    p gcs_url request now db do objects self body token op source :
  objects !! p = Some self ->
  args request !! "rewriteToken" = Some token ->
  token <> EmptyString ->
  json_loads (data request) = Some body ->
  rewrite_operations self !! token = Some op ->
  (exists request0 destination,
     original_arguments op =
       capture_rewrite_operation_arguments request0 destination destination) ->
  get_revision_by_generation self (actual_generation op) = Some source ->
  source_readable request source ->
  bytes_rewritten op + 1048576 < Py.len (GcsObjectVersion.media source) ->
  exists token' objects',
    rewrite_step p gcs_url request now db do objects =
      (Ok (rewrite_response (Py.len (GcsObjectVersion.media source)) false None
             (bytes_rewritten op + 1048576) token'),
       objects').
Proof.
  intros Hself Htoken Hne Hbody Hop Hargs Hsource Hread Hlt.
  eexists _, _.
  by apply (rewrite_step_continue_progress p gcs_url request now db do objects self
              body token op source).
Qed.

Lemma make_rewrite_token_fields op db do generation :
  make_rewrite_token op db do generation =
  b64encode
    ((Py.str (id op) ++ "/" ++ db ++ "/" ++ do ++ "/" ++ str_generation generation)
     ++ String "/" (Py.str (bytes_rewritten op))).
Proof.
  unfold make_rewrite_token, Py.join. simpl String.concat. f_equal.
  rewrite !append_assoc. reflexivity.
Qed.

Lemma make_rewrite_token_nonempty op db do generation :
  (forall s, b64encode s = EmptyString -> s = EmptyString) ->
  make_rewrite_token op db do generation <> EmptyString.
Proof.
  intros Hb H. rewrite make_rewrite_token_fields in H. apply Hb in H.
  destruct (Py.str (id op) ++ _)%string; done.
Qed.

(** The invariant of the table of rewrite operations: a new object has
    an empty table, and [rewrite_step], whatever the request and whatever
    its outcome, stores operations only under the token
    [make_rewrite_token] gives them. *)
Lemma tokens_wf_new bucket_name name : tokens_wf (new bucket_name name).
Proof. intros token op H. simpl in H. by rewrite lookup_empty in H. Qed.

Lemma rewrite_advance_keeps_tokens_wf p gcs_url request now db do body op objects self :
  objects !! p = Some self ->
  tokens_wf self ->
  exists self',
    (rewrite_advance p gcs_url request now db do body op objects).2 !! p = Some self' /\
    tokens_wf self'.
Proof.
  intros Hself Hwf.
  destruct (rewrite_advance_table p gcs_url request now db do body op objects self Hself)
    as (self' & Hself' & [Hsame | (generation & Hnew)]);
    exists self'; (split; [exact Hself'|]); intros token0 op0.
  - rewrite Hsame. apply Hwf.
  - cbv zeta in Hnew. rewrite Hnew. intros H0.
    apply lookup_insert_Some in H0 as [[<- <-]|[_ H0]].
    + eexists. apply make_rewrite_token_fields.
    + by eapply Hwf.
Qed.

Lemma rewrite_step_keeps_tokens_wf p gcs_url request now db do objects self :
  objects !! p = Some self ->
  tokens_wf self ->
  exists self',
    (rewrite_step p gcs_url request now db do objects).2 !! p = Some self' /\
    tokens_wf self'.
Proof.
  intros Hself Hwf.
  destruct (json_loads (data request)) as [body|] eqn:Hbody;
    [|rewrite (rewrite_step_bad_body _ _ _ _ _ _ _ Hbody); by exists self].
  assert (Hstart : starts_rewrite request ->
    exists self',
      (rewrite_step p gcs_url request now db do objects).2 !! p = Some self' /\
      tokens_wf self').
  { intros Hs.
    destruct (source_generation request self) as [ag|e] eqn:Hag.
    - rewrite (rewrite_step_start _ _ _ _ _ _ _ _ _ _ Hself Hs Hbody Hag).
      apply (rewrite_advance_keeps_tokens_wf _ _ _ _ _ _ _ _ _
               (set_rewrite_token_generator (rewrite_token_generator self + 1) self)
               (lookup_insert_eq _ _ _)).
      exact Hwf.
    - exists self. split; [|exact Hwf].
      assert (Hmk : on_self p (make_rewrite_operation request db db) objects =
                    (Raise e, objects)).
      { rewrite (on_self_eq _ _ _ _ Hself).
        unfold make_rewrite_operation, bind, get_self, lift, ret.
        unfold source_generation in Hag.
        destruct (args request !! "sourceGeneration") as [s|]; [|done].
        simpl in Hag. unfold rbind in Hag.
        destruct (Py.int s) as [g|e']; [done|]. injection Hag as ->.
        simpl. by rewrite (insert_id _ _ _ Hself). }
      unfold rewrite_step. unfold bind at 1. unfold lift at 1, loads. rewrite Hbody.
      destruct Hs as [-> | ->]; simpl; unfold bind; rewrite Hmk; exact Hself. }
  destruct (args request !! "rewriteToken") as [token|] eqn:Htoken;
    [|apply Hstart; by left].
  destruct (decide (token = EmptyString)) as [->|Hne]; [apply Hstart; by right|].
  destruct (rewrite_operations self !! token) as [op|] eqn:Hop.
  - rewrite (rewrite_step_continue _ _ _ _ _ _ _ _ _ _ _ Hself Htoken Hne Hbody Hop).
    apply (rewrite_advance_keeps_tokens_wf _ _ _ _ _ _ _ _ _
             (set_rewrite_operations (delete token (rewrite_operations self)) self)
             (lookup_insert_eq _ _ _)).
    intros token0 op0 H0. simpl in H0.
    apply lookup_delete_Some in H0 as [_ H0]. by eapply Hwf.
  - rewrite (rewrite_step_gone _ _ _ _ _ _ _ _ _ _ Hself Htoken Hne Hbody Hop).
    by exists self.
Qed.

(** C8 (amended).  For a request whose body is valid JSON and which
    presents a non-empty token, the operation stored under the token is
    taken out of the table before anything else is done with it, and the
    token is not in the table when the call is over, whether the call
    returned progress, finished the rewrite or raised.  A later call
    presenting the same token, again with a JSON body, fails with
    "Invalid or expired token in rewrite" (410), and so does a call with
    any token the table does not hold, which leaves the registry
    unchanged. *)
Theorem rewrite_step_consumes_token
    p gcs_url request now db do objects self token body :
  Inj (=) (=) b64encode ->
  objects !! p = Some self ->
  tokens_wf self ->
  args request !! "rewriteToken" = Some token ->
  token <> EmptyString ->
  json_loads (data request) = Some body ->
  exists r objects' self',
    rewrite_step p gcs_url request now db do objects = (r, objects') /\
    objects' !! p = Some self' /\
    rewrite_operations self' !! token = None /\
    tokens_wf self' /\
    (rewrite_operations self !! token = None ->
     r = Raise (ErrorResponse "Invalid or expired token in rewrite" 410) /\
     objects' = objects) /\
    (forall gcs_url' request' now' db' do' body',
       args request' !! "rewriteToken" = Some token ->
       json_loads (data request') = Some body' ->
       rewrite_step p gcs_url' request' now' db' do' objects' =
         (Raise (ErrorResponse "Invalid or expired token in rewrite" 410), objects')).
Proof.
  intros Hinj Hself Hwf Htoken Hne Hbody.
  assert (Hgone : forall objects' self',
    objects' !! p = Some self' -> rewrite_operations self' !! token = None ->
    forall gcs_url' request' now' db' do' body',
      args request' !! "rewriteToken" = Some token ->
      json_loads (data request') = Some body' ->
      rewrite_step p gcs_url' request' now' db' do' objects' =
        (Raise (ErrorResponse "Invalid or expired token in rewrite" 410), objects')).
  { intros objects' self' Hself' Hnone **. by eapply rewrite_step_gone. }
  destruct (rewrite_operations self !! token) as [op|] eqn:Hop.
  - rewrite (rewrite_step_continue _ _ _ _ _ _ _ _ _ _ _ Hself Htoken Hne Hbody Hop).
    set (self1 := set_rewrite_operations (delete token (rewrite_operations self)) self).
    destruct (rewrite_advance_table p gcs_url request now db do body op
                (<[p := self1]> objects) self1 (lookup_insert_eq _ _ _))
      as (self' & Hself' & Htable).
    destruct (rewrite_advance _ _ _ _ _ _ _ _ _) as [r objects'] eqn:Hrun.
    simpl in Hself'.
    assert (Hwf1 : forall token0 op0,
      delete token (rewrite_operations self) !! token0 = Some op0 ->
      exists fields,
        token0 = b64encode (fields ++ String "/" (Py.str (bytes_rewritten op0)))).
    { intros token0 op0 H0. apply lookup_delete_Some in H0 as [_ H0]. by eapply Hwf. }
    assert (Hnone : rewrite_operations self' !! token = None /\ tokens_wf self').
    { destruct Htable as [Hsame | (generation & Hnew)].
      - rewrite Hsame. simpl. split; [apply lookup_delete_eq|].
        intros token0 op0. rewrite Hsame. apply Hwf1.
      - cbv zeta in Hnew. simpl in Hnew.
        assert (Hfresh :
          make_rewrite_token (set_bytes_rewritten (bytes_rewritten op + 1048576) op)
            db do generation <> token).
        { destruct (Hwf _ _ Hop) as [fields Hfields].
          rewrite make_rewrite_token_fields, Hfields. simpl bytes_rewritten.
          intros Heq. apply Hinj in Heq.
          apply last_field_inj in Heq; [|apply str_no_slash..].
          apply str_inj in Heq. lia. }
        split.
        + rewrite Hnew, lookup_insert_ne by done. apply lookup_delete_eq.
        + intros token0 op0. rewrite Hnew. intros H0.
          apply lookup_insert_Some in H0 as [[<- <-]|[_ H0]].
          * eexists. apply make_rewrite_token_fields.
          * by apply Hwf1. }
    destruct Hnone as [Hnone Hwf'].
    exists r, objects', self'. repeat split; try done.
    by apply (Hgone objects' self').
  - rewrite (rewrite_step_gone _ _ _ _ _ _ _ _ _ _ Hself Htoken Hne Hbody Hop).
    exists (Raise (ErrorResponse "Invalid or expired token in rewrite" 410)),
      objects, self.
    repeat split; try done. by apply (Hgone objects self).
Qed.

End RewriteSteps.


(** ** The access-control list *)

Section Acl.
Context `{C : Collaborators}.
Import GcsObjectVersion.

Lemma entry_entity_get e s :
  entry_entity e = Some s -> Py.get e "entity" (VStr "") = Ok (VStr s).
Proof.
  destruct e as [| | | | |d]; try done. simpl.
  destruct (d !! "entity") as [[]|]; try done. by intros [= ->].
Qed.

Lemma get_acl_loop_none entity (l : list pyval) :
  Forall (fun e => is_Some (entry_entity e)) l ->
  (forall e, e ∈ l -> entry_entity e <> Some entity) ->
  get_acl_loop entity l = Ok None.
Proof.
  induction 1 as [|e l [s Hs] _ IH]; intros Hno; simpl; [done|].
  rewrite (entry_entity_get _ _ Hs). simpl.
  assert (s <> entity) as Hne.
  { intros ->. by apply (Hno e); [left|]. }
  apply String.eqb_neq in Hne. rewrite Hne. apply IH.
  intros e' He'. apply Hno. by right.
Qed.

Lemma get_acl_loop_some entity (l : list pyval) e :
  acl_wf l -> e ∈ l -> entry_entity e = Some entity ->
  get_acl_loop entity l = Ok (Some e).
Proof.
  intros [Hall Hnd] Hin He. induction Hall as [|x l [s Hs] _ IH]; [by inversion Hin|].
  simpl. rewrite (entry_entity_get _ _ Hs). simpl.
  rewrite fmap_cons in Hnd. apply NoDup_cons in Hnd as [Hx Hnd].
  apply elem_of_cons in Hin as [<-|Hin].
  - rewrite He in Hs. injection Hs as <-. by rewrite String.eqb_refl.
  - assert (s <> entity) as Hne.
    { intros ->. apply Hx. rewrite Hs, <- He. by apply list_elem_of_fmap_2. }
    apply String.eqb_neq in Hne. rewrite Hne. by apply IH.
Qed.

(** The index of a well-formed list files every entry under its
    entity. *)
Lemma index_acl_list_eq (l : list pyval) indexed :
  Forall (fun e => is_Some (entry_entity e)) l ->
  index_acl_list l indexed =
  Ok (foldl (fun m e => <[entry_entity e := e]> m) indexed l).
Proof.
  intros Hall. revert indexed.
  induction Hall as [|e l [s Hs] _ IH]; intros indexed; simpl; [done|].
  destruct e as [| | | | |d]; try done. unfold acl_entity. simpl in Hs.
  destruct (d !! "entity") as [[]|] eqn:Hd; try done. injection Hs as ->.
  simpl. rewrite IH. simpl. by rewrite Hd.
Qed.

Lemma map_to_list_index (l : list pyval) (indexed : gmap (option string) pyval) :
  NoDup (entry_entity <$> l) ->
  (forall e, e ∈ l -> indexed !! entry_entity e = None) ->
  map_to_list (foldl (fun m e => <[entry_entity e := e]> m) indexed l)
  ≡ₚ ((fun e => (entry_entity e, e)) <$> l) ++ map_to_list indexed.
Proof.
  revert indexed. induction l as [|x l IH]; intros indexed Hnd Hfresh; simpl; [done|].
  rewrite fmap_cons in Hnd. apply NoDup_cons in Hnd as [Hx Hnd].
  rewrite IH; [|done|].
  - rewrite map_to_list_insert by (apply Hfresh; by left).
    by rewrite Permutation_middle.
  - intros e He. rewrite lookup_insert_ne; [apply Hfresh; by right|].
    intros Heq. apply Hx. rewrite Heq. by apply list_elem_of_fmap_2.
Qed.

Lemma index_acl_wf (l : list pyval) :
  acl_wf l ->
  exists indexed,
    index_acl (VList l) = Ok indexed /\
    map_to_list indexed ≡ₚ (fun e => (entry_entity e, e)) <$> l.
Proof.
  intros [Hall Hnd]. eexists. split.
  - unfold index_acl. simpl. by apply index_acl_list_eq.
  - rewrite map_to_list_index; [|done|by intros; apply lookup_empty].
    by rewrite map_to_list_empty, app_nil_r.
Qed.

(** The loop of [get_acl] returns the first entry of the entity. *)
Lemma get_acl_loop_first entity (l : list pyval) e :
  Forall (fun e => is_Some (entry_entity e)) l ->
  e ∈ l -> entry_entity e = Some entity ->
  exists e0,
    get_acl_loop entity l = Ok (Some e0) /\ e0 ∈ l /\ entry_entity e0 = Some entity.
Proof.
  intros Hall Hin He. induction Hall as [|x l [s Hs] _ IH]; [by inversion Hin|].
  simpl. rewrite (entry_entity_get _ _ Hs). simpl.
  destruct (String.eqb s entity) eqn:Heq.
  - apply String.eqb_eq in Heq as ->. exists x. split; [done|]. split; [by left|done].
  - apply elem_of_cons in Hin as [->|Hin].
    + rewrite He in Hs. injection Hs as <-. by rewrite String.eqb_refl in Heq.
    + destruct (IH Hin) as (e0 & Hrun & Hin0 & He0).
      exists e0. split; [done|]. split; [by right|done].
Qed.

(** What the index of a list holds, whether or not the list repeats an
    entity. *)
Lemma index_fold_lookup (l : list pyval) (indexed : gmap (option string) pyval) k x :
  foldl (fun m e => <[entry_entity e := e]> m) indexed l !! k = Some x ->
  (x ∈ l /\ entry_entity x = k) \/ indexed !! k = Some x.
Proof.
  revert indexed. induction l as [|a l IH]; intros indexed; simpl; [by right|].
  intros H. apply IH in H as [[Hin Hk]|H].
  - left. split; [by right|done].
  - apply lookup_insert_Some in H as [[<- <-]|[_ H]]; [left; split; [by left|done]|by right].
Qed.

Lemma index_fold_keeps (l : list pyval) (indexed : gmap (option string) pyval) k :
  is_Some (indexed !! k) ->
  is_Some (foldl (fun m e => <[entry_entity e := e]> m) indexed l !! k).
Proof.
  revert indexed. induction l as [|a l IH]; intros indexed H; simpl; [done|].
  apply IH. destruct (decide (entry_entity a = k)) as [<-|Hne].
  - rewrite lookup_insert_eq. eauto.
  - by rewrite lookup_insert_ne.
Qed.

Lemma index_fold_files (l : list pyval) (indexed : gmap (option string) pyval) x :
  x ∈ l ->
  is_Some (foldl (fun m e => <[entry_entity e := e]> m) indexed l !! entry_entity x).
Proof.
  revert indexed. induction l as [|a l IH]; intros indexed Hin; [by inversion Hin|].
  simpl. apply elem_of_cons in Hin as [->|Hin].
  - apply index_fold_keeps. rewrite lookup_insert_eq. eauto.
  - by apply IH.
Qed.

(** C9 (not met by the code).  In a revision whose ACL entries name
    their entities, an entity without an entry does not give a
    not-found error: [get_acl] raises an [ErrorResponse] with the status
    400, and [delete_acl] lets the [KeyError] of the index's [pop]
    escape; both leave the revision as it was.  When the entity has an
    entry and no entity has two, [get_acl] returns the entry and
    [delete_acl] stores the list without exactly that entry.  When the
    list repeats entities, [get_acl] returns the first entry of the
    entity, and [delete_acl] stores one entry for each other entity of
    the list: the repeated entries of the other entities are removed
    with it. *)
Theorem get_acl_and_delete_acl self entity (l : list pyval) :
  let canonical := canonical_entity_name entity in
  acl_of self = VList l ->
  Forall (fun e => is_Some (entry_entity e)) l ->
  ((forall e, e ∈ l -> entry_entity e <> Some canonical) ->
   get_acl entity self =
     (Raise (ErrorResponse
               ("Entity " ++ canonical ++ " not found in object " ++ name self) 400),
      self) /\
   delete_acl entity self = (Raise (KeyError canonical), self)) /\
  (forall e, NoDup (entry_entity <$> l) -> e ∈ l -> entry_entity e = Some canonical ->
   get_acl entity self = (Ok e, self) /\
   exists l',
     delete_acl entity self =
       (Ok tt, set_metadata (<["acl" := VList l']> (metadata self)) self) /\
     e :: l' ≡ₚ l) /\
  (forall e, e ∈ l -> entry_entity e = Some canonical ->
   exists e0 l',
     get_acl entity self = (Ok e0, self) /\
     e0 ∈ l /\ entry_entity e0 = Some canonical /\
     delete_acl entity self =
       (Ok tt, set_metadata (<["acl" := VList l']> (metadata self)) self) /\
     NoDup (entry_entity <$> l') /\
     (forall x, x ∈ l' -> x ∈ l) /\
     (forall k, k ∈ entry_entity <$> l' <-> k ∈ entry_entity <$> l /\ k <> Some canonical)).
Proof.
  intros canonical Hacl Hall. unfold acl_of in Hacl.
  set (indexed := foldl (fun m e => <[entry_entity e := e]> m)
                    (∅ : gmap (option string) pyval) l).
  assert (Hindex : index_acl (VList l) = Ok indexed).
  { unfold index_acl. simpl. by apply index_acl_list_eq. }
  assert (Hfiled : forall k x, indexed !! k = Some x -> x ∈ l /\ entry_entity x = k).
  { intros k x H. by apply index_fold_lookup in H as [H|H]. }
  split; [|split].
  - intros Hno. split.
    + unfold get_acl, bind, get_self, lift. rewrite Hacl. simpl.
      rewrite get_acl_loop_none; [done|done|done].
    + unfold delete_acl, bind, get_self, lift. rewrite Hacl, Hindex. simpl.
      destruct (indexed !! Some (canonical_entity_name entity)) as [e|] eqn:He; [|done].
      apply Hfiled in He as [He1 He2]. by apply Hno in He1.
  - intros e Hnd He Hentity.
    destruct (index_acl_wf l (conj Hall Hnd)) as (indexed' & Hindex' & Hperm).
    rewrite Hindex in Hindex'. injection Hindex' as <-.
    assert (Hlookup : forall k x, indexed !! k = Some x <-> x ∈ l /\ entry_entity x = k).
    { intros k x. rewrite <- elem_of_map_to_list, Hperm, list_elem_of_fmap.
      split.
      - intros (y & [= -> ->] & Hy). done.
      - intros [Hx <-]. eauto. }
    split.
    + unfold get_acl, bind, get_self, lift. rewrite Hacl. simpl.
      by rewrite (get_acl_loop_some _ _ e).
    + exists (values (delete (Some canonical) indexed)). split.
      * unfold delete_acl, bind, get_self, lift. rewrite Hacl, Hindex. simpl.
        fold canonical. by rewrite (proj2 (Hlookup (Some canonical) e)).
      * unfold values.
        assert (Hdel : (Some canonical, e) :: map_to_list (delete (Some canonical) indexed)
                       ≡ₚ map_to_list indexed).
        { apply map_to_list_delete. by apply Hlookup. }
        rewrite Hperm in Hdel.
        apply (fmap_Permutation snd) in Hdel. simpl in Hdel.
        rewrite Hdel, <- list_fmap_compose. simpl.
        by rewrite list_fmap_id.
  - intros e He Hentity.
    destruct (get_acl_loop_first canonical l e Hall He Hentity) as (e0 & Hloop & Hin0 & He0).
    destruct (index_fold_files l ∅ e He) as [x Hx]. fold indexed in Hx.
    rewrite Hentity in Hx.
    assert (Hkeys : entry_entity <$> values (delete (Some canonical) indexed)
                    = (map_to_list (delete (Some canonical) indexed)).*1).
    { unfold values. rewrite <- list_fmap_compose.
      apply Forall_fmap_ext, Forall_forall.
      intros [k y] Hin. simpl. apply elem_of_map_to_list in Hin.
      apply lookup_delete_Some in Hin as [_ Hin]. by apply Hfiled in Hin as [_ ?]. }
    exists e0, (values (delete (Some canonical) indexed)).
    split; [|split; [done|split; [done|split; [|split; [|split]]]]].
    + unfold get_acl, bind, get_self, lift. rewrite Hacl. simpl.
      fold canonical. by rewrite Hloop.
    + unfold delete_acl, bind, get_self, lift. rewrite Hacl, Hindex. simpl.
      fold canonical. by rewrite Hx.
    + rewrite Hkeys. apply NoDup_fst_map_to_list.
    + intros y Hy. unfold values in Hy. apply list_elem_of_fmap in Hy as ([k y'] & -> & Hy).
      apply elem_of_map_to_list, lookup_delete_Some in Hy as [_ Hy].
      by apply Hfiled in Hy as [? _].
    + intros k. rewrite Hkeys. split.
      * intros Hk. apply list_elem_of_fmap in Hk as ([k' y] & -> & Hy).
        apply elem_of_map_to_list, lookup_delete_Some in Hy as [Hne Hy]. simpl.
        apply Hfiled in Hy as [Hy <-]. split; [by apply list_elem_of_fmap_2|done].
      * intros [Hk Hne]. apply list_elem_of_fmap in Hk as (y & -> & Hy).
        destruct (index_fold_files l ∅ y Hy) as [z Hz]. fold indexed in Hz.
        apply list_elem_of_fmap. exists (entry_entity y, z). split; [done|].
        apply elem_of_map_to_list, lookup_delete_Some. split; [congruence|done].
Qed.

End Acl.

(** ** More about [GcsObjectVersion]: metadata updates and the constructor *)

Section MetadataUpdates.
Context `{C : Collaborators}.
Import GcsObjectVersion.

(** The keys [update_from_metadata] always resets. *)
Lemma merged_protected now patch self :
  merged now patch self !! "kind" = Some (VStr "storage#object") /\
  merged now patch self !! "bucket" = Some (VStr (bucket_name self)) /\
  merged now patch self !! "name" = Some (VStr (name self)) /\
  merged now patch self !! "id" = Some (VStr (object_id self)) /\
  merged now patch self !! "selfLink" = Some (VStr (gcs_url self ++ name self)) /\
  merged now patch self !! "projectNumber" = Some (VStr "123456789") /\
  merged now patch self !! "updated" = Some (VStr now).
Proof.
  unfold merged. cbv zeta.
  repeat split;
    repeat (rewrite lookup_insert_ne by done); by rewrite lookup_insert_eq.
Qed.

Lemma eq_str_true x s : Py.eq_str x s = true -> x = VStr s.
Proof. destruct x; try done. simpl. by intros ->%String.eqb_eq. Qed.

(** X1.  Whatever the patch holds, a successful [update_from_metadata]
    leaves the values that cannot be changed via updates as the revision
    itself dictates: kind, bucket, name, id, selfLink, projectNumber and
    the updated timestamp.  The fields of the revision other than the
    metadata are untouched, and the stored md5Hash (the empty string
    when the key is missing) is the checksum of the media. *)
Theorem update_from_metadata_resets_protected_fields now patch self self' :
  update_from_metadata now patch self = (Ok tt, self') ->
  (metadata self' !! "kind" = Some (VStr "storage#object") /\
   metadata self' !! "bucket" = Some (VStr (bucket_name self)) /\
   metadata self' !! "name" = Some (VStr (name self)) /\
   metadata self' !! "id" = Some (VStr (object_id self)) /\
   metadata self' !! "selfLink" = Some (VStr (gcs_url self ++ name self)) /\
   metadata self' !! "projectNumber" = Some (VStr "123456789") /\
   metadata self' !! "updated" = Some (VStr now)) /\
  (gcs_url self' = gcs_url self /\ bucket_name self' = bucket_name self /\
   name self' = name self /\ generation self' = generation self /\
   object_id self' = object_id self /\ media self' = media self) /\
  default (VStr "") (metadata self' !! "md5Hash") = VStr (md5_b64 (media self')).
Proof.
  rewrite update_from_metadata_eq.
  destruct (Py.add1 _) as [mg|e]; [|done]. cbv zeta.
  destruct (Py.eq_str _ _) eqn:Hmd5; [|done]. intros [= <-]. simpl.
  destruct (merged_protected now patch self) as (?&?&?&?&?&?&?).
  split; [|split; [done|]].
  - repeat split; by rewrite lookup_insert_ne.
  - by apply eq_str_true.
Qed.

(** On a revision whose stored md5Hash is the checksum of its media, a
    patch that does not name md5Hash is accepted. *)
Lemma update_from_metadata_ok now patch self n :
  metadata self !! "md5Hash" = Some (VStr (md5_b64 (media self))) ->
  patch !! "md5Hash" = None ->
  (patch ∪ metadata self) !! "metageneration" = Some (VInt n) ->
  update_from_metadata now patch self =
    (Ok tt, set_metadata (<["metageneration" := VInt (n + 1)]> (merged now patch self)) self).
Proof.
  intros Hmd5 Hpatch Hmg.
  rewrite update_from_metadata_eq.
  rewrite merged_lookup_other by not_in_literals. rewrite Hmg. simpl.
  rewrite lookup_insert_ne by done.
  rewrite merged_lookup_other by not_in_literals.
  rewrite lookup_union_r by done. rewrite Hmd5. simpl.
  by rewrite String.eqb_refl.
Qed.

(** A patch that names an md5Hash other than the checksum of the media
    is refused, after it has been stored. *)
Lemma update_from_metadata_mismatch now patch self n md5 :
  patch !! "md5Hash" = Some md5 ->
  Py.eq_str md5 (md5_b64 (media self)) = false ->
  (patch ∪ metadata self) !! "metageneration" = Some (VInt n) ->
  update_from_metadata now patch self =
    (Raise (mismatched_md5 (md5_b64 (media self)) md5),
     set_metadata (<["metageneration" := VInt (n + 1)]> (merged now patch self)) self).
Proof.
  intros Hpatch Hne Hmg.
  rewrite update_from_metadata_eq.
  rewrite merged_lookup_other by not_in_literals. rewrite Hmg. simpl.
  rewrite lookup_insert_ne by done.
  rewrite merged_lookup_other by not_in_literals.
  rewrite (lookup_union_Some_l _ _ _ _ Hpatch). simpl. by rewrite Hne.
Qed.

(** X2.  On a revision whose stored md5Hash is the checksum of its
    media, a patch that does not name md5Hash is accepted whenever the
    metageneration it leaves (its own, or else the stored one) is an
    integer: the metageneration becomes one more, and every other key
    outside the reset ones holds the value of the patch where the patch
    has one, and its old value otherwise.  When the metageneration it
    leaves is a string, a list, an object or null, the call fails with
    the [TypeError] of the increment and the revision is unchanged. *)
Theorem update_from_metadata_applies_patch now patch self :
  metadata self !! "md5Hash" = Some (VStr (md5_b64 (media self))) ->
  patch !! "md5Hash" = None ->
  (forall n,
     (patch ∪ metadata self) !! "metageneration" = Some (VInt n) ->
     exists self',
       update_from_metadata now patch self = (Ok tt, self') /\
       metadata self' !! "metageneration" = Some (VInt (n + 1)) /\
       forall k,
         k ∉ ["kind"; "bucket"; "name"; "id"; "selfLink"; "projectNumber"; "updated";
               "metageneration"] ->
         metadata self' !! k =
           match patch !! k with
           | Some v => Some v
           | None => metadata self !! k
           end) /\
  (forall v,
     (patch ∪ metadata self) !! "metageneration" = Some v ->
     (forall n, v <> VInt n) -> (forall b, v <> VBool b) ->
     update_from_metadata now patch self = (Raise TypeError, self)).
Proof.
  intros Hmd5 Hpatch. split.
  - intros n Hmg.
    rewrite (update_from_metadata_ok now patch self n Hmd5 Hpatch Hmg).
    eexists. split; [reflexivity|]. simpl. split; [apply lookup_insert_eq|].
    intros k Hk.
    rewrite lookup_insert_ne by (intros <-; apply Hk; in_literals).
    rewrite merged_lookup_other
      by (intros Hin; apply Hk;
          repeat (apply elem_of_cons in Hin as [->|Hin]; [in_literals|]);
          by apply elem_of_nil in Hin).
    rewrite lookup_union. destruct (patch !! k), (metadata self !! k); done.
  - intros v Hmg Hint Hbool.
    rewrite update_from_metadata_eq.
    rewrite merged_lookup_other by not_in_literals. rewrite Hmg. simpl.
    destruct v as [|b|n| | |]; try reflexivity.
    + by destruct (Hbool b).
    + by destruct (Hint n).
Qed.

(** X3.  What a constructed revision holds: the media of the upload, or
    the corrupted media when the request carries the
    [inject-upload-data-error] instruction; under md5Hash the checksum
    and under size the length of the media it actually stores; the
    generation, and the id and selfLink derived from the names. *)
Theorem new_revision_describes_media
    gcs_url bucket_name name generation request media now revision :
  GcsObjectVersion.new gcs_url bucket_name name generation request media now
    = Ok revision ->
  GcsObjectVersion.media revision =
    (if bool_decide (headers request !! "x-goog-testbench-instructions"
                     = Some "inject-upload-data-error")
     then corrupt_media media else media) /\
  metadata revision !! "md5Hash" =
    Some (VStr (md5_b64 (GcsObjectVersion.media revision))) /\
  metadata revision !! "size" = Some (VInt (Py.len (GcsObjectVersion.media revision))) /\
  metadata revision !! "generation" = Some (VInt generation) /\
  metadata revision !! "id" =
    Some (VStr (bucket_name ++ "/o/" ++ name ++ "/" ++ Py.str generation)) /\
  metadata revision !! "selfLink" = Some (VStr (gcs_url ++ name)) /\
  metadata revision !! "contentType" = VStr <$> (headers request !! "content-type").
Proof.
  intros Hnew.
  pose proof (new_revision_fields _ _ _ _ _ _ _ _ Hnew) as (_&_&_&Hmedia&Hmd5&_&_).
  unfold GcsObjectVersion.new in Hnew.
  set (self0 := init_fields gcs_url bucket_name name generation request media now) in *.
  destruct (init_body _ _ _) as [[[]|e] self] eqn:Hrun; [|done].
  injection Hnew as <-.
  pose proof (init_body_same_except request now self0) as Hp.
  rewrite Hrun in Hp. simpl in Hp.
  rewrite update_from_metadata_eq in Hp.
  assert (Hmg : merged now ∅ self0 !! "metageneration" = Some (VInt 0)).
  { rewrite merged_lookup_other by not_in_literals.
    rewrite lookup_union_r by apply lookup_empty.
    unfold self0, init_fields; simpl.
    destruct (headers request !! "content-type");
      repeat (rewrite lookup_insert_ne by done); by rewrite ?lookup_insert_eq. }
  rewrite Hmg in Hp. simpl in Hp.
  destruct Hp as (_&_&_&_&_&_&Hp). simpl in Hp.
  destruct (merged_protected now ∅ self0) as (_&_&_&Hid&Hlink&_&_).
  assert (Hmedia0 : GcsObjectVersion.media self0 =
    (if bool_decide (headers request !! "x-goog-testbench-instructions"
                     = Some "inject-upload-data-error")
     then corrupt_media media else media)).
  { unfold self0, init_fields. simpl.
    destruct (headers request !! "x-goog-testbench-instructions") as [i|]; [|done].
    destruct (String.eqb i "inject-upload-data-error") eqn:Hi.
    - apply String.eqb_eq in Hi as ->. by rewrite bool_decide_eq_true_2.
    - apply String.eqb_neq in Hi. rewrite bool_decide_eq_false_2; [done|congruence]. }
  split; [by rewrite Hmedia|]. split; [done|].
  assert (Hother : forall k,
    k ∉ ["kind"; "bucket"; "name"; "id"; "selfLink"; "projectNumber"; "updated";
          "metageneration"; "acl"; "customerEncryption"] ->
    metadata self !! k = metadata self0 !! k).
  { intros k Hk.
    rewrite Hp by (unfold acl_keys; intros Hin; apply Hk;
                   repeat (apply elem_of_cons in Hin as [->|Hin]; [in_literals|]);
                   by apply elem_of_nil in Hin).
    rewrite lookup_insert_ne by (intros <-; apply Hk; in_literals).
    rewrite merged_lookup_other
      by (intros Hin; apply Hk;
          repeat (apply elem_of_cons in Hin as [->|Hin]; [in_literals|]);
          by apply elem_of_nil in Hin).
    by rewrite lookup_union_r by apply lookup_empty. }
  repeat split.
  - rewrite Hother by not_in_literals. rewrite Hmedia.
    unfold self0, init_fields; simpl.
    destruct (headers request !! "content-type"); simpl;
      repeat (rewrite lookup_insert_ne by done); by rewrite ?lookup_insert_eq.
  - rewrite Hother by not_in_literals.
    unfold self0, init_fields; simpl.
    destruct (headers request !! "content-type"); simpl;
      repeat (rewrite lookup_insert_ne by done); by rewrite ?lookup_insert_eq.
  - rewrite Hp by (unfold acl_keys; not_in_literals).
    rewrite lookup_insert_ne by done. exact Hid.
  - rewrite Hp by (unfold acl_keys; not_in_literals).
    rewrite lookup_insert_ne by done. exact Hlink.
  - rewrite Hother by not_in_literals.
    unfold self0, init_fields; simpl.
    destruct (headers request !! "content-type"); simpl;
      [by rewrite lookup_insert_eq|].
    repeat (rewrite lookup_insert_ne by done). by rewrite lookup_empty.
Qed.

End MetadataUpdates.

(** ** More about the access-control list *)

Section AclUpdates.
Context `{C : Collaborators}.
Import GcsObjectVersion.

Lemma insert_acl_as_value entity role :
  insert_acl entity role = insert_acl_value entity (VStr role).
Proof. reflexivity. Qed.

(** The index of a well-formed list: every entry, under its entity. *)
Lemma index_acl_lookup (l : list pyval) :
  acl_wf l ->
  exists indexed,
    index_acl (VList l) = Ok indexed /\
    forall k e, indexed !! k = Some e <-> e ∈ l /\ entry_entity e = k.
Proof.
  intros Hwf. destruct (index_acl_wf l Hwf) as (indexed & Hindex & Hperm).
  exists indexed. split; [done|]. intros k e.
  rewrite <- elem_of_map_to_list, Hperm, list_elem_of_fmap. split.
  - intros (x & [= -> ->] & Hx). done.
  - intros [He <-]. eauto.
Qed.

(** The values of an index that files every entry under its entity form
    a well-formed list. *)
Lemma values_keyed (indexed : gmap (option string) pyval) :
  (forall k e, indexed !! k = Some e -> entry_entity e = k /\ is_Some k) ->
  acl_wf (values indexed) /\
  forall e, e ∈ values indexed <-> exists k, indexed !! k = Some e.
Proof.
  intros Hkeyed.
  assert (Hin : forall e, e ∈ values indexed <-> exists k, indexed !! k = Some e).
  { intros e. unfold values. rewrite list_elem_of_fmap. split.
    - intros ([k x] & -> & Hx). apply elem_of_map_to_list in Hx. eauto.
    - intros [k Hk]. exists (k, e). split; [done|]. by apply elem_of_map_to_list. }
  split; [|done]. split.
  - apply Forall_forall. intros e [k Hk]%Hin.
    destruct (Hkeyed _ _ Hk) as [-> ?]. done.
  - assert (Heq : entry_entity <$> values indexed = (map_to_list indexed).*1).
    { unfold values. rewrite <- list_fmap_compose.
      apply list_fmap_ext. intros i [k e] Hi. simpl.
      apply list_elem_of_lookup_2, elem_of_map_to_list in Hi.
      by destruct (Hkeyed _ _ Hi). }
    rewrite Heq. apply NoDup_fst_map_to_list.
Qed.

(** The entry [insert_acl] builds names its entity and its role. *)
Lemma entry_fields (bucket email entity etag_id id object selfLink : string)
    (etag generation role : pyval) :
  let entry :=
    VDict (list_to_map [
      ("bucket", VStr bucket); ("email", VStr email); ("entity", VStr entity);
      ("entity_id", VStr etag_id); ("etag", etag); ("generation", generation);
      ("id", VStr id); ("kind", VStr "storage#objectAccessControl");
      ("object", VStr object); ("role", role); ("selfLink", VStr selfLink)]) in
  entry_entity entry = Some entity /\
  Py.get entry "role" VNone = Ok role /\
  Py.get entry "etag" VNone = Ok etag.
Proof.
  cbv zeta. unfold entry_entity, Py.get. simpl list_to_map.
  repeat split.
Qed.

(** What [insert_acl] does on a revision whose list is well formed: it
    succeeds, and the new list holds the new entry and the old entries
    of the other entities. *)
Lemma insert_acl_value_ok self entity role (l : list pyval) id selfLink :
  acl_of self = VList l ->
  acl_wf l ->
  default (VStr "") (metadata self !! "id") = VStr id ->
  metadata self !! "selfLink" = Some (VStr selfLink) ->
  exists entry l',
    insert_acl_value entity role self =
      (Ok entry, set_metadata (<["acl" := VList l']> (metadata self)) self) /\
    entry_entity entry = Some (canonical_entity_name entity) /\
    Py.get entry "role" VNone = Ok role /\
    Py.get entry "etag" VNone = Ok (default (VStr "XYZ=") (metadata self !! "etag")) /\
    acl_wf l' /\
    forall e, e ∈ l' <->
      e = entry \/ (e ∈ l /\ entry_entity e <> Some (canonical_entity_name entity)).
Proof.
  intros Hacl Hwf Hid Hlink. unfold acl_of in Hacl.
  destruct (index_acl_lookup l Hwf) as (indexed & Hindex & Hlookup).
  unfold insert_acl_value, bind, get_self, lift, setitem, modify_self, ret.
  rewrite Hacl, Hindex, Hid, Hlink. simpl Py.add_str. cbv beta iota zeta.
  match goal with
  | |- context [<[Some ?c := ?e]> indexed] => set (canonical := c); set (entry := e)
  end.
  destruct (entry_fields (bucket_name self)
              (if Py.startswith canonical "user-" then canonical else "")
              canonical "" (id ++ "/" ++ canonical) (name self)
              (selfLink ++ "/acl/" ++ canonical)
              (default (VStr "XYZ=") (metadata self !! "etag"))
              (VInt (generation self)) role) as (He1 & He2 & He3).
  fold entry in He1, He2, He3.
  assert (Hkeyed : forall k e,
    <[Some canonical := entry]> indexed !! k = Some e -> entry_entity e = k /\ is_Some k).
  { intros k e [[<- <-]|[Hne Hk]]%lookup_insert_Some; [by eauto|].
    apply Hlookup in Hk as [Hin <-]. split; [done|].
    destruct Hwf as [Hall _]. rewrite Forall_forall in Hall. by apply Hall. }
  destruct (values_keyed _ Hkeyed) as [Hwf' Hin'].
  exists entry, (values (<[Some canonical := entry]> indexed)).
  split; [reflexivity|]. split; [done|]. split; [done|]. split; [done|].
  split; [done|]. intros e. rewrite Hin'. split.
  - intros [k [[<- <-]|[Hne Hk]]%lookup_insert_Some]; [by left|].
    right. apply Hlookup in Hk as [Hin <-]. done.
  - intros [->|[Hin Hne]].
    + exists (Some canonical). apply lookup_insert_eq.
    + exists (entry_entity e). rewrite lookup_insert_ne by done. by apply Hlookup.
Qed.

(** What [delete_acl] does when the entity has an entry. *)
Lemma delete_acl_ok self entity (l : list pyval) e :
  acl_of self = VList l ->
  acl_wf l ->
  e ∈ l ->
  entry_entity e = Some (canonical_entity_name entity) ->
  exists l',
    delete_acl entity self =
      (Ok tt, set_metadata (<["acl" := VList l']> (metadata self)) self) /\
    acl_wf l' /\
    forall x, x ∈ l' <->
      x ∈ l /\ entry_entity x <> Some (canonical_entity_name entity).
Proof.
  intros Hacl Hwf He Hentity. unfold acl_of in Hacl.
  destruct (index_acl_lookup l Hwf) as (indexed & Hindex & Hlookup).
  unfold delete_acl, bind, get_self, lift, setitem, modify_self.
  rewrite Hacl, Hindex. cbv beta iota zeta.
  rewrite (proj2 (Hlookup (Some (canonical_entity_name entity)) e)) by done.
  set (canonical := canonical_entity_name entity) in *.
  assert (Hkeyed : forall k x,
    delete (Some canonical) indexed !! k = Some x -> entry_entity x = k /\ is_Some k).
  { intros k x [Hne Hk]%lookup_delete_Some.
    apply Hlookup in Hk as [Hin <-]. split; [done|].
    destruct Hwf as [Hall _]. rewrite Forall_forall in Hall. by apply Hall. }
  destruct (values_keyed _ Hkeyed) as [Hwf' Hin'].
  eexists. split; [reflexivity|]. split; [done|].
  intros x. rewrite Hin'. split.
  - intros [k [Hne Hk]%lookup_delete_Some]. apply Hlookup in Hk as [Hin <-]. done.
  - intros [Hin Hne]. exists (entry_entity x).
    rewrite lookup_delete_ne by done. by apply Hlookup.
Qed.

(** What [get_acl] does, by cases on the list. *)
Lemma get_acl_found self entity (l : list pyval) e :
  acl_of self = VList l -> acl_wf l -> e ∈ l ->
  entry_entity e = Some (canonical_entity_name entity) ->
  get_acl entity self = (Ok e, self).
Proof.
  intros Hacl Hwf He Hentity. unfold acl_of in Hacl.
  unfold get_acl, bind, get_self, lift. rewrite Hacl. simpl.
  by rewrite (get_acl_loop_some _ _ e).
Qed.

Lemma get_acl_missing self entity (l : list pyval) :
  acl_of self = VList l -> acl_wf l ->
  (forall e, e ∈ l -> entry_entity e <> Some (canonical_entity_name entity)) ->
  get_acl entity self =
    (Raise (ErrorResponse
              ("Entity " ++ canonical_entity_name entity ++ " not found in object "
               ++ name self)
              default_status_code),
     self).
Proof.
  intros Hacl Hwf Hno. unfold acl_of in Hacl.
  unfold get_acl, bind, get_self, lift. rewrite Hacl. simpl.
  rewrite get_acl_loop_none; [done|apply Hwf|done].
Qed.

Lemma acl_of_set_acl self (l : list pyval) :
  acl_of (set_metadata (<["acl" := VList l]> (metadata self)) self) = VList l.
Proof. unfold acl_of. simpl. by rewrite lookup_insert_eq. Qed.

(** [insert_acl] keeps a revision ready for the ACL methods. *)
Lemma insert_acl_value_ready self entity role :
  acl_ready self ->
  exists entry self',
    insert_acl_value entity role self = (Ok entry, self') /\
    acl_ready self' /\
    same_except acl_keys self self' /\
    (forall e, e ∈ acl_entries self' <->
       e = entry \/
       (e ∈ acl_entries self /\ entry_entity e <> Some (canonical_entity_name entity))) /\
    entry_entity entry = Some (canonical_entity_name entity) /\
    Py.get entry "role" VNone = Ok role.
Proof.
  intros ((l & Hacl & Hwf) & (id & Hid) & (selfLink & Hlink)).
  destruct (insert_acl_value_ok self entity role l id selfLink Hacl Hwf Hid Hlink)
    as (entry & l' & Hrun & He & Hrole & _ & Hwf' & Hin).
  exists entry, (set_metadata (<["acl" := VList l']> (metadata self)) self).
  split; [done|]. split; [|split; [|split; [|done]]].
  - split; [|split].
    + exists l'. split; [apply acl_of_set_acl|done].
    + exists id. simpl. by rewrite lookup_insert_ne.
    + exists selfLink. simpl. by rewrite lookup_insert_ne.
  - unfold same_except. simpl. repeat split; try done.
    intros k Hk. rewrite lookup_insert_ne; [done|].
    intros <-. apply Hk. unfold acl_keys. in_literals.
  - unfold acl_entries. rewrite acl_of_set_acl, Hacl. done.
Qed.

(** X4.  Inserting an entry and reading it back: on a revision whose
    access-control list is well formed, [insert_acl] succeeds, and a
    [get_acl] for the same entity then returns the very entry
    [insert_acl] returned, which holds the canonical entity name and the
    role given. *)
Theorem insert_acl_then_get_acl self entity role :
  acl_ready self ->
  exists entry self',
    insert_acl entity role self = (Ok entry, self') /\
    get_acl entity self' = (Ok entry, self') /\
    Py.get entry "entity" VNone = Ok (VStr (canonical_entity_name entity)) /\
    Py.get entry "role" VNone = Ok (VStr role).
Proof.
  intros Hready.
  destruct (insert_acl_value_ready self entity (VStr role) Hready)
    as (entry & self' & Hrun & ((l' & Hacl' & Hwf') & _) & _ & Hin & He & Hrole).
  exists entry, self'. rewrite insert_acl_as_value. split; [done|].
  split; [|split; [|done]].
  - apply (get_acl_found self' entity l' entry Hacl' Hwf'); [|done].
    unfold acl_entries in Hin. rewrite Hacl' in Hin. apply Hin. by left.
  - destruct entry as [| | | | |d]; try done. simpl in *.
    destruct (d !! "entity") as [[]|]; try done. by injection He as ->.
Qed.

(** X5.  [insert_acl] replaces, it never duplicates: afterwards the list
    is still well formed (one entry per entity), it holds the new entry
    and exactly the old entries of the other entities, and nothing
    outside the ACL has changed in the revision. *)
Theorem insert_acl_replaces_entry self entity role (l : list pyval) :
  acl_of self = VList l ->
  acl_wf l ->
  (exists id, default (VStr "") (metadata self !! "id") = VStr id) ->
  (exists selfLink, metadata self !! "selfLink" = Some (VStr selfLink)) ->
  exists entry l',
    insert_acl entity role self =
      (Ok entry, set_metadata (<["acl" := VList l']> (metadata self)) self) /\
    acl_wf l' /\
    (forall e, e ∈ l' <->
       e = entry \/ (e ∈ l /\ entry_entity e <> Some (canonical_entity_name entity))) /\
    length l' =
      S (length (filter (fun e => entry_entity e <> Some (canonical_entity_name entity)) l)).
Proof.
  intros Hacl Hwf [id Hid] [selfLink Hlink].
  destruct (insert_acl_value_ok self entity (VStr role) l id selfLink Hacl Hwf Hid Hlink)
    as (entry & l' & Hrun & He & _ & _ & Hwf' & Hin).
  exists entry, l'. rewrite insert_acl_as_value.
  split; [done|]. split; [done|]. split; [done|].
  set (canonical := canonical_entity_name entity) in *.
  assert (Hperm : l' ≡ₚ entry :: filter (fun e => entry_entity e <> Some canonical) l).
  { assert (Hnd : forall l0 : list pyval, NoDup (entry_entity <$> l0) -> NoDup l0).
    { intros l0. apply NoDup_fmap_1. }
    apply NoDup_Permutation.
    - apply Hnd, Hwf'.
    - apply NoDup_cons. split.
      + rewrite list_elem_of_filter. intros [Hne _]. done.
      + apply NoDup_filter, Hnd, Hwf.
    - intros e. rewrite Hin, elem_of_cons, list_elem_of_filter. naive_solver. }
  by rewrite Hperm.
Qed.

(** X6.  Inserting an entry and deleting it again: the [delete_acl]
    succeeds, the entity has no entry afterwards (a further [get_acl]
    fails with the not-found error), and the entries of all other
    entities are the ones the list held before the insertion. *)
Theorem insert_acl_then_delete_acl self entity role :
  acl_ready self ->
  exists entry self' self'',
    insert_acl entity role self = (Ok entry, self') /\
    delete_acl entity self' = (Ok tt, self'') /\
    (forall e, e ∈ acl_entries self'' <->
       e ∈ acl_entries self /\ entry_entity e <> Some (canonical_entity_name entity)) /\
    get_acl entity self'' =
      (Raise (ErrorResponse
                ("Entity " ++ canonical_entity_name entity ++ " not found in object "
                 ++ name self)
                default_status_code),
       self'').
Proof.
  intros Hready.
  destruct (insert_acl_value_ready self entity (VStr role) Hready)
    as (entry & self' & Hrun & ((l' & Hacl' & Hwf') & _) & Hsame & Hin & He & _).
  assert (Hentry : entry ∈ l').
  { unfold acl_entries in Hin. rewrite Hacl' in Hin. apply Hin. by left. }
  destruct (delete_acl_ok self' entity l' entry Hacl' Hwf' Hentry He)
    as (l'' & Hdel & Hwf'' & Hin'').
  eexists entry, self', _. rewrite insert_acl_as_value.
  split; [done|]. split; [exact Hdel|].
  assert (Hentries : forall e,
    e ∈ l'' <->
    e ∈ acl_entries self /\ entry_entity e <> Some (canonical_entity_name entity)).
  { intros e. rewrite Hin''. unfold acl_entries in Hin. rewrite Hacl' in Hin.
    rewrite Hin. split.
    - intros [[->|[? ?]] Hne]; done.
    - intros [? ?]. split; [by right|done]. }
  split.
  - unfold acl_entries. rewrite acl_of_set_acl. exact Hentries.
  - destruct Hsame as (_&_&Hname&_).
    rewrite Hname.
    change (name self') with
      (name (set_metadata (<["acl" := VList l'']> (metadata self')) self')).
    apply (get_acl_missing _ entity l''); [apply acl_of_set_acl|done|].
    intros e [_ Hne]%Hentries. done.
Qed.

End AclUpdates.

(** ** Predefined ACLs and the constructor *)

(** Evaluates the comparisons of string literals in the goal. *)
Ltac eval_eqb :=
  repeat match goal with
  | |- context [String.eqb ?a ?b] =>
      let v := eval vm_compute in (String.eqb a b) in
      change (String.eqb a b) with v
  end;
  cbv iota.

Section PredefinedAcl.
Context `{C : Collaborators}.
Import GcsObjectVersion.

Lemma acl_inserted_nil self : acl_ready self -> acl_inserted [] self self.
Proof.
  intros Hready. split; [done|]. split; [apply same_except_refl|].
  split; [by left|]. intros x Hx. by apply elem_of_nil in Hx.
Qed.

Lemma acl_inserted_step xs self self1 entity role :
  acl_inserted xs self self1 ->
  exists entry self2,
    insert_acl entity role self1 = (Ok entry, self2) /\
    acl_inserted (xs ++ [entity]) self self2.
Proof.
  intros (Hready & Hsame & Hold & Hnew).
  destruct (insert_acl_value_ready self1 entity (VStr role) Hready)
    as (entry & self2 & Hrun & Hready2 & Hsame2 & Hin & He & _).
  exists entry, self2. rewrite insert_acl_as_value. split; [done|].
  split; [done|]. split; [by eapply same_except_trans|]. split.
  - intros e [->|[He1 Hne]]%Hin.
    + right. exists entity. split; [|done]. apply elem_of_app. right. by left.
    + destruct (Hold e He1) as [?|(x & Hx & Hex)]; [by left|].
      right. exists x. split; [|done]. apply elem_of_app. by left.
  - intros x [Hx|Hx%list_elem_of_singleton]%elem_of_app.
    + destruct (Hnew x Hx) as (e & He1 & He2).
      destruct (decide (canonical_entity_name x = canonical_entity_name entity))
        as [Heq|Hne].
      * exists entry. split; [apply Hin; by left|]. by rewrite Heq.
      * exists e. split; [|done]. apply Hin. right. split; [done|].
        rewrite He2. congruence.
    + subst x. exists entry. split; [apply Hin; by left|done].
Qed.

(** The owner entity as the code computes it. *)
Lemma owner_entity_eq (bucket : GcsBucket) {S} (s : S) :
  bucket_owner_ok bucket ->
  (if is_none (bucket_metadata bucket !! "owner")
   then ret (VStr "project-owners-123456789")
   else lift (Py.get (default VNone (bucket_metadata bucket !! "owner")) "entity" VNone)) s
  = (Ok (VStr (bucket_owner_entity bucket)), s).
Proof.
  unfold bucket_owner_ok, bucket_owner_entity.
  destruct (bucket_metadata bucket !! "owner") as [[| | | | |d]|]; try done.
  intros [e He]. simpl. unfold lift. by rewrite He.
Qed.

(** [_update_predefined_acl] with a known policy, on a revision ready
    for the ACL methods, inserts the entries of the policy. *)
Lemma update_predefined_acl_ok self bucket predefined_acl :
  acl_ready self ->
  lookup_bucket (bucket_name self) = Ok bucket ->
  bucket_owner_ok bucket ->
  default "projectPrivate" predefined_acl ∈ predefined_acls ->
  exists self',
    _update_predefined_acl predefined_acl self = (Ok tt, self') /\
    acl_inserted (predefined_entities bucket (default "projectPrivate" predefined_acl))
      self self'.
Proof.
  intros Hready Hbucket Howner Hknown.
  set (p := default "projectPrivate" predefined_acl) in *.
  unfold _update_predefined_acl. fold p.
  unfold bind at 1. unfold get_self at 1. unfold bind at 1.
  destruct (acl_inserted_step [] self self
              (canonical_entity_name "project-owners-123456789") "OWNER"
              (acl_inserted_nil self Hready)) as (e1 & s1 & Hrun1 & Hins1).
  rewrite Hrun1. simpl app in Hins1.
  unfold bind at 1. unfold lift at 1. rewrite Hbucket.
  unfold bind at 1. rewrite (owner_entity_eq bucket s1 Howner).
  unfold predefined_entities.
  unfold predefined_acls in Hknown.
  repeat (apply elem_of_cons in Hknown as [->|Hknown]); [..|by apply elem_of_nil in Hknown];
    eval_eqb.
  - destruct (acl_inserted_step _ self s1 "allAuthenticatedUsers" "READER" Hins1)
      as (e2 & s2 & Hrun2 & Hins2).
    unfold bind. rewrite Hrun2. by exists s2.
  - destruct (acl_inserted_step _ self s1 (bucket_owner_entity bucket) "OWNER" Hins1)
      as (e2 & s2 & Hrun2 & Hins2).
    unfold bind. rewrite Hrun2. by exists s2.
  - destruct (acl_inserted_step _ self s1 (bucket_owner_entity bucket) "READER" Hins1)
      as (e2 & s2 & Hrun2 & Hins2).
    unfold bind. rewrite Hrun2. by exists s2.
  - destruct (acl_inserted_step _ self s1 "project-owners" "OWNER" Hins1)
      as (e2 & s2 & Hrun2 & Hins2).
    unfold bind. rewrite Hrun2. by exists s2.
  - destruct (acl_inserted_step _ self s1
                (canonical_entity_name "project-editors-123456789") "OWNER" Hins1)
      as (e2 & s2 & Hrun2 & Hins2).
    destruct (acl_inserted_step _ self s2
                (canonical_entity_name "project-viewers-123456789") "READER" Hins2)
      as (e3 & s3 & Hrun3 & Hins3).
    unfold bind. rewrite Hrun2, Hrun3. by exists s3.
  - destruct (acl_inserted_step _ self s1 (canonical_entity_name "allUsers") "READER" Hins1)
      as (e2 & s2 & Hrun2 & Hins2).
    unfold bind. rewrite Hrun2. by exists s2.
Qed.


Lemma unknown_policy_eqb p :
  p ∉ predefined_acls ->
  String.eqb p "authenticatedRead" = false /\
  String.eqb p "bucketOwnerFullControl" = false /\
  String.eqb p "bucketOwnerRead" = false /\
  String.eqb p "private" = false /\
  String.eqb p "projectPrivate" = false /\
  String.eqb p "publicRead" = false.
Proof.
  intros Hp. repeat split; apply String.eqb_neq; intros ->; apply Hp;
    unfold predefined_acls; in_literals.
Qed.

(** X7.  A policy name [_update_predefined_acl] does not know never
    succeeds.  On a revision ready for the ACL methods the call fails
    with "Invalid predefinedAcl value" (400), and it fails late: the
    OWNER entry of the project owners has already been inserted, and
    stays. *)
Theorem update_predefined_acl_refuses_unknown_policy self p :
  p ∉ predefined_acls ->
  (exists e self', _update_predefined_acl (Some p) self = (Raise e, self')) /\
  (forall bucket,
     acl_ready self ->
     lookup_bucket (bucket_name self) = Ok bucket ->
     bucket_owner_ok bucket ->
     exists self',
       _update_predefined_acl (Some p) self =
         (Raise (ErrorResponse "Invalid predefinedAcl value" 400), self') /\
       exists e,
         e ∈ acl_entries self' /\
         entry_entity e =
           Some (canonical_entity_name (canonical_entity_name "project-owners-123456789")) /\
         Py.get e "role" VNone = Ok (VStr "OWNER")).
Proof.
  intros (H1&H2&H3&H4&H5&H6)%unknown_policy_eqb. split.
  - unfold _update_predefined_acl. simpl default.
    unfold bind at 1. unfold get_self at 1. unfold bind at 1.
    destruct (insert_acl _ _ self) as [[e1|e1] s1]; [|by eauto].
    unfold bind at 1. unfold lift at 1.
    destruct (lookup_bucket _) as [bucket|e2]; [|by eauto].
    unfold bind at 1.
    match goal with |- context [(if ?b then ?x else ?y) s1] =>
      destruct ((if b then x else y) s1) as [[owner|e3] s2] end; [|by eauto].
    rewrite H1, H2, H3, H4, H5, H6. unfold raise. eauto.
  - intros bucket Hready Hbucket Howner.
    unfold _update_predefined_acl. simpl default.
    unfold bind at 1. unfold get_self at 1. unfold bind at 1.
    destruct (insert_acl_value_ready self
                (canonical_entity_name "project-owners-123456789") (VStr "OWNER") Hready)
      as (e1 & s1 & Hrun1 & _ & _ & Hin & He & Hrole).
    rewrite insert_acl_as_value, Hrun1.
    unfold bind at 1. unfold lift at 1. rewrite Hbucket.
    unfold bind at 1. rewrite (owner_entity_eq bucket s1 Howner).
    rewrite H1, H2, H3, H4, H5, H6. unfold raise.
    exists s1. split; [done|]. exists e1. split; [apply Hin; by left|done].
Qed.

Lemma acl_ready_reset self :
  (exists id, default (VStr "") (metadata self !! "id") = VStr id) ->
  (exists selfLink, metadata self !! "selfLink" = Some (VStr selfLink)) ->
  acl_ready (set_metadata (<["acl" := VList []]> (metadata self)) self).
Proof.
  intros [id Hid] [selfLink Hlink]. split; [|split].
  - exists []. split; [apply acl_of_set_acl|]. split; [constructor|].
    rewrite fmap_nil. constructor.
  - exists id. simpl. by rewrite lookup_insert_ne.
  - exists selfLink. simpl. by rewrite lookup_insert_ne.
Qed.

(** [reset_predefined_acl] with a known policy: the list is replaced by
    the entries of the policy, and nothing else changes. *)
Lemma reset_predefined_acl_ok self bucket predefined_acl :
  (exists id, default (VStr "") (metadata self !! "id") = VStr id) ->
  (exists selfLink, metadata self !! "selfLink" = Some (VStr selfLink)) ->
  lookup_bucket (bucket_name self) = Ok bucket ->
  bucket_owner_ok bucket ->
  default "projectPrivate" predefined_acl ∈ predefined_acls ->
  exists self',
    reset_predefined_acl predefined_acl self = (Ok tt, self') /\
    acl_ready self' /\
    same_except acl_keys self self' /\
    forall x,
      (exists e, e ∈ acl_entries self' /\ entry_entity e = Some x) <->
      x ∈ canonical_entity_name <$>
            predefined_entities bucket (default "projectPrivate" predefined_acl).
Proof.
  intros Hid Hlink Hbucket Howner Hknown.
  pose proof (acl_ready_reset self Hid Hlink) as Hready.
  set (s0 := set_metadata (<["acl" := VList []]> (metadata self)) self) in *.
  destruct (update_predefined_acl_ok s0 bucket predefined_acl Hready Hbucket Howner Hknown)
    as (self' & Hrun & (Hready' & Hsame & Hold & Hnew)).
  exists self'. split; [|split; [done|split]].
  - unfold reset_predefined_acl, bind, setitem, modify_self. fold s0. by rewrite Hrun.
  - apply (same_except_trans _ self s0 self'); [|done].
    unfold same_except, s0. simpl. repeat split; try done.
    intros k Hk. rewrite lookup_insert_ne; [done|].
    intros <-. apply Hk. unfold acl_keys. in_literals.
  - intros x. rewrite list_elem_of_fmap. split.
    + intros (e & He & Hx). destruct (Hold e He) as [Hin|(y & Hy & Hey)].
      * unfold acl_entries, s0 in Hin. rewrite acl_of_set_acl in Hin.
        by apply elem_of_nil in Hin.
      * exists y. split; [congruence|done].
    + intros (y & -> & Hy). destruct (Hnew y Hy) as (e & He & Hey). eauto.
Qed.

(** X8.  [reset_predefined_acl] with a known policy discards whatever
    the ACL held, well formed or not: afterwards the list is well formed
    and the entities that have an entry are exactly the ones the policy
    inserts, the project owners first. *)
Theorem reset_predefined_acl_keeps_only_policy_entries self bucket predefined_acl :
  (exists id, default (VStr "") (metadata self !! "id") = VStr id) ->
  (exists selfLink, metadata self !! "selfLink" = Some (VStr selfLink)) ->
  lookup_bucket (bucket_name self) = Ok bucket ->
  bucket_owner_ok bucket ->
  default "projectPrivate" predefined_acl ∈ predefined_acls ->
  exists self',
    reset_predefined_acl predefined_acl self = (Ok tt, self') /\
    acl_wf (acl_entries self') /\
    forall x,
      (exists e, e ∈ acl_entries self' /\ entry_entity e = Some x) <->
      x ∈ canonical_entity_name <$>
            predefined_entities bucket (default "projectPrivate" predefined_acl).
Proof.
  intros Hid Hlink Hbucket Howner Hknown.
  destruct (reset_predefined_acl_ok self bucket predefined_acl
              Hid Hlink Hbucket Howner Hknown)
    as (self' & Hrun & ((l & Hacl & Hwf) & _) & _ & Hentities).
  exists self'. split; [done|]. split; [|done].
  unfold acl_entries. by rewrite Hacl.
Qed.

Lemma acl2json_mapping_known acl p :
  acl2json_mapping !! acl = Some p -> p ∈ predefined_acls.
Proof.
  unfold acl2json_mapping. intros H%elem_of_list_to_map_2.
  unfold predefined_acls.
  repeat (apply elem_of_cons in H as [[= -> ->]|H]; [in_literals|]).
  by apply elem_of_nil in H.
Qed.

(** The first step of the constructor: the metadata update succeeds and
    leaves a revision ready for the ACL methods. *)
Lemma init_update_ok gcs_url bucket_name name generation request media now :
  let self0 := init_fields gcs_url bucket_name name generation request media now in
  exists s1,
    update_from_metadata now ∅ self0 = (Ok tt, s1) /\
    acl_ready s1 /\ GcsObjectVersion.bucket_name s1 = bucket_name.
Proof.
  intros self0.
  assert (Hmd5 : metadata self0 !! "md5Hash"
                 = Some (VStr (md5_b64 (GcsObjectVersion.media self0)))).
  { unfold self0, init_fields; simpl.
    destruct (headers request !! "content-type"); simpl;
      repeat (rewrite lookup_insert_ne by done); by rewrite ?lookup_insert_eq. }
  assert (Hmg : (∅ ∪ metadata self0) !! "metageneration" = Some (VInt 0)).
  { rewrite lookup_union_r by apply lookup_empty.
    unfold self0, init_fields; simpl.
    destruct (headers request !! "content-type"); simpl;
      repeat (rewrite lookup_insert_ne by done); by rewrite ?lookup_insert_eq. }
  assert (Hacl : metadata self0 !! "acl" = None).
  { unfold self0, init_fields; simpl.
    destruct (headers request !! "content-type"); simpl;
      repeat (rewrite lookup_insert_ne by done); by rewrite ?lookup_empty. }
  rewrite update_from_metadata_eq.
  rewrite merged_lookup_other by not_in_literals. rewrite Hmg. simpl.
  rewrite lookup_insert_ne by done.
  rewrite merged_lookup_other by not_in_literals.
  rewrite lookup_union_r by apply lookup_empty. rewrite Hmd5. simpl.
  rewrite String.eqb_refl.
  eexists. split; [reflexivity|]. split; [|reflexivity].
  destruct (merged_protected now ∅ self0) as (_&_&_&Hid&Hlink&_&_).
  split; [|split].
  - exists []. split.
    + unfold acl_of. simpl. rewrite lookup_insert_ne by done.
      rewrite merged_lookup_other by not_in_literals.
      rewrite lookup_union_r by apply lookup_empty. by rewrite Hacl.
    + split; [constructor|]. rewrite fmap_nil. constructor.
  - eexists. simpl. rewrite lookup_insert_ne by done. by rewrite Hid.
  - eexists. simpl. rewrite lookup_insert_ne by done. exact Hlink.
Qed.

Lemma capture_customer_encryption_ok request self :
  encryption_headers_ok request ->
  acl_ready self ->
  exists self',
    _capture_customer_encryption request self = (Ok tt, self') /\
    acl_ready self' /\ bucket_name self' = bucket_name self.
Proof.
  unfold encryption_headers_ok, _capture_customer_encryption.
  intros Henc ((l & Hacl & Hwf) & (id & Hid) & (selfLink & Hlink)).
  destruct (headers request !! "x-goog-encryption-key") as [key|] eqn:Hkey.
  - cbv zeta. unfold bind, lift.
    change ("x-goog-encryption" ++ "-key") with "x-goog-encryption-key".
    change ("x-goog-encryption" ++ "-key-sha256") with "x-goog-encryption-key-sha256".
    change ("x-goog-encryption" ++ "-algorithm") with "x-goog-encryption-algorithm".
    rewrite Hkey, Henc. unfold setitem, modify_self.
    eexists. split; [reflexivity|]. split; [|reflexivity]. split; [|split].
    + exists l. unfold acl_of in *. simpl. by rewrite lookup_insert_ne.
    + exists id. simpl. by rewrite lookup_insert_ne.
    + exists selfLink. simpl. by rewrite lookup_insert_ne.
  - exists self. split; [done|]. split; [|done]. split; eauto.
Qed.

(** The steps of the constructor up to the [x-goog-acl] header. *)
Lemma init_body_prefix_ok gcs_url bucket_name name generation request media now bucket :
  lookup_bucket bucket_name = Ok bucket ->
  bucket_owner_ok bucket ->
  encryption_headers_ok request ->
  default "projectPrivate" (args request !! "predefinedAcl") ∈ predefined_acls ->
  exists s3,
    (update_from_metadata now ∅ ;;;
     _capture_customer_encryption request ;;;
     _update_predefined_acl (args request !! "predefinedAcl"))%method
      (init_fields gcs_url bucket_name name generation request media now) = (Ok tt, s3) /\
    acl_ready s3 /\ GcsObjectVersion.bucket_name s3 = bucket_name.
Proof.
  intros Hbucket Howner Henc Hknown.
  destruct (init_update_ok gcs_url bucket_name name generation request media now)
    as (s1 & Hrun1 & Hready1 & Hb1).
  destruct (capture_customer_encryption_ok request s1 Henc Hready1)
    as (s2 & Hrun2 & Hready2 & Hb2).
  rewrite <- Hb1, <- Hb2 in Hbucket.
  destruct (update_predefined_acl_ok s2 bucket _ Hready2 Hbucket Howner Hknown)
    as (s3 & Hrun3 & (Hready3 & (_&Hb3&_) & _)).
  exists s3. unfold bind. rewrite Hrun1, Hrun2, Hrun3.
  split; [done|]. split; [done|]. congruence.
Qed.

Lemma init_body_eq request now self0 :
  init_body request now self0 =
  match (update_from_metadata now ∅ ;;;
         _capture_customer_encryption request ;;;
         _update_predefined_acl (args request !! "predefinedAcl"))%method self0 with
  | (Ok _, s3) =>
      match headers request !! "x-goog-acl" with
      | None => (Ok tt, s3)
      | Some acl =>
          match acl2json_mapping !! acl with
          | Some predefined => _update_predefined_acl (Some predefined) s3
          | None => (Raise (ErrorResponse ("Invalid predefinedAcl value " ++ acl) 400), s3)
          end
      end
  | (Raise e, s) => (Raise e, s)
  end.
Proof.
  unfold init_body, bind.
  destruct (update_from_metadata now ∅ self0) as [[[]|e] s1]; [|done].
  destruct (_capture_customer_encryption request s1) as [[[]|e] s2]; [|done].
  destruct (_update_predefined_acl _ s2) as [[[]|e] s3]; [|done].
  destruct (headers request !! "x-goog-acl") as [acl|]; [|done].
  by destruct (acl2json_mapping !! acl).
Qed.

(** The constructor succeeds on a well-formed request, and the revision
    it returns is ready for the ACL methods. *)
Lemma new_ok gcs_url bucket_name name generation request media now bucket :
  lookup_bucket bucket_name = Ok bucket ->
  bucket_owner_ok bucket ->
  encryption_headers_ok request ->
  acl_request_ok request ->
  exists revision,
    GcsObjectVersion.new gcs_url bucket_name name generation request media now
      = Ok revision /\
    acl_ready revision.
Proof.
  intros Hbucket Howner Henc [Harg Hheader].
  assert (Hknown :
    default "projectPrivate" (args request !! "predefinedAcl") ∈ predefined_acls).
  { destruct (args request !! "predefinedAcl"); [done|].
    simpl. unfold predefined_acls. in_literals. }
  destruct (init_body_prefix_ok gcs_url bucket_name name generation request media now
              bucket Hbucket Howner Henc Hknown) as (s3 & Hrun & Hready & Hb).
  unfold GcsObjectVersion.new. rewrite init_body_eq, Hrun.
  destruct (headers request !! "x-goog-acl") as [acl|]; [|by eauto].
  destruct Hheader as [predefined Hmap]. rewrite Hmap.
  rewrite <- Hb in Hbucket.
  destruct (update_predefined_acl_ok s3 bucket (Some predefined) Hready Hbucket Howner
              (acl2json_mapping_known _ _ Hmap)) as (s4 & -> & (Hready4 & _)).
  eauto.
Qed.

(** X9.  The constructor succeeds for every request that asks for no
    encryption key, or for one with valid headers, and whose predefined
    ACLs, if any, are known, provided the bucket exists and names its
    owner, if at all, by an entity.  The revision it returns has a
    well-formed access-control list. *)
Theorem new_succeeds gcs_url bucket_name name generation request media now bucket :
  lookup_bucket bucket_name = Ok bucket ->
  bucket_owner_ok bucket ->
  encryption_headers_ok request ->
  acl_request_ok request ->
  exists revision,
    GcsObjectVersion.new gcs_url bucket_name name generation request media now
      = Ok revision /\
    acl_wf (acl_entries revision).
Proof.
  intros Hbucket Howner Henc Hacl.
  destruct (new_ok gcs_url bucket_name name generation request media now bucket
              Hbucket Howner Henc Hacl) as (revision & Hnew & ((l & Hl & Hwf) & _)).
  exists revision. split; [done|]. unfold acl_entries. by rewrite Hl.
Qed.

(** X10.  An [x-goog-acl] header that is not one of the six predefined
    names makes the constructor fail, whatever else the request holds;
    when nothing else is wrong with the request the failure is "Invalid
    predefinedAcl value <name>" (400). *)
Theorem new_refuses_unknown_x_goog_acl
    gcs_url bucket_name name generation request media now acl :
  headers request !! "x-goog-acl" = Some acl ->
  acl2json_mapping !! acl = None ->
  (exists e,
     GcsObjectVersion.new gcs_url bucket_name name generation request media now
       = Raise e) /\
  (forall bucket,
     lookup_bucket bucket_name = Ok bucket ->
     bucket_owner_ok bucket ->
     encryption_headers_ok request ->
     default "projectPrivate" (args request !! "predefinedAcl") ∈ predefined_acls ->
     GcsObjectVersion.new gcs_url bucket_name name generation request media now
       = Raise (ErrorResponse ("Invalid predefinedAcl value " ++ acl) 400)).
Proof.
  intros Hheader Hmap. split.
  - unfold GcsObjectVersion.new. rewrite init_body_eq, Hheader, Hmap.
    destruct ((_ ;;; _)%method _) as [[[]|e] s]; eauto.
  - intros bucket Hbucket Howner Henc Hknown.
    destruct (init_body_prefix_ok gcs_url bucket_name name generation request media now
                bucket Hbucket Howner Henc Hknown) as (s3 & Hrun & _).
    unfold GcsObjectVersion.new. by rewrite init_body_eq, Hrun, Hheader, Hmap.
Qed.

End PredefinedAcl.

(** ** Encryption keys and ACL patches *)

Section EncryptionAndPatches.
Context `{C : Collaborators}.
Import GcsObjectVersion.

Lemma eq_opt_str_of_opt_str (stored header : option string) :
  eq_opt_str (Some (of_opt_str stored)) header = bool_decide (header = stored).
Proof.
  destruct stored as [s|], header as [h|]; simpl; try done.
  - destruct (String.eqb s h) eqn:Heq.
    + apply String.eqb_eq in Heq as ->. by rewrite bool_decide_eq_true_2.
    + apply String.eqb_neq in Heq. rewrite bool_decide_eq_false_2; congruence.
Qed.

(** X11.  A key captured at construction is required at every read.
    After [_capture_customer_encryption] has stored the key of a request,
    [validate_encryption_for_read] accepts a request exactly when its
    encryption headers (under the given prefix) are valid and its
    key-hash header is the one that was captured; any other hash, or
    none, is the CSEK error.  The revision is not changed by the
    check. *)
Theorem captured_encryption_key_is_required request request' prefix self self' key :
  headers request !! "x-goog-encryption-key" = Some key ->
  _capture_customer_encryption request self = (Ok tt, self') ->
  validate_encryption_for_read request' prefix self' =
    (match validate_customer_encryption_headers
             (headers request' !! (prefix ++ "-key"))
             (headers request' !! (prefix ++ "-key-sha256"))
             (headers request' !! (prefix ++ "-algorithm")) with
     | Raise e => Raise e
     | Ok _ =>
         if bool_decide (headers request' !! (prefix ++ "-key-sha256")
                         = headers request !! "x-goog-encryption-key-sha256")
         then Ok tt else Raise csek_error
     end,
     self').
Proof.
  intros Hkey. unfold _capture_customer_encryption. rewrite Hkey. cbv zeta.
  unfold bind, lift.
  change ("x-goog-encryption" ++ "-key") with "x-goog-encryption-key".
  change ("x-goog-encryption" ++ "-key-sha256") with "x-goog-encryption-key-sha256".
  change ("x-goog-encryption" ++ "-algorithm") with "x-goog-encryption-algorithm".
  destruct (validate_customer_encryption_headers _ _ _) as [[]|e]; [|done].
  unfold setitem, modify_self. intros [= <-].
  match goal with |- validate_encryption_for_read _ _ ?s = _ => set (s' := s) end.
  assert (Henc : metadata s' !! "customerEncryption" =
    Some (VDict (<["encryptionAlgorithm" :=
                     of_opt_str (headers request !! "x-goog-encryption-algorithm")]>
                 (<["keySha256" :=
                     of_opt_str (headers request !! "x-goog-encryption-key-sha256")]> ∅))))
    by apply lookup_insert_eq.
  unfold validate_encryption_for_read, bind, get_self, lift, raise, ret.
  cbv zeta. rewrite Henc. cbv beta iota delta [is_none].
  destruct (validate_customer_encryption_headers _ _ _) as [[]|e]; [|done].
  rewrite lookup_insert_ne by done. rewrite lookup_insert_eq.
  rewrite eq_opt_str_of_opt_str. by case_bool_decide.
Qed.

Lemma preserves_insert_acl_value_acl entity role :
  preserves (same_except ["acl"]) (insert_acl_value entity role).
Proof.
  intros s. unfold insert_acl_value, bind, get_self, lift, setitem, modify_self, ret.
  destruct (index_acl _) as [indexed|]; [|apply same_except_refl].
  destruct (Py.add_str _ _) as [id|]; [|apply same_except_refl].
  destruct (Py.add_str _ _) as [selfLink|]; [|apply same_except_refl].
  simpl. unfold same_except. simpl. repeat split; try done.
  intros k Hk. rewrite lookup_insert_ne; [done|]. intros <-. apply Hk. in_literals.
Qed.

Lemma preserves_update_predefined_acl_acl predefined_acl :
  preserves (same_except ["acl"]) (_update_predefined_acl predefined_acl).
Proof.
  pose proof (fun e r => preserves_insert_acl_value_acl e (VStr r)) as Hins.
  assert (Htrans := same_except_trans ["acl"]).
  assert (Hrefl := same_except_refl ["acl"]).
  unfold _update_predefined_acl.
  repeat first
    [ apply Hins
    | apply preserves_ret; apply same_except_refl
    | apply preserves_raise; apply same_except_refl
    | apply preserves_lift; apply same_except_refl
    | apply preserves_get_self; apply same_except_refl
    | apply preserves_bind; [apply same_except_trans| |intros ?]
    | match goal with
      | |- preserves _ (match ?x with _ => _ end) => destruct x
      | |- preserves _ (if ?x then _ else _) => destruct x
      end ].
Qed.

(** X12.  A revision constructed from a request without an encryption
    key holds no [customerEncryption], and reading it is accepted
    exactly when the reading request sends no key either: a key header
    on an unencrypted revision is the CSEK error. *)
Theorem unencrypted_revision_refuses_key
    gcs_url bucket_name name generation request media now revision request' prefix :
  headers request !! "x-goog-encryption-key" = None ->
  GcsObjectVersion.new gcs_url bucket_name name generation request media now
    = Ok revision ->
  metadata revision !! "customerEncryption" = None /\
  validate_encryption_for_read request' prefix revision =
    (match headers request' !! (prefix ++ "-key") with
     | None => Ok tt
     | Some _ => Raise csek_error
     end,
     revision).
Proof.
  intros Hkey Hnew.
  assert (Hnone : metadata revision !! "customerEncryption" = None).
  { unfold GcsObjectVersion.new in Hnew.
    set (self0 := init_fields gcs_url bucket_name name generation request media now) in *.
    rewrite init_body_eq in Hnew. unfold bind in Hnew.
    rewrite update_from_metadata_eq in Hnew.
    destruct (Py.add1 _) as [mg|]; [|done]. cbv zeta in Hnew.
    destruct (Py.eq_str _ _); [|done].
    unfold _capture_customer_encryption in Hnew. rewrite Hkey in Hnew.
    unfold ret in Hnew.
    set (s1 := set_metadata _ self0) in Hnew.
    assert (H1 : metadata s1 !! "customerEncryption" = None).
    { unfold s1. simpl. rewrite lookup_insert_ne by done.
      rewrite merged_lookup_other by not_in_literals.
      rewrite lookup_union_r by apply lookup_empty.
      unfold self0, init_fields; simpl.
      destruct (headers request !! "content-type"); simpl;
        repeat (rewrite lookup_insert_ne by done); by rewrite ?lookup_empty. }
    pose proof (preserves_update_predefined_acl_acl (args request !! "predefinedAcl") s1)
      as Hp3.
    destruct (_update_predefined_acl _ s1) as [[[]|] s3]; [|done]. simpl in Hp3.
    assert (H3 : metadata s3 !! "customerEncryption" = None).
    { destruct Hp3 as (_&_&_&_&_&_&Hp3). rewrite Hp3 by not_in_literals. done. }
    destruct (headers request !! "x-goog-acl") as [acl|]; [|by injection Hnew as <-].
    destruct (acl2json_mapping !! acl) as [predefined|]; [|done].
    pose proof (preserves_update_predefined_acl_acl (Some predefined) s3) as Hp4.
    destruct (_update_predefined_acl _ s3) as [[[]|] s4]; [|done]. simpl in Hp4.
    injection Hnew as <-.
    destruct Hp4 as (_&_&_&_&_&_&Hp4). rewrite Hp4 by not_in_literals. done. }
  split; [done|].
  unfold validate_encryption_for_read, bind, get_self, lift, raise, ret. cbv zeta.
  rewrite Hnone. simpl is_none. cbv iota.
  by destruct (headers request' !! _).
Qed.

(** X13.  [patch_acl] on an entity that has an entry.  A payload naming
    another entity than the one asked for is refused; then each of the
    headers [if-match] and [if-none-match], when present, must equal the
    etag of the entry, or the call fails with 412; then the payload must
    hold a role.  Every refusal leaves the revision unchanged.  When all
    checks pass the entry is replaced, and a [get_acl] returns the new
    entry with the role of the payload. *)
Theorem patch_acl_checks self entity request (l : list pyval) e payload etag :
  acl_ready self ->
  acl_of self = VList l ->
  e ∈ l ->
  entry_entity e = Some (canonical_entity_name entity) ->
  Py.get e "etag" VNone = Ok etag ->
  json_loads (data request) = Some (VDict payload) ->
  let entity_ok := is_none (payload !! "entity") ||
                   Py.eq_str (default VNone (payload !! "entity")) entity in
  let header_ok h :=
    match headers request !! h with
    | None => true
    | Some m => Py.eq_str etag m
    end in
  (entity_ok = false ->
   patch_acl entity request self =
     (Raise (ErrorResponse
               ("Entity mismatch in ObjectAccessControls: patch, expected=" ++ entity
                ++ ", got=" ++ format_value (default VNone (payload !! "entity")))
               default_status_code),
      self)) /\
  (entity_ok = true -> header_ok "if-match" && header_ok "if-none-match" = false ->
   patch_acl entity request self =
     (Raise (ErrorResponse "Precondition Failed" 412), self)) /\
  (entity_ok = true -> header_ok "if-match" && header_ok "if-none-match" = true ->
   is_none (payload !! "role") = true ->
   patch_acl entity request self =
     (Raise (ErrorResponse "Missing role value" default_status_code), self)) /\
  (forall role,
     entity_ok = true -> header_ok "if-match" && header_ok "if-none-match" = true ->
     payload !! "role" = Some role -> role <> VNone ->
     exists entry self',
       patch_acl entity request self = (Ok entry, self') /\
       get_acl entity self' = (Ok entry, self') /\
       Py.get entry "role" VNone = Ok role).
Proof.
  intros Hready Hacl He Hentity Hetag Hbody entity_ok header_ok.
  assert (Hwf : acl_wf l).
  { destruct Hready as ((l0 & Hacl0 & Hwf0) & _). congruence. }
  assert (Hstart :
    patch_acl entity request self =
    (if entity_ok then
       if header_ok "if-match" then
         if header_ok "if-none-match" then
           if is_none (payload !! "role")
           then (Raise (ErrorResponse "Missing role value" default_status_code), self)
           else insert_acl_value entity (default VNone (payload !! "role")) self
         else (Raise (ErrorResponse "Precondition Failed" 412), self)
       else (Raise (ErrorResponse "Precondition Failed" 412), self)
     else
       (Raise (ErrorResponse
                 ("Entity mismatch in ObjectAccessControls: patch, expected=" ++ entity
                  ++ ", got=" ++ format_value (default VNone (payload !! "entity")))
                 default_status_code),
        self))).
  { unfold patch_acl. unfold bind at 1.
    rewrite (get_acl_found self entity l e Hacl Hwf He Hentity).
    unfold bind at 1. unfold lift at 1, loads. rewrite Hbody.
    unfold bind at 1. unfold lift at 1. simpl Py.get.
    unfold entity_ok, header_ok.
    destruct (payload !! "entity") as [pe|]; simpl default.
    - destruct pe; simpl; unfold bind, raise, ret, lift;
        repeat match goal with
        | |- context [headers request !! ?h] => destruct (headers request !! h)
        | |- context [String.eqb ?a ?b] => destruct (String.eqb a b)
        end; simpl; rewrite ?Hetag; simpl;
        repeat match goal with
        | |- context [Py.eq_str ?a ?b] => destruct (Py.eq_str a b)
        end; simpl;
        try (destruct (payload !! "role") as [[]|]; reflexivity); reflexivity.
    - simpl; unfold bind, raise, ret, lift;
        repeat match goal with
        | |- context [headers request !! ?h] => destruct (headers request !! h)
        end; simpl; rewrite ?Hetag; simpl;
        repeat match goal with
        | |- context [Py.eq_str ?a ?b] => destruct (Py.eq_str a b)
        end; simpl;
        try (destruct (payload !! "role") as [[]|]; reflexivity); reflexivity. }
  split; [|split; [|split]].
  - intros Hno. by rewrite Hstart, Hno.
  - intros Hyes Hno. rewrite Hstart, Hyes.
    destruct (header_ok "if-match"); [|done].
    simpl in Hno. by rewrite Hno.
  - intros Hyes [H1 H2]%andb_true_iff Hrole. by rewrite Hstart, Hyes, H1, H2, Hrole.
  - intros role Hyes [H1 H2]%andb_true_iff Hrole Hne.
    rewrite Hstart, Hyes, H1, H2, Hrole. simpl default.
    assert (is_none (Some role) = false) as -> by (by destruct role).
    destruct (insert_acl_value_ready self entity role Hready)
      as (entry & self' & Hrun & ((l' & Hacl' & Hwf') & _) & _ & Hin & He' & Hrole').
    exists entry, self'. split; [done|]. split; [|done].
    apply (get_acl_found self' entity l' entry Hacl' Hwf'); [|done].
    unfold acl_entries in Hin. rewrite Hacl' in Hin. apply Hin. by left.
Qed.

End EncryptionAndPatches.

(** ** More about uploads *)

Section MoreUploads.
Context `{C : Collaborators}.
Import GcsObject.

Lemma init_fields_media gcs_url bucket_name name generation request media now :
  GcsObjectVersion.media
    (GcsObjectVersion.init_fields gcs_url bucket_name name generation request media now) =
  (if bool_decide (headers request !! "x-goog-testbench-instructions"
                   = Some "inject-upload-data-error")
   then corrupt_media media else media).
Proof.
  unfold GcsObjectVersion.init_fields. simpl.
  destruct (headers request !! "x-goog-testbench-instructions") as [i|]; [|done].
  destruct (String.eqb i "inject-upload-data-error") eqn:Hi.
  - apply String.eqb_eq in Hi as ->. by rewrite bool_decide_eq_true_2.
  - apply String.eqb_neq in Hi. rewrite bool_decide_eq_false_2; [done|congruence].
Qed.

(** [insert], once the generation is known. *)
Lemma insert_eq gcs_url request now self g :
  generation self = Some g ->
  insert gcs_url request now self =
  match GcsObjectVersion.new gcs_url (bucket_name self) (name self) (g + 1) request
          (extract_media request) now with
  | Raise e => (Raise e, set_generation (Some (g + 1)) self)
  | Ok r0 =>
      match set_testbench_meta "x_testbench_upload" (VStr "simple") r0 with
      | Raise e => (Raise e, set_generation (Some (g + 1)) self)
      | Ok r1 =>
          match _insert_revision r1 (set_generation (Some (g + 1)) self) with
          | (Ok _, self') => (Ok r1, self')
          | (Raise e, self') => (Raise e, self')
          end
      end
  end.
Proof.
  intros Hg. unfold insert, bind. rewrite (increment_generation_eq _ _ Hg).
  unfold get_self, lift, ret. simpl.
  destruct (GcsObjectVersion.new _ _ _ _ _ _ _) as [r0|]; [|done].
  destruct (set_testbench_meta _ _ r0) as [r1|]; [|done].
  by destruct (_insert_revision r1 _) as [[[]|] ?].
Qed.

(** X14.  [insert] succeeds for every well-formed request on an object
    whose bucket exists: the revision it returns is the current one, its
    generation is one more than the object's previous generation, it
    holds the media of the request (corrupted when the request says so),
    and it is marked as a simple upload. *)
Theorem insert_succeeds gcs_url request now self g bucket :
  generation self = Some g ->
  lookup_bucket (bucket_name self) = Ok bucket ->
  bucket_owner_ok bucket ->
  encryption_headers_ok request ->
  acl_request_ok request ->
  exists revision self',
    insert gcs_url request now self = (Ok revision, self') /\
    generation self' = Some (g + 1) /\
    get_latest self' = Some revision /\
    GcsObjectVersion.generation revision = g + 1 /\
    GcsObjectVersion.media revision =
      (if bool_decide (headers request !! "x-goog-testbench-instructions"
                       = Some "inject-upload-data-error")
       then corrupt_media (extract_media request) else extract_media request) /\
    GcsObjectVersion.metadata revision !! "metadata" =
      Some (VDict {["x_testbench_upload" := VStr "simple"]}).
Proof.
  intros Hg Hbucket Howner Henc Hacl.
  destruct (new_ok gcs_url (bucket_name self) (name self) (g + 1) request
              (extract_media request) now bucket Hbucket Howner Henc Hacl)
    as (r0 & Hnew & _).
  pose proof (new_revision_fields _ _ _ _ _ _ _ _ Hnew) as (Hgen&_&_&Hmedia&_&Hmeta&_).
  rewrite init_fields_media in Hmedia.
  rewrite (insert_eq _ _ _ _ _ Hg), Hnew.
  unfold set_testbench_meta. rewrite Hmeta.
  rewrite (insert_revision_eq _ (set_generation (Some (g + 1)) self) (g + 1) bucket
             eq_refl Hbucket).
  eexists _, _. split; [reflexivity|]. simpl.
  split; [done|]. split.
  - unfold get_latest, get_revision_by_generation. simpl.
    destruct (versioning_enabled bucket);
      [apply lookup_insert_eq | apply lookup_singleton_eq].
  - split; [done|]. split; [done|]. apply lookup_insert_eq.
Qed.

(** X15.  An upload that the constructor refuses has already consumed a
    generation number: the object is left with its pointer advanced and
    its revisions untouched, so (unless a revision happens to be stored
    under the new number) it has no current revision, and the next
    successful upload gets the number after. *)
Theorem failed_upload_consumes_generation gcs_url request now self g e :
  generation self = Some g ->
  GcsObjectVersion.new gcs_url (bucket_name self) (name self) (g + 1) request
    (extract_media request) now = Raise e ->
  let self' := set_generation (Some (g + 1)) self in
  insert gcs_url request now self = (Raise e, self') /\
  insert_xml gcs_url request now self = (Raise e, self') /\
  revisions self' = revisions self /\
  (revisions self !! (g + 1) = None -> get_latest self' = None) /\
  (forall gcs_url2 request2 now2 revision self2,
     insert gcs_url2 request2 now2 self' = (Ok revision, self2) ->
     GcsObjectVersion.generation revision = g + 2 /\
     generation self2 = Some (g + 2)).
Proof.
  intros Hg Hnew self'. split; [|split; [|split; [|split]]].
  - by rewrite (insert_eq _ _ _ _ _ Hg), Hnew.
  - unfold insert_xml, bind. rewrite (increment_generation_eq _ _ Hg).
    unfold get_self, lift. simpl. by rewrite Hnew.
  - done.
  - intros Hnone. unfold get_latest, get_revision_by_generation. simpl. done.
  - intros gcs_url2 request2 now2 revision self2 Hrun.
    assert (Hg' : generation self' = Some (g + 1)) by done.
    rewrite (insert_eq _ _ _ _ _ Hg') in Hrun.
    destruct (GcsObjectVersion.new gcs_url2 _ _ _ _ _ _) as [r0|] eqn:Hnew2; [|done].
    destruct (set_testbench_meta _ _ r0) as [r1|] eqn:Hmeta; [|done].
    destruct (lookup_bucket (bucket_name self')) as [bucket|] eqn:Hb.
    2:{ unfold _insert_revision, bind, get_self, lift in Hrun. simpl in Hrun.
        unfold self' in Hb. simpl in Hb. by rewrite Hb in Hrun. }
    rewrite (insert_revision_eq _ (set_generation (Some (g + 1 + 1)) self') (g + 1 + 1)
               bucket eq_refl Hb) in Hrun.
    injection Hrun as <- <-. simpl.
    apply set_testbench_meta_fields in Hmeta as (-> & _).
    apply new_revision_fields in Hnew2 as (-> & _).
    split; [lia|f_equal; lia].
Qed.

(** X16.  With versioning enabled the history is kept: along any
    sequence of successful uploads, after the call number [i] every
    revision an earlier call of the sequence returned is still stored
    under its generation, the new one is the current one, and the
    revisions stored at or below the starting generation are the ones
    the object had. *)
Theorem uploads_with_versioning calls : forall self g bucket trace,
  generation self = Some g ->
  lookup_bucket (bucket_name self) = Ok bucket ->
  versioning_enabled bucket = true ->
  run_uploads calls self = Some trace ->
  forall (i : nat) revision self_i,
    trace !! i = Some (revision, self_i) ->
    generation self_i = Some (g + Z.of_nat i + 1) /\
    get_latest self_i = Some revision /\
    (forall (j : nat) r s, (j < i)%nat -> trace !! j = Some (r, s) ->
       revisions self_i !! (g + Z.of_nat j + 1) = Some r) /\
    (forall k, k <= g -> revisions self_i !! k = revisions self !! k).
Proof.
  induction calls as [|[[[u gcs_url] request] now] rest IH];
    intros self g bucket trace Hg Hb Hv Hrun i revision self_i Hi.
  - simpl in Hrun. injection Hrun as <-. done.
  - simpl in Hrun.
    destruct (run_upload u gcs_url request now self) as [[[r|] self1]|] eqn:Hup;
      [|done..].
    destruct (run_uploads rest self1) as [trace'|] eqn:Hrest; [|done].
    simpl in Hrun. injection Hrun as <-.
    destruct (upload_installs _ _ _ _ _ _ _ _ _ Hg Hb Hup) as [-> Hr].
    rewrite Hv in *.
    destruct i as [|i]; simpl in Hi.
    + injection Hi as <- <-. simpl. rewrite Z.add_0_r.
      split; [done|]. split.
      * unfold get_latest, get_revision_by_generation. simpl. apply lookup_insert_eq.
      * split; [intros; lia|]. intros k Hk. apply lookup_insert_ne. lia.
    + eapply (IH _ (g + 1) bucket) in Hrest; [| done | done | done | exact Hi].
      destruct Hrest as (Hgen & Hlatest & Hearlier & Hold).
      replace (g + Z.of_nat (S i) + 1) with (g + 1 + Z.of_nat i + 1) by lia.
      split; [done|]. split; [done|]. split.
      * intros [|j] r' s' Hj Hlook; simpl in Hlook.
        -- injection Hlook as <- <-. simpl. rewrite Z.add_0_r.
           rewrite Hold by lia. simpl. apply lookup_insert_eq.
        -- replace (g + Z.of_nat (S j) + 1) with (g + 1 + Z.of_nat j + 1) by lia.
           apply (Hearlier j r' s'); [lia|done].
      * intros k Hk. rewrite Hold by lia. simpl. apply lookup_insert_ne. lia.
Qed.

End MoreUploads.

(** ** Deleting, reading and updating revisions *)

Section Revisions.
Context `{C : Collaborators}.
Import GcsObject.

Lemma last_sorted_max (l : list Z) x :
  last (merge_sort Z.le l) = Some x -> forall y, y ∈ l -> y <= x.
Proof.
  intros Hlast y Hy.
  pose proof (StronglySorted_merge_sort Z.le l) as Hsorted.
  rewrite <- (merge_sort_Permutation Z.le l) in Hy.
  apply last_Some in Hlast as [l' Hl']. rewrite Hl' in Hsorted, Hy.
  apply StronglySorted_app in Hsorted as (Hle & _ & _).
  apply elem_of_app in Hy as [Hy|Hy%list_elem_of_singleton]; [|lia].
  apply Hle; [done|]. by apply list_elem_of_singleton.
Qed.

(** X17.  [del_revision] without a generation argument deletes the
    current revision; when other revisions remain it returns [False] and
    moves the pointer to the largest generation that is left. *)
Theorem del_revision_default_moves_to_latest request self g :
  args request !! "generation" = None ->
  generation self = Some g ->
  is_Some (revisions self !! g) ->
  (exists k, k <> g /\ is_Some (revisions self !! k)) ->
  exists g',
    del_revision request self =
      (Ok false, set_generation (Some g')
                   (set_revisions (delete g (revisions self)) self)) /\
    g' <> g /\
    is_Some (revisions self !! g') /\
    forall k, k <> g -> is_Some (revisions self !! k) -> k <= g'.
Proof.
  intros Hreq Hgen [v Hv] (k0 & Hk0 & [v0 Hv0]).
  assert (Hsize : size (delete g (revisions self)) <> 0%nat).
  { intros H0. apply map_size_empty_inv in H0.
    assert (delete g (revisions self) !! k0 = Some v0) as Hl
      by (rewrite lookup_delete_ne; done).
    rewrite H0, lookup_empty in Hl. done. }
  unfold del_revision, bind, get_self, lift, put_self, ret.
  rewrite Hreq, Hgen. simpl. rewrite Hv. simpl.
  rewrite bool_decide_eq_false_2 by done.
  rewrite bool_decide_eq_true_2 by done.
  assert (Hkeys : forall k,
    k ∈ (map_to_list (delete g (revisions self))).*1 <->
    k <> g /\ is_Some (revisions self !! k)).
  { intros k. rewrite list_elem_of_fmap. split.
    - intros ([k' x] & -> & Hin). apply elem_of_map_to_list in Hin.
      apply lookup_delete_Some in Hin as [? ?]. simpl. eauto.
    - intros [Hne [x Hx]]. exists (k, x). split; [done|].
      apply elem_of_map_to_list. by rewrite lookup_delete_ne. }
  destruct (last (sorted_keys (delete g (revisions self)))) as [g'|] eqn:Hlast.
  - exists g'. split; [reflexivity|].
    assert (Hin : g' ∈ (map_to_list (delete g (revisions self))).*1).
    { apply last_elem_of in Hlast. unfold sorted_keys in Hlast.
      by rewrite merge_sort_Permutation in Hlast. }
    apply Hkeys in Hin as [? ?]. split; [done|]. split; [done|].
    intros k Hk Hstored. apply (last_sorted_max _ _ Hlast). by apply Hkeys.
  - exfalso. apply last_None in Hlast.
    assert (Hin : k0 ∈ (map_to_list (delete g (revisions self))).*1)
      by (apply Hkeys; eauto).
    unfold sorted_keys in Hlast.
    rewrite <- (merge_sort_Permutation Z.le) in Hin. rewrite Hlast in Hin.
    by apply elem_of_nil in Hin.
Qed.

(** X18.  Deleting the only revision returns [True] and leaves the
    object without revisions and with the pointer [None]; such an object
    cannot be uploaded to any more: [insert] and [insert_xml] raise the
    [TypeError] of [None += 1] and change nothing. *)
Theorem del_revision_last_then_upload request self g v :
  revisions self = {[g := v]} ->
  (args request !! "generation" = None /\ generation self = Some g) \/
  (exists s, args request !! "generation" = Some s /\ Py.int_of_str s = Some g) ->
  exists self',
    del_revision request self = (Ok true, self') /\
    generation self' = None /\
    revisions self' = ∅ /\
    forall gcs_url request' now,
      insert gcs_url request' now self' = (Raise TypeError, self') /\
      insert_xml gcs_url request' now self' = (Raise TypeError, self').
Proof.
  intros Hrev Hwhich.
  assert (Hdel : del_revision request self =
    (Ok true, set_generation None (set_revisions ∅ self))).
  { unfold del_revision, bind, get_self, lift, put_self, ret.
    destruct Hwhich as [[Hreq Hgen]|(s & Hreq & Hint)]; rewrite Hreq.
    - rewrite Hgen. simpl. rewrite Hrev, lookup_singleton_eq. simpl.
      rewrite delete_singleton_eq. by rewrite bool_decide_eq_true_2.
    - unfold int_generation, Py.int. rewrite Hint. simpl.
      rewrite Hrev, lookup_singleton_eq. simpl.
      rewrite delete_singleton_eq. by rewrite bool_decide_eq_true_2. }
  eexists. split; [exact Hdel|]. split; [done|]. split; [done|].
  intros gcs_url request' now. split.
  - unfold insert, bind, increment_generation, bind, get_self. simpl. done.
  - unfold insert_xml, bind, increment_generation, bind, get_self. simpl. done.
Qed.

(** X19.  [del_revision] with an explicit generation: a stored
    generation other than the current one is removed and nothing else
    changes, the pointer included; a generation that is not stored is a
    [KeyError], a generation that is no integer a [ValueError], and
    neither changes the object. *)
Theorem del_revision_named_generation request self s :
  args request !! "generation" = Some s ->
  (Py.int_of_str s = None -> del_revision request self = (Raise ValueError, self)) /\
  (forall k, Py.int_of_str s = Some k -> revisions self !! k = None ->
     del_revision request self = (Raise (KeyError (Py.str k)), self)) /\
  (forall k g, Py.int_of_str s = Some k -> is_Some (revisions self !! k) ->
     generation self = Some g -> k <> g -> is_Some (revisions self !! g) ->
     exists self',
       del_revision request self = (Ok false, self') /\
       generation self' = Some g /\
       revisions self' = delete k (revisions self) /\
       is_Some (revisions self' !! g)).
Proof.
  intros Hreq. unfold del_revision, bind, get_self, lift, put_self, ret, raise.
  rewrite Hreq. unfold int_generation, Py.int.
  split; [|split].
  - by intros ->.
  - intros k -> Hnone. by rewrite Hnone.
  - intros k g -> [v Hv] Hgen Hne [vg Hvg]. rewrite Hv. simpl.
    assert (Hsize : size (delete k (revisions self)) <> 0%nat).
    { intros H0. apply map_size_empty_inv in H0.
      assert (delete k (revisions self) !! g = Some vg) as Hl
        by (rewrite lookup_delete_ne; done).
      rewrite H0, lookup_empty in Hl. done. }
    rewrite bool_decide_eq_false_2 by done.
    eexists. split; [reflexivity|]. simpl. split; [done|]. split; [done|].
    exists vg. by rewrite lookup_delete_ne.
Qed.

(** X20.  A revision that an upload has just installed can be read back
    through [get_revision], by default and by its generation number, and
    reading changes nothing.  Without versioning, every other generation
    is then reported as not found. *)
Theorem get_revision_after_upload
    u gcs_url request now self g bucket revision self' request' field :
  generation self = Some g ->
  lookup_bucket (bucket_name self) = Ok bucket ->
  run_upload u gcs_url request now self = Some (Ok revision, self') ->
  (args request' !! field = None ->
   get_revision request' field self' = (Ok (Some revision), self')) /\
  (forall s, args request' !! field = Some s -> Py.int_of_str s = Some (g + 1) ->
   get_revision request' field self' = (Ok (Some revision), self')) /\
  (forall s k, args request' !! field = Some s -> Py.int_of_str s = Some k ->
   k <> g + 1 -> versioning_enabled bucket = false ->
   get_revision request' field self' =
     (Raise (ErrorResponse ("Precondition Failed: generation " ++ s ++ " not found")
               default_status_code),
      self')).
Proof.
  intros Hg Hb Hup.
  destruct (upload_installs _ _ _ _ _ _ _ _ _ Hg Hb Hup) as [-> Hr].
  unfold get_revision, bind, get_self, lift, ret, raise.
  split; [|split].
  - intros ->. unfold get_latest, get_revision_by_generation. simpl.
    destruct (versioning_enabled bucket);
      by rewrite ?lookup_insert_eq, ?lookup_singleton_eq.
  - intros s -> Hint. unfold Py.int. rewrite Hint. simpl.
    destruct (versioning_enabled bucket);
      by rewrite ?lookup_insert_eq, ?lookup_singleton_eq.
  - intros s k -> Hint Hne ->. unfold Py.int. rewrite Hint. simpl.
    by rewrite lookup_singleton_ne.
Qed.

(** [update_revision] once the revision is found and the body read. *)
Lemma update_revision_eq request now self g version patch :
  (args request !! "generation" = None /\ generation self = Some g) \/
  (exists s, args request !! "generation" = Some s /\ Py.int_of_str s = Some g) ->
  revisions self !! g = Some version ->
  json_loads (data request) = Some (VDict patch) ->
  update_revision request now self =
    let '(r, version') := GcsObjectVersion.update_from_metadata now patch version in
    let self' := set_revisions (<[g := version']> (revisions self)) self in
    match r with
    | Ok _ => (Ok version', self')
    | Raise e => (Raise e, self')
    end.
Proof.
  intros Hwhich Hv Hbody.
  unfold update_revision. unfold bind at 1. unfold get_self at 1. unfold bind at 1.
  assert (Hfound :
    match args request !! "generation" with
    | Some generation0 =>
        (g0 <- lift (Py.int generation0);;
         match revisions self !! g0 with
         | Some version0 => ret (Some g0, Some version0)
         | None =>
             raise (ErrorResponse
                      ("Precondition Failed: generation " ++ generation0 ++ " not found")
                      default_status_code)
         end)%method
    | None => ret (generation self, get_latest self)
    end self = (Ok (Some g, Some version), self)).
  { destruct Hwhich as [[Hreq Hgen]|(s & Hreq & Hint)]; rewrite Hreq.
    - unfold ret, get_latest, get_revision_by_generation. rewrite Hgen. simpl.
      by rewrite Hv.
    - unfold bind, lift, ret, Py.int. rewrite Hint. by rewrite Hv. }
  rewrite Hfound.
  unfold bind at 1. unfold lift at 1, loads. rewrite Hbody.
  simpl as_update. unfold bind at 1. unfold lift at 1.
  unfold bind at 1. unfold on_revision.
  destruct (GcsObjectVersion.update_from_metadata now patch version) as [[[]|e] version'];
    [|done].
  unfold bind, get_self. simpl. by rewrite lookup_insert_eq.
Qed.

(** X21.  [update_revision] works on the stored revision itself.  A
    patch that keeps the checksum is merged into the revision stored
    under the generation, whose metageneration goes up by one, and the
    pointer and the other revisions are untouched.  A patch naming
    another md5Hash is refused with the checksum-mismatch error, and yet
    the revision stored in the object is the patched one. *)
Theorem update_revision_in_place request now self g version patch n :
  (args request !! "generation" = None /\ generation self = Some g) \/
  (exists s, args request !! "generation" = Some s /\ Py.int_of_str s = Some g) ->
  revisions self !! g = Some version ->
  json_loads (data request) = Some (VDict patch) ->
  GcsObjectVersion.metadata version !! "md5Hash" =
    Some (VStr (GcsObjectVersion.md5_b64 (GcsObjectVersion.media version))) ->
  (patch ∪ GcsObjectVersion.metadata version) !! "metageneration" = Some (VInt n) ->
  let version' :=
    GcsObjectVersion.set_metadata
      (<["metageneration" := VInt (n + 1)]> (GcsObjectVersion.merged now patch version))
      version in
  let self' := set_revisions (<[g := version']> (revisions self)) self in
  (patch !! "md5Hash" = None ->
   update_revision request now self = (Ok version', self')) /\
  (forall md5, patch !! "md5Hash" = Some md5 ->
   Py.eq_str md5 (GcsObjectVersion.md5_b64 (GcsObjectVersion.media version)) = false ->
   update_revision request now self =
     (Raise (GcsObjectVersion.mismatched_md5
               (GcsObjectVersion.md5_b64 (GcsObjectVersion.media version)) md5),
      self') /\
   GcsObjectVersion.metadata version' !! "md5Hash" = Some md5) /\
  generation self' = generation self /\
  get_revision_by_generation self' (Some g) = Some version' /\
  (forall k, k <> g -> revisions self' !! k = revisions self !! k).
Proof.
  intros Hwhich Hv Hbody Hmd5 Hmg version' self'.
  rewrite (update_revision_eq request now self g version patch Hwhich Hv Hbody).
  split; [|split; [|split; [|split]]].
  - intros Hpatch.
    by rewrite (update_from_metadata_ok now patch version n Hmd5 Hpatch Hmg).
  - intros md5 Hpatch Hne.
    rewrite (update_from_metadata_mismatch now patch version n md5 Hpatch Hne Hmg).
    split; [done|]. unfold version'. simpl.
    rewrite lookup_insert_ne by done.
    rewrite merged_lookup_other by not_in_literals.
    by rewrite (lookup_union_Some_l _ _ _ _ Hpatch).
  - done.
  - unfold get_revision_by_generation. simpl. apply lookup_insert_eq.
  - intros k Hk. simpl. by rewrite lookup_insert_ne.
Qed.

(** X22.  [patch_revision] refuses a patch that names a key outside the
    writeable ones with "Invalid metadata change" (503), naming such a
    key, before the patch is applied and without touching the object,
    whatever [json_api_patch] would do with it.  A patch within the
    writeable keys is applied to the stored revision without any
    checksum validation, and the metageneration it yields is
    incremented. *)
Theorem patch_revision_writeable_keys json_api_patch request self patch :
  json_loads (data request) = Some (VDict patch) ->
  (args request !! "generation" = None \/
   exists s k, args request !! "generation" = Some s /\ Py.int_of_str s = Some k /\
               is_Some (revisions self !! k)) ->
  ((exists key, is_Some (patch !! key) /\ key ∉ writeable_keys) ->
   exists key,
     is_Some (patch !! key) /\ (key ∉ writeable_keys) /\
     patch_revision json_api_patch request self =
       (Raise (ErrorResponse ("Invalid metadata change. " ++ key ++ " is not writeable")
                 503),
        self)) /\
  (forall g version patched n,
     (forall key, is_Some (patch !! key) -> key ∈ writeable_keys) ->
     (args request !! "generation" = None /\ generation self = Some g) \/
     (exists s, args request !! "generation" = Some s /\ Py.int_of_str s = Some g) ->
     revisions self !! g = Some version ->
     json_api_patch (GcsObjectVersion.metadata version) patch ["metadata"] = Ok patched ->
     patched !! "metageneration" = Some (VInt n) ->
     let version' :=
       GcsObjectVersion.set_metadata (<["metageneration" := VInt (n + 1)]> patched)
         version in
     patch_revision json_api_patch request self =
       (Ok version', set_revisions (<[g := version']> (revisions self)) self)).
Proof.
  intros Hbody Hwhich.
  assert (Hfound : exists found,
    match args request !! "generation" with
    | Some generation0 =>
        (g0 <- lift (Py.int generation0);;
         match revisions self !! g0 with
         | Some version0 => ret (Some g0, Some version0)
         | None =>
             raise (ErrorResponse
                      ("Precondition Failed: generation " ++ generation0 ++ " not found")
                      default_status_code)
         end)%method
    | None => ret (generation self, get_latest self)
    end self = (Ok found, self) /\
    forall g version,
      (args request !! "generation" = None /\ generation self = Some g) \/
      (exists s, args request !! "generation" = Some s /\ Py.int_of_str s = Some g) ->
      revisions self !! g = Some version ->
      found = (Some g, Some version)).
  { destruct Hwhich as [Hreq|(s & k & Hreq & Hint & [v Hv])]; rewrite Hreq.
    - eexists. split; [reflexivity|].
      intros g version [[_ Hgen]|(s & ? & _)] Hv; [|done].
      unfold get_latest, get_revision_by_generation. rewrite Hgen. simpl. by rewrite Hv.
    - unfold bind, lift, ret, Py.int. rewrite Hint, Hv.
      eexists. split; [reflexivity|].
      intros g version [[? _]|(s' & Hs' & Hint')] Hv'; [done|].
      congruence. }
  destruct Hfound as (found & Hfound & Hfound_eq).
  assert (Hstart : patch_revision json_api_patch request self =
    match List.find (fun kv => negb (bool_decide (kv.1 ∈ writeable_keys)))
            (map_to_list patch) with
    | Some (key, _) =>
        (Raise (ErrorResponse ("Invalid metadata change. " ++ key ++ " is not writeable")
                  503), self)
    | None =>
        match found with
        | (Some g, Some version) =>
            (patched <- lift (json_api_patch (GcsObjectVersion.metadata version) patch
                                ["metadata"]) ;;
             metageneration <-
               lift (Py.add1 (default (VInt 0) (patched !! "metageneration"))) ;;
             let version :=
               GcsObjectVersion.set_metadata
                 (<["metageneration" := metageneration]> patched) version in
             modify_self (fun self =>
               set_revisions (<[g := version]> (revisions self)) self) ;;;
             ret version)%method self
        | _ => (Raise AttributeError, self)
        end
    end).
  { unfold patch_revision. unfold bind at 1. unfold get_self at 1. unfold bind at 1.
    rewrite Hfound.
    unfold bind at 1. unfold lift at 1, loads. rewrite Hbody.
    unfold bind at 1. unfold lift at 1.
    destruct (List.find _ _) as [[key v]|]; [done|].
    by destruct found as [[g|] [version|]]. }
  split.
  - intros (key & Hkey & Hnot).
    destruct (List.find (fun kv => negb (bool_decide (kv.1 ∈ writeable_keys)))
                (map_to_list patch)) as [[key' v']|] eqn:Hfind.
    + pose proof (find_some _ _ Hfind) as [Hin Hneg].
      apply list_elem_of_In, elem_of_map_to_list in Hin.
      apply negb_true_iff, bool_decide_eq_false in Hneg. simpl in Hneg.
      exists key'. split; [eauto|]. split; [done|]. by rewrite Hstart.
    + exfalso. destruct Hkey as [v Hv].
      apply elem_of_map_to_list, list_elem_of_In in Hv.
      apply (find_none _ _ Hfind) in Hv. simpl in Hv.
      apply negb_false_iff, bool_decide_eq_true in Hv. done.
  - intros g version patched n Hall Hg Hv Hpatched Hmg version'.
    rewrite Hstart, (Hfound_eq g version Hg Hv).
    destruct (List.find _ _) as [[key v]|] eqn:Hfind.
    + exfalso. pose proof (find_some _ _ Hfind) as [Hin Hneg].
      apply list_elem_of_In, elem_of_map_to_list in Hin.
      apply negb_true_iff, bool_decide_eq_false in Hneg. simpl in Hneg.
      apply Hneg, Hall. eauto.
    + unfold bind, lift, modify_self, ret. rewrite Hpatched, Hmg. reflexivity.
Qed.

End Revisions.

(** ** Copies and compositions *)

Section Copies.
Context `{C : Collaborators}.
Import GcsObject.

(** The constructor followed by [reset_predefined_acl], as [copy_from]
    and [compose_from] run them. *)
Lemma new_then_reset_ok
    gcs_url bucket_name name generation request media now bucket predefined_acl :
  lookup_bucket bucket_name = Ok bucket ->
  bucket_owner_ok bucket ->
  encryption_headers_ok request ->
  acl_request_ok request ->
  default "projectPrivate" predefined_acl ∈ predefined_acls ->
  exists r0 r1,
    GcsObjectVersion.new gcs_url bucket_name name generation request media now = Ok r0 /\
    call (GcsObjectVersion.reset_predefined_acl predefined_acl) r0 = Ok r1 /\
    GcsObjectVersion.generation r1 = generation /\
    GcsObjectVersion.media r1 =
      (if bool_decide (headers request !! "x-goog-testbench-instructions"
                       = Some "inject-upload-data-error")
       then corrupt_media media else media) /\
    GcsObjectVersion.metadata r1 !! "md5Hash" =
      Some (VStr (GcsObjectVersion.md5_b64 (GcsObjectVersion.media r1))) /\
    GcsObjectVersion.metadata r1 !! "metageneration" = Some (VInt 1) /\
    (forall x,
       (exists e, e ∈ acl_entries r1 /\ entry_entity e = Some x) <->
       x ∈ canonical_entity_name <$>
             predefined_entities bucket (default "projectPrivate" predefined_acl)).
Proof.
  intros Hbucket Howner Henc Hacl Hknown.
  destruct (new_ok gcs_url bucket_name name generation request media now bucket
              Hbucket Howner Henc Hacl) as (r0 & Hnew & (_ & Hid & Hlink)).
  pose proof (new_revision_fields _ _ _ _ _ _ _ _ Hnew) as (Hgen&Hb&_&Hmedia&Hmd5&_&Hmg).
  rewrite init_fields_media in Hmedia.
  rewrite <- Hb in Hbucket.
  destruct (reset_predefined_acl_ok r0 bucket predefined_acl Hid Hlink Hbucket Howner Hknown)
    as (r1 & Hreset & _ & (_&_&_&Hgen1&_&Hmedia1&Hkeep) & Hentities).
  exists r0, r1. split; [done|]. split; [unfold call; by rewrite Hreset|].
  split; [congruence|]. split; [congruence|].
  split; [|split; [|done]].
  - rewrite Hkeep by (unfold acl_keys; not_in_literals). by rewrite <- Hmedia1.
  - by rewrite Hkeep by (unfold acl_keys; not_in_literals).
Qed.

Lemma entries_after_update now patch r1 :
  patch !! "acl" = None ->
  acl_entries
    (GcsObjectVersion.set_metadata
       (<["metageneration" := VInt 2]> (GcsObjectVersion.merged now patch r1)) r1)
  = acl_entries r1.
Proof.
  intros Hacl. unfold acl_entries, acl_of. simpl.
  rewrite lookup_insert_ne by done.
  rewrite merged_lookup_other by not_in_literals.
  by rewrite lookup_union_r.
Qed.

(** X23.  [copy_from] advances the generation before anything else.  A
    source that the request may not read makes it fail there, with the
    number consumed and nothing stored.  Otherwise, for a well-formed
    request whose body is a JSON object that sets neither md5Hash nor
    metageneration, the copy is installed as the current revision with
    the media of the source, metageneration 2, and exactly the ACL
    entries of [destinationPredefinedAcl] (unless the body carries an
    ACL of its own). *)
Theorem copy_from_installs_source_media gcs_url request now source self g :
  generation self = Some g ->
  (forall e,
     (GcsObjectVersion.validate_encryption_for_read request "x-goog-encryption" source).1
       = Raise e ->
     copy_from gcs_url request now source self =
       (Raise e, set_generation (Some (g + 1)) self)) /\
  (forall bucket patch,
     (GcsObjectVersion.validate_encryption_for_read request "x-goog-encryption" source).1
       = Ok tt ->
     lookup_bucket (bucket_name self) = Ok bucket ->
     bucket_owner_ok bucket ->
     encryption_headers_ok request ->
     acl_request_ok request ->
     default "projectPrivate" (args request !! "destinationPredefinedAcl")
       ∈ predefined_acls ->
     json_loads (data request) = Some (VDict patch) ->
     patch !! "md5Hash" = None ->
     patch !! "metageneration" = None ->
     exists revision self',
       copy_from gcs_url request now source self = (Ok revision, self') /\
       generation self' = Some (g + 1) /\
       get_latest self' = Some revision /\
       GcsObjectVersion.generation revision = g + 1 /\
       GcsObjectVersion.media revision =
         (if bool_decide (headers request !! "x-goog-testbench-instructions"
                          = Some "inject-upload-data-error")
          then corrupt_media (GcsObjectVersion.media source)
          else GcsObjectVersion.media source) /\
       GcsObjectVersion.metadata revision !! "metageneration" = Some (VInt 2) /\
       (patch !! "acl" = None ->
        forall x,
          (exists e, e ∈ acl_entries revision /\ entry_entity e = Some x) <->
          x ∈ canonical_entity_name <$>
                predefined_entities bucket
                  (default "projectPrivate" (args request !! "destinationPredefinedAcl")))).
Proof.
  intros Hg. split.
  - intros e Hread. unfold copy_from, bind.
    rewrite (increment_generation_eq _ _ Hg). unfold lift. by rewrite Hread.
  - intros bucket patch Hread Hbucket Howner Henc Hacl Hknown Hbody Hmd5 Hmg.
    destruct (new_then_reset_ok gcs_url (bucket_name self) (name self) (g + 1) request
                (GcsObjectVersion.media source) now bucket
                (args request !! "destinationPredefinedAcl")
                Hbucket Howner Henc Hacl Hknown)
      as (r0 & r1 & Hnew & Hreset & Hgen1 & Hmedia1 & Hmd51 & Hmg1 & Hentities).
    assert (Hupd := update_from_metadata_ok now patch r1 1 Hmd51 Hmd5).
    rewrite lookup_union_r in Hupd by done. specialize (Hupd Hmg1).
    unfold copy_from, bind.
    rewrite (increment_generation_eq _ _ Hg). unfold lift at 1. rewrite Hread.
    unfold get_self, lift, ret. simpl bucket_name. simpl name.
    rewrite Hnew, Hreset. unfold loads. rewrite Hbody. simpl as_update. cbv iota.
    unfold call. rewrite Hupd.
    rewrite (insert_revision_eq _ (set_generation (Some (g + 1)) self) (g + 1) bucket
               eq_refl Hbucket).
    eexists _, _. split; [reflexivity|]. simpl.
    split; [done|]. split.
    { unfold get_latest, get_revision_by_generation. simpl.
      destruct (versioning_enabled bucket);
        [apply lookup_insert_eq | apply lookup_singleton_eq]. }
    split; [done|]. split; [done|]. split; [apply lookup_insert_eq|].
    intros Hnoacl x. change (1 + 1) with 2.
    rewrite (entries_after_update now patch r1 Hnoacl). apply Hentities.
Qed.

(** X24.  [compose_from] for a well-formed request whose body is a JSON
    object: the composed media is installed as the current revision of
    the next generation.  Without a [destination] in the body the
    revision is the constructed one, metageneration 1; with a
    [destination] object that sets neither md5Hash nor metageneration it
    is updated once more, metageneration 2, and holds the values of the
    destination. *)
Theorem compose_from_installs_composed_media
    gcs_url request now composed_media self g bucket payload :
  generation self = Some g ->
  lookup_bucket (bucket_name self) = Ok bucket ->
  bucket_owner_ok bucket ->
  encryption_headers_ok request ->
  acl_request_ok request ->
  default "projectPrivate" (args request !! "destinationPredefinedAcl")
    ∈ predefined_acls ->
  json_loads (data request) = Some (VDict payload) ->
  match payload !! "destination" with
  | None | Some VNone => True
  | Some (VDict d) => d !! "md5Hash" = None /\ d !! "metageneration" = None
  | Some _ => False
  end ->
  exists revision self',
    compose_from gcs_url request now composed_media self = (Ok revision, self') /\
    generation self' = Some (g + 1) /\
    get_latest self' = Some revision /\
    GcsObjectVersion.generation revision = g + 1 /\
    GcsObjectVersion.media revision =
      (if bool_decide (headers request !! "x-goog-testbench-instructions"
                       = Some "inject-upload-data-error")
       then corrupt_media composed_media else composed_media) /\
    GcsObjectVersion.metadata revision !! "metageneration" =
      Some (VInt (if is_none (payload !! "destination") then 1 else 2)) /\
    (forall d k v,
       payload !! "destination" = Some (VDict d) -> d !! k = Some v ->
       k ∉ ["kind"; "bucket"; "name"; "id"; "selfLink"; "projectNumber"; "updated"] ->
       GcsObjectVersion.metadata revision !! k = Some v).
Proof.
  intros Hg Hbucket Howner Henc Hacl Hknown Hbody Hdest.
  destruct (new_then_reset_ok gcs_url (bucket_name self) (name self) (g + 1) request
              composed_media now bucket
              (args request !! "destinationPredefinedAcl")
              Hbucket Howner Henc Hacl Hknown)
    as (r0 & r1 & Hnew & Hreset & Hgen1 & Hmedia1 & Hmd51 & Hmg1 & Hentities).
  assert (Hlatest : forall r,
    get_latest
      (set_revisions
         (if versioning_enabled bucket then <[g + 1 := r]> (revisions self)
          else {[g + 1 := r]}) (set_generation (Some (g + 1)) self)) = Some r).
  { intros r. unfold get_latest, get_revision_by_generation. simpl.
    destruct (versioning_enabled bucket);
      [apply lookup_insert_eq | apply lookup_singleton_eq]. }
  unfold compose_from, bind.
  rewrite (increment_generation_eq _ _ Hg).
  unfold get_self, lift, ret. simpl bucket_name. simpl name.
  rewrite Hnew, Hreset. unfold loads. rewrite Hbody. simpl Py.get. cbv iota.
  destruct (payload !! "destination") as [[| | | | |d]|] eqn:Hd; try done; simpl.
  - rewrite (insert_revision_eq _ (set_generation (Some (g + 1)) self) (g + 1) bucket
               eq_refl Hbucket).
    eexists _, _. split; [reflexivity|]. simpl. rewrite Hlatest. by repeat split.
  - destruct Hdest as [Hmd5 Hmg].
    assert (Hupd := update_from_metadata_ok now d r1 1 Hmd51 Hmd5).
    rewrite lookup_union_r in Hupd by done. specialize (Hupd Hmg1).
    unfold call. rewrite Hupd.
    rewrite (insert_revision_eq _ (set_generation (Some (g + 1)) self) (g + 1) bucket
               eq_refl Hbucket).
    eexists _, _. split; [reflexivity|]. simpl. rewrite Hlatest.
    split; [done|]. split; [done|]. split; [done|]. split; [done|].
    split; [apply lookup_insert_eq|].
    intros d' k v [= <-] Hk Hnot.
    assert (k <> "metageneration") by (intros ->; congruence).
    rewrite lookup_insert_ne by done.
    rewrite merged_lookup_other by done.
    by rewrite (lookup_union_Some_l _ _ _ _ Hk).
  - rewrite (insert_revision_eq _ (set_generation (Some (g + 1)) self) (g + 1) bucket
               eq_refl Hbucket).
    eexists _, _. split; [reflexivity|]. simpl. rewrite Hlatest. by repeat split.
Qed.

End Copies.

(** ** More about rewrites *)

Section MoreRewrites.
Context `{C : Collaborators}.
Import GcsObject.

(** The text before the first separator is determined by the whole. *)
Lemma first_field_inj x y a a' :
  has_slash x = false -> has_slash y = false ->
  (x ++ String "/" a)%string = (y ++ String "/" a')%string -> x = y.
Proof.
  revert y. induction x as [|c x IH]; intros [|c' y] Hx Hy H;
    rewrite ?append_nil, ?append_cons in H.
  - done.
  - injection H as <- _. simpl in Hy. done.
  - injection H as -> _. simpl in Hx. done.
  - injection H as -> H. simpl in Hx, Hy.
    apply orb_false_iff in Hx as [_ Hx]. apply orb_false_iff in Hy as [_ Hy].
    f_equal. by apply IH.
Qed.

(** X25.  A rewrite token tells the operation and its progress: when the
    encoding is injective, two tokens are equal only if they were made
    for the same operation id and the same number of bytes rewritten,
    whatever the destinations and generations.  The token of each step of
    an operation therefore differs from the tokens of all its other
    steps and of all other operations of the object. *)
Theorem make_rewrite_token_injective op db do generation op' db' do' generation' :
  Inj (=) (=) b64encode ->
  make_rewrite_token op db do generation = make_rewrite_token op' db' do' generation' ->
  id op = id op' /\ bytes_rewritten op = bytes_rewritten op'.
Proof.
  intros Hinj Heq. split.
  - unfold make_rewrite_token, Py.join in Heq. apply Hinj in Heq.
    simpl String.concat in Heq.
    apply first_field_inj in Heq; [by apply str_inj|apply str_no_slash..].
  - rewrite !make_rewrite_token_fields in Heq. apply Hinj in Heq.
    apply last_field_inj in Heq; [by apply str_inj|apply str_no_slash..].
Qed.

(** [rewrite_finish] on a destination that passes the preconditions. *)
Lemma rewrite_finish_ok gcs_url request now patch source dest gd bucket :
  generation dest = Some gd ->
  check_preconditions request dest = (Ok tt, dest) ->
  lookup_bucket (bucket_name dest) = Ok bucket ->
  bucket_owner_ok bucket ->
  encryption_headers_ok request ->
  acl_request_ok request ->
  patch !! "md5Hash" = None ->
  patch !! "metageneration" = None ->
  exists revision,
    rewrite_finish gcs_url request now (VDict patch) source dest =
      (Ok revision,
       set_revisions
         (if versioning_enabled bucket then <[gd + 1 := revision]> (revisions dest)
          else {[gd + 1 := revision]})
         (set_generation (Some (gd + 1)) dest)) /\
    GcsObjectVersion.generation revision = gd + 1 /\
    GcsObjectVersion.media revision =
      (if bool_decide (headers request !! "x-goog-testbench-instructions"
                       = Some "inject-upload-data-error")
       then corrupt_media (GcsObjectVersion.media source)
       else GcsObjectVersion.media source) /\
    GcsObjectVersion.metadata revision !! "metageneration" = Some (VInt 2).
Proof.
  intros Hg Hcheck Hbucket Howner Henc Hacl Hmd5 Hmg.
  destruct (new_ok gcs_url (bucket_name dest) (name dest) (gd + 1) request
              (GcsObjectVersion.media source) now bucket Hbucket Howner Henc Hacl)
    as (r0 & Hnew & _).
  pose proof (new_revision_fields _ _ _ _ _ _ _ _ Hnew) as (Hgen&_&_&Hmedia&Hmd50&_&Hmg0).
  rewrite init_fields_media in Hmedia.
  assert (Hupd := update_from_metadata_ok now patch r0 1 Hmd50 Hmd5).
  rewrite lookup_union_r in Hupd by done. specialize (Hupd Hmg0).
  unfold rewrite_finish, bind. rewrite Hcheck.
  rewrite (increment_generation_eq _ _ Hg).
  unfold get_self, lift, ret. simpl bucket_name. simpl name.
  rewrite Hnew. simpl as_update. cbv iota. unfold call. rewrite Hupd.
  rewrite (insert_revision_eq _ (set_generation (Some (gd + 1)) dest) (gd + 1) bucket
             eq_refl Hbucket).
  eexists. split; [reflexivity|]. simpl.
  split; [done|]. split; [done|]. apply lookup_insert_eq.
Qed.

(** The fields of the response of [rewrite_step]. *)
Lemma rewrite_response_fields object_size done resource total token :
  let response := rewrite_response object_size done resource total token in
  response !! "kind" = Some (VStr "storage#rewriteResponse") /\
  response !! "objectSize" = Some (VInt object_size) /\
  response !! "done" = Some (VBool done) /\
  response !! "resource" = resource /\
  response !! "totalBytesRewritten" = Some (VInt total) /\
  response !! "rewriteToken" = Some (VStr token).
Proof.
  unfold rewrite_response. cbv zeta.
  destruct resource as [r|];
    repeat split;
    repeat (rewrite lookup_insert_ne by done);
    rewrite ?lookup_insert_eq, ?lookup_empty; reflexivity.
Qed.

(** The preconditions look at the generation pointer and the revisions
    only. *)
Lemma check_preconditions_same_revisions request self self' :
  generation self' = generation self ->
  revisions self' = revisions self ->
  check_preconditions request self = (Ok tt, self) ->
  check_preconditions request self' = (Ok tt, self').
Proof.
  intros Hg Hr.
  unfold check_preconditions, check_preconditions_named, check_preconditions_by_value,
    bind, get_self, lift, raise, ret, get_latest, get_revision_by_generation.
  rewrite Hg, Hr. intros H.
  repeat case_match; simplify_eq; done.
Qed.

(** X26.  A rewrite whose source is at most 1 MiB long completes in the
    initiating call.  For a well-formed request whose body is a JSON
    object, onto a destination other than the source object that passes
    the preconditions of the request, the response holds [done] true,
    the size of the source under [objectSize] and under
    [totalBytesRewritten], the empty string under [rewriteToken] and the
    metadata of the copy under [resource]; the destination is registered
    with the copy as its current revision, and the source object has
    merely had its token generator incremented: no operation is
    stored. *)
Theorem rewrite_step_small_source_finishes_at_once
    p gcs_url request now db do objects self generation source dest gd bucket patch :
  objects !! p = Some self ->
  (db, do) <> p ->
  dest = default (new db do) (objects !! (db, do)) ->
  starts_rewrite request ->
  json_loads (data request) = Some (VDict patch) ->
  patch !! "md5Hash" = None ->
  patch !! "metageneration" = None ->
  source_generation request self = Ok generation ->
  get_revision_by_generation self generation = Some source ->
  source_readable request source ->
  Py.len (GcsObjectVersion.media source) <= 1048576 ->
  GcsObject.generation dest = Some gd ->
  check_preconditions request dest = (Ok tt, dest) ->
  lookup_bucket (bucket_name dest) = Ok bucket ->
  bucket_owner_ok bucket ->
  encryption_headers_ok request ->
  acl_request_ok request ->
  exists response revision dest' objects',
    rewrite_step p gcs_url request now db do objects = (Ok response, objects') /\
    response !! "kind" = Some (VStr "storage#rewriteResponse") /\
    response !! "done" = Some (VBool true) /\
    response !! "objectSize" = Some (VInt (Py.len (GcsObjectVersion.media source))) /\
    response !! "totalBytesRewritten" =
      Some (VInt (Py.len (GcsObjectVersion.media source))) /\
    response !! "rewriteToken" = Some (VStr "") /\
    response !! "resource" = Some (VDict (GcsObjectVersion.metadata revision)) /\
    objects' !! (db, do) = Some dest' /\
    get_latest dest' = Some revision /\
    GcsObjectVersion.generation revision = gd + 1 /\
    GcsObjectVersion.media revision =
      (if bool_decide (headers request !! "x-goog-testbench-instructions"
                       = Some "inject-upload-data-error")
       then corrupt_media (GcsObjectVersion.media source)
       else GcsObjectVersion.media source) /\
    objects' !! p =
      Some (set_rewrite_token_generator (rewrite_token_generator self + 1) self).
Proof.
  intros Hself Hother Hdest Hstart Hbody Hmd5 Hmg Hgen Hsource Hread Hlen Hgd Hcheck
    Hbucket Howner Henc Hacl.
  destruct (rewrite_finish_ok gcs_url request now patch source dest gd bucket
              Hgd Hcheck Hbucket Howner Henc Hacl Hmd5 Hmg)
    as (revision & Hfinish & Hrgen & Hrmedia & _).
  rewrite (rewrite_step_start _ _ _ _ _ _ _ _ _ _ Hself Hstart Hbody Hgen).
  set (self1 := set_rewrite_token_generator (rewrite_token_generator self + 1) self).
  erewrite (rewrite_advance_eq p gcs_url request now db do (VDict patch) _ _ self1 source);
    [ | apply lookup_insert_eq | apply capture_dom | exact Hsource | exact Hread ].
  cbv zeta. simpl bytes_rewritten. rewrite (proj2 (Z.leb_le _ _)) by lia.
  unfold on_destination, get_object, insert_object.
  rewrite lookup_insert_ne by done. rewrite <- Hdest, Hfinish.
  destruct (rewrite_response_fields (Py.len (GcsObjectVersion.media source)) true
              (Some (VDict (GcsObjectVersion.metadata revision)))
              (Py.len (GcsObjectVersion.media source)) "")
    as (Hkind & Hsize & Hdone & Hresource & Htotal & Htoken).
  eexists _, revision, _, _. split; [reflexivity|].
  split; [exact Hkind|]. split; [exact Hdone|]. split; [exact Hsize|].
  split; [exact Htotal|]. split; [exact Htoken|]. split; [exact Hresource|].
  split; [apply lookup_insert_eq|]. split.
  - unfold get_latest, get_revision_by_generation. simpl.
    destruct (versioning_enabled bucket);
      [apply lookup_insert_eq | apply lookup_singleton_eq].
  - split; [done|]. split; [done|].
    rewrite lookup_insert_ne by done. apply lookup_insert_eq.
Qed.

(** C7.  A rewrite of a source revision whose payload is exactly 3 MiB
    takes three calls.  The initiating call and the continuation that
    presents its token answer [done] false with 1048576 and 2097152
    under [totalBytesRewritten] and return non-empty tokens.  The
    continuation that presents the second token, for a well-formed
    request with a JSON object as its body and a destination that
    exists in the bucket and passes the preconditions, answers [done]
    true with 3145728 under [totalBytesRewritten] and the empty string
    as its token.  The destination may be the source object itself. *)
Theorem rewrite_of_3MiB_takes_three_calls
    p gcs_url db do objects self source generation
    request1 now1 body1 request2 now2 body2 request3 now3 patch3 gd bucket :
  let op := started_operation request1 db self generation body1 in
  let token1 := make_rewrite_token (set_bytes_rewritten 1048576 op) db do
                  (Some (GcsObjectVersion.generation source)) in
  let token2 := make_rewrite_token (set_bytes_rewritten 2097152 op) db do
                  (Some (GcsObjectVersion.generation source)) in
  let dest := default (new db do) (objects !! (db, do)) in
  (forall s, b64encode s = EmptyString -> s = EmptyString) ->
  objects !! p = Some self ->
  starts_rewrite request1 ->
  source_generation request1 self = Ok generation ->
  get_revision_by_generation self generation = Some source ->
  Py.len (GcsObjectVersion.media source) = 3145728 ->
  json_loads (data request1) = Some body1 ->
  json_loads (data request2) = Some body2 ->
  json_loads (data request3) = Some (VDict patch3) ->
  patch3 !! "md5Hash" = None ->
  patch3 !! "metageneration" = None ->
  source_readable request1 source ->
  source_readable request2 source ->
  source_readable request3 source ->
  args request2 !! "rewriteToken" = Some token1 ->
  args request3 !! "rewriteToken" = Some token2 ->
  GcsObject.generation dest = Some gd ->
  check_preconditions request3 dest = (Ok tt, dest) ->
  lookup_bucket (bucket_name dest) = Ok bucket ->
  bucket_owner_ok bucket ->
  encryption_headers_ok request3 ->
  acl_request_ok request3 ->
  exists response1 objects1 response2 objects2 response3 objects3,
    rewrite_step p gcs_url request1 now1 db do objects = (Ok response1, objects1) /\
    response1 !! "done" = Some (VBool false) /\
    response1 !! "totalBytesRewritten" = Some (VInt 1048576) /\
    response1 !! "rewriteToken" = Some (VStr token1) /\
    token1 <> EmptyString /\
    rewrite_step p gcs_url request2 now2 db do objects1 = (Ok response2, objects2) /\
    response2 !! "done" = Some (VBool false) /\
    response2 !! "totalBytesRewritten" = Some (VInt 2097152) /\
    response2 !! "rewriteToken" = Some (VStr token2) /\
    token2 <> EmptyString /\
    rewrite_step p gcs_url request3 now3 db do objects2 = (Ok response3, objects3) /\
    response3 !! "done" = Some (VBool true) /\
    response3 !! "totalBytesRewritten" = Some (VInt 3145728) /\
    response3 !! "rewriteToken" = Some (VStr EmptyString).
Proof.
  intros op token1 token2 dest Hb Hself Hstart Hgen Hsource Hlen
    Hbody1 Hbody2 Hbody3 Hmd5 Hmg Hread1 Hread2 Hread3 Htoken1 Htoken2
    Hgd Hcheck Hbucket Howner Henc Hacl.
  assert (Hne1 : token1 <> EmptyString) by by apply make_rewrite_token_nonempty.
  assert (Hne2 : token2 <> EmptyString) by by apply make_rewrite_token_nonempty.
  set (self1 := set_rewrite_operations
                  (<[token1 := set_bytes_rewritten 1048576 op]> (rewrite_operations self))
                  (set_rewrite_token_generator (rewrite_token_generator self + 1) self)).
  set (self2 := set_rewrite_operations
                  (<[token2 := set_bytes_rewritten 2097152 op]>
                     (delete token1 (rewrite_operations self1))) self1).
  set (self3 := set_rewrite_operations (delete token2 (rewrite_operations self2)) self2).
  assert (H1 : rewrite_step p gcs_url request1 now1 db do objects =
    (Ok (rewrite_response 3145728 false None 1048576 token1), <[p := self1]> objects)).
  { rewrite (rewrite_step_start_progress p gcs_url request1 now1 db do objects self body1
               generation source Hself Hstart Hbody1 Hgen Hsource Hread1) by lia.
    cbv zeta. by rewrite Hlen. }
  assert (H2 : rewrite_step p gcs_url request2 now2 db do (<[p := self1]> objects) =
    (Ok (rewrite_response 3145728 false None 2097152 token2), <[p := self2]> objects)).
  { rewrite (rewrite_step_continue_progress p gcs_url request2 now2 db do
               (<[p := self1]> objects) self1 body2 token1
               (set_bytes_rewritten 1048576 op) source);
      [ | apply lookup_insert_eq | exact Htoken1 | exact Hne1 | exact Hbody2
        | apply lookup_insert_eq | by exists request1, db | exact Hsource | exact Hread2
        | rewrite Hlen; simpl; lia ].
    cbv zeta. rewrite Hlen, insert_insert_eq. reflexivity. }
  assert (Hdest3 : exists dest3,
    default (new db do) ((<[p := self3]> objects) !! (db, do)) = dest3 /\
    GcsObject.generation dest3 = Some gd /\
    check_preconditions request3 dest3 = (Ok tt, dest3) /\
    lookup_bucket (bucket_name dest3) = Ok bucket).
  { destruct (decide ((db, do) = p)) as [Heq|Hother].
    - exists self3. subst dest. rewrite Heq, lookup_insert_eq.
      rewrite Heq, Hself in Hgd, Hcheck, Hbucket. simpl in Hgd, Hcheck, Hbucket.
      split; [done|]. split; [exact Hgd|]. split; [|exact Hbucket].
      by apply (check_preconditions_same_revisions request3 self self3).
    - exists dest. rewrite lookup_insert_ne by done. done. }
  destruct Hdest3 as (dest3 & Hdest3 & Hgd3 & Hcheck3 & Hbucket3).
  destruct (rewrite_finish_ok gcs_url request3 now3 patch3 source dest3 gd bucket
              Hgd3 Hcheck3 Hbucket3 Howner Henc Hacl Hmd5 Hmg)
    as (revision & Hfinish & _).
  assert (H3 : exists objects3,
    rewrite_step p gcs_url request3 now3 db do (<[p := self2]> objects) =
    (Ok (rewrite_response 3145728 true
           (Some (VDict (GcsObjectVersion.metadata revision))) 3145728 EmptyString),
     objects3)).
  { erewrite rewrite_step_continue;
      [ | apply lookup_insert_eq | exact Htoken2 | exact Hne2 | exact Hbody3
        | apply lookup_insert_eq ].
    rewrite insert_insert_eq. fold self3.
    erewrite (rewrite_advance_eq p gcs_url request3 now3 db do (VDict patch3) _ _ self3
                source);
      [ | apply lookup_insert_eq | apply capture_dom | exact Hsource | exact Hread3 ].
    cbv zeta. rewrite Hlen. simpl bytes_rewritten.
    change (3145728 <=? 2097152 + 1048576) with true. cbv iota.
    unfold on_destination, get_object, insert_object.
    rewrite Hdest3, Hfinish. eauto. }
  destruct H3 as (objects3 & H3).
  destruct (rewrite_response_fields 3145728 false None 1048576 token1)
    as (_ & _ & Hdone1 & _ & Htotal1 & Hresponse1).
  destruct (rewrite_response_fields 3145728 false None 2097152 token2)
    as (_ & _ & Hdone2 & _ & Htotal2 & Hresponse2).
  destruct (rewrite_response_fields 3145728 true
              (Some (VDict (GcsObjectVersion.metadata revision))) 3145728 EmptyString)
    as (_ & _ & Hdone3 & _ & Htotal3 & Hresponse3).
  eexists _, _, _, _, _, _.
  split; [exact H1|]. split; [exact Hdone1|]. split; [exact Htotal1|].
  split; [exact Hresponse1|]. split; [exact Hne1|].
  split; [exact H2|]. split; [exact Hdone2|]. split; [exact Htotal2|].
  split; [exact Hresponse2|]. split; [exact Hne2|].
  split; [exact H3|]. split; [exact Hdone3|]. split; [exact Htotal3|exact Hresponse3].
Qed.

(** X27.  A rewrite whose source revision is not stored fails with the
    [AttributeError] of a method call on [None], and not cleanly: an
    initiating call has incremented the token generator, and a
    continuation has consumed its token, so the operation is lost even
    if the revision comes back. *)
Theorem rewrite_step_without_source p gcs_url request now db do objects self body :
  objects !! p = Some self ->
  json_loads (data request) = Some body ->
  (forall generation,
     starts_rewrite request ->
     source_generation request self = Ok generation ->
     get_revision_by_generation self generation = None ->
     rewrite_step p gcs_url request now db do objects =
       (Raise AttributeError,
        <[p := set_rewrite_token_generator (rewrite_token_generator self + 1) self]>
          objects)) /\
  (forall token op,
     args request !! "rewriteToken" = Some token ->
     token <> EmptyString ->
     rewrite_operations self !! token = Some op ->
     (exists request0 destination,
        original_arguments op =
          capture_rewrite_operation_arguments request0 destination destination) ->
     get_revision_by_generation self (actual_generation op) = None ->
     rewrite_step p gcs_url request now db do objects =
       (Raise AttributeError,
        <[p := set_rewrite_operations (delete token (rewrite_operations self)) self]>
          objects)).
Proof.
  intros Hself Hbody.
  assert (Hadvance : forall rewrite objects1 self1,
    objects1 !! p = Some self1 ->
    dom (original_arguments rewrite) =
      dom (capture_rewrite_operation_arguments request db do) ->
    get_revision_by_generation self1 (actual_generation rewrite) = None ->
    rewrite_advance p gcs_url request now db do body rewrite objects1 =
      (Raise AttributeError, objects1)).
  { intros rewrite objects1 self1 Hself1 Hdom Hnone. unfold rewrite_advance.
    rewrite keys_symmetric_difference_same_dom by done.
    rewrite size_empty. rewrite bool_decide_eq_true_2 by done.
    change (negb true) with false. cbv iota.
    unfold bind at 1. rewrite (on_self_eq _ _ _ _ Hself1).
    unfold bind at 1, get_self, ret. simpl fst. simpl snd.
    rewrite Hnone. by rewrite (insert_id _ _ _ Hself1). }
  split.
  - intros generation Hstart Hgen Hnone.
    rewrite (rewrite_step_start _ _ _ _ _ _ _ _ _ _ Hself Hstart Hbody Hgen).
    apply (Hadvance _ _ (set_rewrite_token_generator (rewrite_token_generator self + 1) self));
      [apply lookup_insert_eq|apply capture_dom|done].
  - intros token op Htoken Hne Hop (request0 & d & Hargs) Hnone.
    rewrite (rewrite_step_continue _ _ _ _ _ _ _ _ _ _ _ Hself Htoken Hne Hbody Hop).
    apply (Hadvance _ _ (set_rewrite_operations (delete token (rewrite_operations self)) self));
      [apply lookup_insert_eq|rewrite Hargs; apply capture_dom|done].
Qed.

End MoreRewrites.

(** ** Reading multipart parts and hash headers *)

Section Parsing.
Context `{C : Collaborators}.
Import GcsObject.

Lemma len_length s : Py.len s = Z.of_nat (String.length s).
Proof.
  induction s as [|c s IH]; [done|].
  unfold Py.len. simpl Py.len_from. rewrite len_from_shift, IH.
  simpl String.length. lia.
Qed.

Lemma sdrop_append a b : Py.sdrop (String.length a) (a ++ b) = b.
Proof. induction a as [|c a IH]; [by destruct b|]. rewrite append_cons. simpl. exact IH. Qed.

Lemma stake_append a b : Py.stake (String.length a) (a ++ b) = a.
Proof.
  induction a as [|c a IH]; [by destruct b|]. rewrite append_cons. simpl. by rewrite IH.
Qed.

Lemma append_nil_r (a : string) : (a ++ "")%string = a.
Proof. induction a as [|c a IH]; [done|]. rewrite append_cons. by rewrite IH. Qed.

Lemma length_append (a b : string) :
  String.length (a ++ b) = (String.length a + String.length b)%nat.
Proof. induction a as [|c a IH]; [done|]. rewrite append_cons. simpl. by rewrite IH. Qed.

(** [s[len(pre):]] and [s[len(pre):len(pre) + len(line)]] *)
Lemma slice_from pre rest : Py.slice (pre ++ rest) (Some (Py.len pre)) None = rest.
Proof.
  unfold Py.slice, Py.clamp_index. rewrite len_append, !len_length.
  destruct (Z.ltb_spec (Z.of_nat (String.length pre)) 0); [lia|].
  rewrite Z.min_r by lia. rewrite Z.max_r by lia.
  destruct (Z.leb_spec (Z.of_nat (String.length pre) + Z.of_nat (String.length rest))
              (Z.of_nat (String.length pre))).
  - destruct rest; [done|]. simpl in *. lia.
  - rewrite Nat2Z.id, sdrop_append.
    replace (Z.to_nat _) with (String.length rest) by lia.
    rewrite <- (append_nil_r rest) at 2. apply stake_append.
Qed.

Lemma slice_between pre line rest :
  Py.slice (pre ++ line ++ rest) (Some (Py.len pre)) (Some (Py.len pre + Py.len line))
  = line.
Proof.
  unfold Py.slice, Py.clamp_index. rewrite !len_append, !len_length.
  destruct (Z.ltb_spec (Z.of_nat (String.length pre)) 0); [lia|].
  destruct (Z.ltb_spec (Z.of_nat (String.length pre) + Z.of_nat (String.length line)) 0);
    [lia|].
  rewrite !Z.min_r by lia. rewrite !Z.max_r by lia.
  destruct (Z.leb_spec (Z.of_nat (String.length pre) + Z.of_nat (String.length line))
              (Z.of_nat (String.length pre))).
  - destruct line; [done|]. simpl in *. lia.
  - rewrite Nat2Z.id, sdrop_append.
    replace (Z.to_nat _) with (String.length line) by lia.
    apply stake_append.
Qed.

Lemma prefix_crlf rest : String.prefix CRLF (CRLF ++ rest) = true.
Proof. unfold CRLF. rewrite !append_cons, append_nil. by destruct rest. Qed.

Lemma prefix_cons_ne a s1 b s2 :
  a <> b -> String.prefix (String a s1) (String b s2) = false.
Proof. intros Hne. cbn [String.prefix]. by destruct (ascii_dec a b). Qed.

Lemma find_aux_here sub s pos :
  String.prefix sub s = true -> Py.find_aux sub s pos = pos.
Proof. intros H. destruct s; cbn [Py.find_aux]; by rewrite H. Qed.

Lemma find_aux_next sub c s pos :
  String.prefix sub (String c s) = false ->
  Py.find_aux sub (String c s) pos = Py.find_aux sub s (pos + 1).
Proof. intros H. cbn [Py.find_aux]. by rewrite H. Qed.

(** The first line terminator after a line without carriage return. *)
Lemma find_aux_line line rest pos :
  contains (ascii_of_nat 13) line = false ->
  Py.find_aux CRLF (line ++ CRLF ++ rest) pos = pos + Py.len line.
Proof.
  revert pos. induction line as [|c line IH]; intros pos Hfree.
  - rewrite append_nil. change (Py.len "") with 0. rewrite Z.add_0_r.
    apply find_aux_here, prefix_crlf.
  - simpl in Hfree. apply orb_false_iff in Hfree as [Hc Hfree].
    rewrite append_cons.
    change (Ascii.eqb c (ascii_of_nat 13)) with (Ascii.eqb c "013"%char) in Hc.
    assert (Hpre : String.prefix CRLF (String c (line ++ CRLF ++ rest)) = false).
    { unfold CRLF. apply prefix_cons_ne. intros <-.
      by rewrite Ascii.eqb_refl in Hc. }
    rewrite (find_aux_next _ _ _ _ Hpre), IH by done.
    rewrite !len_length. simpl String.length. lia.
Qed.

Lemma find_line pre line rest :
  contains (ascii_of_nat 13) line = false ->
  Py.find (pre ++ line ++ CRLF ++ rest) CRLF (Py.len pre) = Py.len pre + Py.len line.
Proof.
  intros Hfree. unfold Py.find. rewrite !len_append, !len_length.
  destruct (Z.ltb_spec (Z.of_nat (String.length pre)) 0); [lia|].
  match goal with |- (if ?b then _ else _) = _ => destruct b eqn:Hb end.
  { apply Z.ltb_lt in Hb. lia. }
  rewrite Nat2Z.id, sdrop_append, find_aux_line by done. by rewrite len_length.
Qed.

Lemma rev_app_append a b c :
  (String.rev_app a b ++ c)%string = String.rev_app a (b ++ c).
Proof. revert b. induction a as [|x a IH]; intros b; simpl; [done|]. by rewrite IH. Qed.

Lemma rev_rev_app a cur : String.rev (String.rev_app a cur) = (String.rev cur ++ a)%string.
Proof.
  revert cur. induction a as [|x a IH]; intros cur; simpl.
  - by rewrite append_nil_r.
  - rewrite IH. unfold String.rev. simpl.
    rewrite <- (append_nil (String x "")) at 1.
    change (String x "") with (String x "") at 1.
    rewrite <- rev_app_append. rewrite append_assoc. reflexivity.
Qed.

(** The scan of [split] over a stretch that cannot start a separator:
    it is added to the piece being read. *)
Lemma split_go_scan c0 sep' a s cur budget :
  contains c0 a = false ->
  Py.split_go (String c0 sep') (a ++ s) O cur budget =
  Py.split_go (String c0 sep') s O (String.rev_app a cur) budget.
Proof.
  revert cur. induction a as [|x a IH]; intros cur Hfree; [done|].
  simpl in Hfree. apply orb_false_iff in Hfree as [Hx Hfree].
  assert (Hpre : String.prefix (String c0 sep') (String x (a ++ s)) = false).
  { apply prefix_cons_ne. intros ->. by rewrite Ascii.eqb_refl in Hx. }
  rewrite append_cons. cbn [Py.split_go]. rewrite Hpre, andb_false_r. by rewrite IH.
Qed.

Lemma split_go_end sep cur budget :
  Py.split_go sep "" O cur budget = [String.rev cur].
Proof. done. Qed.

Lemma split_go_skip sep x s cur budget :
  Py.split_go sep (x ++ s) (String.length x) cur budget = Py.split_go sep s O cur budget.
Proof. induction x as [|c x IH]; [done|]. rewrite append_cons. simpl. exact IH. Qed.

Lemma split_go_colon s cur b :
  Py.split_go ": " (": " ++ s) O cur (Some (S b)) =
  String.rev cur :: Py.split_go ": " s O "" (Some b).
Proof.
  change (": " ++ s)%string with (String ":" (String " " s)). simpl. by destruct s.
Qed.

Lemma split_go_exhausted s cur :
  exists c', Py.split_go ": " s O cur (Some O) = [c'].
Proof. revert cur. induction s as [|x s IH]; intros cur; simpl; [by eauto|]. apply IH. Qed.

(** A header line splits into its key and its value. *)
Lemma split_header k v :
  contains ":" k = false -> contains ":" v = false ->
  Py.split (k ++ ": " ++ v) ": " (Some 2%nat) = Ok [k; v].
Proof.
  intros Hk Hv. unfold Py.split.
  rewrite (split_go_scan ":" " " k _ "" (Some 2%nat) Hk).
  rewrite split_go_colon, rev_rev_app.
  change (String.rev "") with "". rewrite append_nil.
  rewrite <- (append_nil_r v) at 1.
  rewrite (split_go_scan ":" " " v "" "" (Some 1%nat) Hv).
  rewrite split_go_end, rev_rev_app. done.
Qed.

(** A line with two separators splits into three pieces. *)
Lemma split_two_separators a b c :
  contains ":" a = false -> contains ":" b = false ->
  exists c', Py.split (a ++ ": " ++ b ++ ": " ++ c) ": " (Some 2%nat) = Ok [a; b; c'].
Proof.
  intros Ha Hb. unfold Py.split.
  rewrite (split_go_scan ":" " " a _ "" (Some 2%nat) Ha).
  rewrite split_go_colon, rev_rev_app.
  change (String.rev "") with "". rewrite append_nil.
  rewrite (split_go_scan ":" " " b _ "" (Some 1%nat) Hb).
  rewrite split_go_colon, rev_rev_app.
  change (String.rev "") with "". rewrite append_nil.
  destruct (split_go_exhausted c "") as [c' ->]. by exists c'.
Qed.

Lemma contains_append x a b : contains x (a ++ b) = contains x a || contains x b.
Proof.
  induction a as [|c a IH]; [done|]. rewrite append_cons. simpl.
  by rewrite IH, orb_assoc.
Qed.

Lemma header_line_free kv :
  header_ok kv -> contains (ascii_of_nat 13) (kv.1 ++ ": " ++ kv.2) = false.
Proof.
  intros (_ & Hk & _ & _ & Hv). rewrite !contains_append, Hk, Hv. reflexivity.
Qed.

(** The loop of [_parse_part] over the rendered headers. *)
Lemma parse_part_loop_rendered hs payload : forall pre headers fuel,
  Forall header_ok hs ->
  (length hs <= fuel)%nat ->
  _parse_part_loop fuel (pre ++ render_part hs payload) headers (Py.len pre)
    (Py.find (pre ++ render_part hs payload) CRLF (Py.len pre))
  = Some (Ok (foldl (fun m kv => <[kv.1 := kv.2]> m) headers hs, payload)).
Proof.
  induction hs as [|[k v] hs IH]; intros pre headers fuel Hok Hfuel.
  - simpl render_part. simpl foldl.
    rewrite <- (append_nil (CRLF ++ payload)) at 2.
    rewrite (find_line pre "" payload) by done.
    change (Py.len "") with 0. rewrite Z.add_0_r.
    destruct fuel; simpl; rewrite Z.eqb_refl; simpl;
      rewrite <- append_assoc;
      change (Py.len pre + 2) with (Py.len pre + Py.len CRLF);
      rewrite <- len_append; by rewrite slice_from.
  - apply Forall_cons in Hok as [Hkv Hok].
    destruct fuel as [|fuel]; [simpl in Hfuel; lia|].
    simpl render_part.
    set (line := (k ++ ": " ++ v)%string).
    assert (Hrender : (k ++ ": " ++ v ++ CRLF ++ render_part hs payload)%string
                      = (line ++ CRLF ++ render_part hs payload)%string).
    { unfold line. by rewrite !append_assoc. }
    rewrite Hrender.
    rewrite (find_line pre line (render_part hs payload)) by (apply (header_line_free (k, v) Hkv)).
    assert (Hlen : 0 < Py.len line).
    { unfold line. rewrite !len_append, !len_length. simpl. lia. }
    simpl _parse_part_loop.
    destruct (Z.eqb_spec (Py.len pre + Py.len line) (Py.len pre)) as [?|_]; [lia|].
    simpl negb. cbv iota.
    rewrite slice_between.
    destruct Hkv as (Hk & _ & Hascii & Hv & _). simpl in Hk, Hascii, Hv.
    assert (Hsplit : Py.split_go ": " line 0 "" (Some 2%nat) = [k; v]).
    { pose proof (split_header k v Hk Hv) as H. unfold Py.split in H. by injection H. }
    rewrite Hsplit. unfold encode_ascii. rewrite Hascii.
    assert (Hpre : (pre ++ line ++ CRLF ++ render_part hs payload)%string
                   = ((pre ++ line ++ CRLF) ++ render_part hs payload)%string).
    { by rewrite !append_assoc. }
    rewrite Hpre.
    assert (Hidx : Py.len pre + Py.len line + 2 = Py.len (pre ++ line ++ CRLF)).
    { rewrite !len_append. change (Py.len CRLF) with 2. lia. }
    rewrite Hidx. apply IH; [done|simpl in Hfuel; lia].
Qed.

(** X28.  Reading back a rendered part: for headers whose keys and
    values hold neither a colon nor a carriage return (and whose keys are
    ASCII), [_parse_part] returns, within as many iterations as there are
    header lines, the dictionary of the headers, a repeated key keeping
    its last value, and the payload, whatever bytes the payload holds. *)
Theorem parse_part_reads_rendered_part hs payload fuel :
  Forall header_ok hs ->
  (length hs <= fuel)%nat ->
  _parse_part fuel (render_part hs payload) =
    Some (Ok (foldl (fun m kv => <[kv.1 := kv.2]> m) ∅ hs, payload)).
Proof.
  intros Hok Hfuel. unfold _parse_part. cbv zeta.
  exact (parse_part_loop_rendered hs payload "" ∅ fuel Hok Hfuel).
Qed.

(** X29.  The header line is split at most twice and must give exactly
    a key and a value: a first header line with a second ": " in it makes
    [_parse_part] fail with the [ValueError] of the unpacking, and so
    does a first line without any separator. *)
Theorem parse_part_refuses_second_separator fuel rest :
  (forall a b c,
     contains ":" a = false -> contains ":" b = false ->
     contains (ascii_of_nat 13) (a ++ ": " ++ b ++ ": " ++ c) = false ->
     _parse_part (S fuel) ((a ++ ": " ++ b ++ ": " ++ c) ++ CRLF ++ rest)
       = Some (Raise ValueError)) /\
  (forall a c,
     contains ":" (String c a) = false ->
     contains (ascii_of_nat 13) (String c a) = false ->
     _parse_part (S fuel) (String c a ++ CRLF ++ rest) = Some (Raise ValueError)).
Proof.
  split.
  - intros a b c Ha Hb Hfree. unfold _parse_part. cbv zeta.
    set (line := (a ++ ": " ++ b ++ ": " ++ c)%string) in *.
    pose proof (find_line "" line rest Hfree) as Hfind.
    rewrite append_nil in Hfind. change (Py.len "") with 0 in Hfind.
    rewrite Hfind. rewrite Z.add_0_l.
    assert (Hlen : 0 < Py.len line).
    { unfold line. rewrite !len_append, !len_length. simpl. lia. }
    simpl _parse_part_loop.
    destruct (Z.eqb_spec (Py.len line) 0) as [?|_]; [lia|]. simpl negb. cbv iota.
    pose proof (slice_between "" line (CRLF ++ rest)) as Hslice.
    rewrite append_nil in Hslice. change (Py.len "") with 0 in Hslice.
    rewrite Z.add_0_l in Hslice. rewrite Hslice.
    destruct (split_two_separators a b c Ha Hb) as [c' Hsplit].
    unfold Py.split in Hsplit. injection Hsplit as Hsplit.
    unfold line. by rewrite Hsplit.
  - intros a c Hcolon Hfree. unfold _parse_part. cbv zeta.
    set (line := String c a) in *.
    pose proof (find_line "" line rest Hfree) as Hfind.
    rewrite append_nil in Hfind. change (Py.len "") with 0 in Hfind.
    rewrite Hfind. rewrite Z.add_0_l.
    assert (Hlen : 0 < Py.len line).
    { unfold line. rewrite len_length. simpl. lia. }
    simpl _parse_part_loop.
    destruct (Z.eqb_spec (Py.len line) 0) as [?|_]; [lia|]. simpl negb. cbv iota.
    pose proof (slice_between "" line (CRLF ++ rest)) as Hslice.
    rewrite append_nil in Hslice. change (Py.len "") with 0 in Hslice.
    rewrite Z.add_0_l in Hslice. rewrite Hslice.
    rewrite <- (append_nil_r line) at 1.
    rewrite (split_go_scan ":" " " line "" "" (Some 2%nat) Hcolon).
    by rewrite split_go_end.
Qed.

Lemma split_go_comma s cur :
  Py.split_go "," ("," ++ s) O cur None = String.rev cur :: Py.split_go "," s O "" None.
Proof. change ("," ++ s)%string with (String "," s). simpl. by destruct s. Qed.

(** Splitting at the commas undoes the joining with commas. *)
Lemma split_join_comma parts :
  parts <> [] ->
  Forall (fun s => contains "," s = false) parts ->
  Py.split_go "," (Py.join "," parts) O "" None = parts.
Proof.
  intros Hne Hfree. induction Hfree as [|p parts Hp Hfree IH]; [done|].
  destruct parts as [|q parts].
  - unfold Py.join. simpl String.concat.
    rewrite <- (append_nil_r p) at 1.
    rewrite (split_go_scan "," "" p "" "" None Hp), split_go_end, rev_rev_app. done.
  - unfold Py.join in *. cbn [String.concat].
    rewrite (split_go_scan "," "" p _ "" None Hp), split_go_comma, rev_rev_app.
    change (String.rev "") with "". rewrite append_nil. f_equal. by apply IH.
Qed.

(** X30.  How [insert_xml] reads the declared digest off [x-goog-hash]:
    the header is a comma-separated list, the value is what follows
    [md5=] in the last item that starts with it, and items of other
    algorithms are skipped; without such an item no digest is
    declared. *)
Theorem xml_md5hash_reads_last_md5 request parts :
  parts <> [] ->
  Forall (fun s => contains "," s = false) parts ->
  headers request !! "x-goog-hash" = Some (Py.join "," parts) ->
  (Forall (fun s => Py.startswith s "md5=" = false) parts ->
   xml_md5hash request = None) /\
  (forall l1 v l2,
     parts = (l1 ++ String.append "md5=" v :: l2)%list ->
     Forall (fun s => Py.startswith s "md5=" = false) l2 ->
     xml_md5hash request = Some v).
Proof.
  intros Hne Hfree Hheader. unfold xml_md5hash. rewrite Hheader.
  rewrite (split_join_comma parts Hne Hfree).
  assert (Hrest : forall acc l,
    Forall (fun s => Py.startswith s "md5=" = false) l ->
    foldl (fun (md5hash : option string) hash =>
             if Py.startswith hash "md5="
             then Some (Py.slice hash (Some 4) None) else md5hash) acc l = acc).
  { intros acc l Hl. revert acc. induction Hl as [|s l Hs Hl IH]; intros acc; [done|].
    simpl foldl. by rewrite Hs, IH. }
  split.
  - apply Hrest.
  - intros l1 v l2 -> Hl2. rewrite foldl_app. cbn [foldl].
    assert (Hstart : Py.startswith (String.append "md5=" v) "md5=" = true).
    { unfold Py.startswith. change (String.append "md5=" v) with
        (String "m" (String "d" (String "5" (String "=" v)))).
      simpl. by destruct v. }
    rewrite Hstart, Hrest by done.
    change 4 with (Py.len "md5="). by rewrite slice_from.
Qed.

End Parsing.


(** ** The statements on the testbench *)

Section RevisionsOnTheTestbench.
Import Demo.

Lemma constructed_eq :
  GcsObjectVersion.new gcs_url "bucket" "object" 1 (request [] [] "hello") "hello" now
    = Ok constructed.
Proof. vm_compute. reflexivity. Qed.

Lemma hello_inserted :
  GcsObject.insert gcs_url (request [] [] "hello") now (GcsObject.new "bucket" "object")
    = (Ok hello_revision, hello).
Proof. vm_compute. reflexivity. Qed.

Lemma xml_inserted :
  exists revision self',
    GcsObject.insert_xml gcs_url (request [] [] "hello") now
      (GcsObject.new "bucket" "object") = (Ok revision, self').
Proof. vm_compute. eexists _, _. reflexivity. Qed.

Lemma new_revision_metageneration_witness :
  (GcsObjectVersion.new gcs_url "bucket" "object" 1 (request [] [] "hello") "hello" now
     = Ok constructed /\
   GcsObjectVersion.metadata constructed !! "metageneration" = Some (VInt 1)) /\
  (GcsObject.insert gcs_url (request [] [] "hello") now (GcsObject.new "bucket" "object")
     = (Ok hello_revision, hello) /\
   GcsObject.get_latest hello = Some hello_revision /\
   GcsObjectVersion.metadata hello_revision !! "metageneration" = Some (VInt 1) /\
   GcsObject.check_preconditions_by_value None None (Some "1") None hello
     = (Ok tt, hello)) /\
  (exists revision self',
     GcsObject.insert_xml gcs_url (request [] [] "hello") now
       (GcsObject.new "bucket" "object") = (Ok revision, self') /\
     GcsObject.get_latest self' = Some revision /\
     GcsObjectVersion.metadata revision !! "metageneration" = Some (VInt 1)).
Proof.
  destruct new_revision_metageneration_is_1 as (Hnew & Hinsert & Hxml).
  split; [|split].
  - split; [exact constructed_eq|].
    exact (Hnew _ _ _ _ _ _ _ _ constructed_eq).
  - destruct (Hinsert _ _ _ _ _ _ hello_inserted) as (Hlatest & Hmg & Hcheck).
    split; [exact hello_inserted|]. split; [exact Hlatest|]. split; [exact Hmg|].
    apply Hcheck; [|vm_compute; reflexivity].
    intros H. vm_compute in H. discriminate H.
  - destruct xml_inserted as (revision & self' & Hrun).
    assert (Hmd5 : GcsObject.xml_md5hash (request [] [] "hello") = None)
      by (vm_compute; reflexivity).
    destruct (Hxml _ _ _ _ _ _ Hmd5 Hrun) as (Hlatest & Hmg & _).
    exists revision, self'. split; [exact Hrun|]. split; [exact Hlatest|exact Hmg].
Defined.

(** C10, as stated, fails for a freshly inserted revision.  A multipart
    upload into a new object updates the metadata twice after the
    construction: the revision it installs has metageneration 3, and a
    metageneration-must-equal precondition naming 1 is refused.  An XML
    upload that declares an md5 installs a revision with
    metageneration 2. *)
Lemma fresh_revision_metageneration_above_1 :
  match GcsObject.insert_multipart 10 gcs_url multipart_request now
          (GcsObject.new "bucket" "object") with
  | Some (Ok revision, self') =>
      GcsObject.get_latest self' = Some revision /\
      GcsObjectVersion.metadata revision !! "metageneration" = Some (VInt 3) /\
      (GcsObject.check_preconditions_by_value None None (Some "1") None self').1
        = Raise (ErrorResponse "Precondition Failed" 412)
  | _ => False
  end /\
  match GcsObject.insert_xml gcs_url xml_request now (GcsObject.new "bucket" "object") with
  | (Ok revision, self') =>
      GcsObject.get_latest self' = Some revision /\
      GcsObjectVersion.metadata revision !! "metageneration" = Some (VInt 2) /\
      (GcsObject.check_preconditions_by_value None None (Some "1") None self').1
        = Raise (ErrorResponse "Precondition Failed" 412)
  | _ => False
  end.
Proof. split; vm_compute; repeat split; reflexivity. Qed.

(** The payload "hello" has the digest the stand-in gives it; a patch
    declaring another one is refused, and stored all the same. *)
Lemma update_from_metadata_mismatch_witness :
  let patch : gmap string pyval := {["md5Hash" := VStr "AAAA"]} in
  let self' := (GcsObjectVersion.update_from_metadata now patch hello_revision).2 in
  (GcsObjectVersion.update_from_metadata now patch hello_revision).1 =
    Raise (ErrorResponse
             "Mismatched MD5 hash expected=hello..........., actual=AAAA" 400) /\
  GcsObjectVersion.metadata hello_revision !! "md5Hash" = Some (VStr "hello...........") /\
  GcsObjectVersion.metadata self' !! "md5Hash" = Some (VStr "AAAA") /\
  GcsObjectVersion.metadata hello_revision !! "metageneration" = Some (VInt 1) /\
  GcsObjectVersion.metadata self' !! "metageneration" = Some (VInt 2) /\
  GcsObjectVersion.metadata self' <> GcsObjectVersion.metadata hello_revision.
Proof.
  intros patch self'.
  destruct (update_from_metadata_keeps_mismatched_state now patch hello_revision (VInt 2))
    as (s & Hrun & Htmp & Hne & Hbad);
    [vm_compute; reflexivity..|].
  subst self'. rewrite Hrun. cbv beta iota delta [fst snd].
  split; [vm_compute; reflexivity|].
  split; [vm_compute; reflexivity|].
  split; [rewrite Htmp; vm_compute; reflexivity|].
  split; [vm_compute; reflexivity|].
  split; [rewrite Htmp; vm_compute; reflexivity|exact Hne].
Defined.

End RevisionsOnTheTestbench.


Section ObjectsOnTheTestbench.
Import Demo.

Lemma del_revision_dangles_witness :
  let request := request [("generation", "2")] [] "" in
  let self' := (GcsObject.del_revision request two_generations).2 in
  GcsObject.generation two_generations = Some 2 /\
  is_Some (GcsObject.revisions two_generations !! 2) /\
  is_Some (GcsObject.revisions two_generations !! 1) /\
  (GcsObject.del_revision request two_generations).1 = Ok false /\
  GcsObject.generation self' = Some 2 /\
  GcsObject.revisions self' !! 2 = None /\
  GcsObject.revisions self' <> ∅.
Proof.
  intros request self'.
  assert (H2 : is_Some (GcsObject.revisions two_generations !! 2))
    by (vm_compute; eauto).
  assert (H1 : is_Some (GcsObject.revisions two_generations !! 1))
    by (vm_compute; eauto).
  assert (Hg : GcsObject.generation two_generations = Some 2)
    by (vm_compute; reflexivity).
  destruct (del_revision_named_current_generation_dangles request two_generations
              "2" 2 eq_refl eq_refl Hg H2 (ex_intro _ 1 (conj (ltac:(discriminate) : (1 : Z) <> 2) H1)))
    as (s & Hrun & Hgen & _ & Hne & Hnone).
  subst self'. rewrite Hrun. cbv beta iota delta [fst snd].
  repeat split; assumption.
Defined.

(** C3, as stated, fails.  After an upload that the constructor refused,
    the generation pointer is 2 while only generation 1 is stored; with
    no condition supplied, and so every supplied condition passing, the
    check raises "Object not found". *)
Lemma check_preconditions_refuses_without_conditions :
  GcsObject.generation hello_after_refused_upload = Some 2 /\
  GcsObject.get_latest hello_after_refused_upload = None /\
  (GcsObject.check_preconditions_by_value None None None None
     hello_after_refused_upload).1 = Raise (ErrorResponse "Object not found" 404) /\
  (forall st, conditions_pass st None None None None) /\
  (forall st,
     ~ (GcsObject.check_preconditions_by_value None None None None
          hello_after_refused_upload = (Ok tt, hello_after_refused_upload) <->
        conditions_pass st None None None None)).
Proof.
  assert (Hrun : (GcsObject.check_preconditions_by_value None None None None
     hello_after_refused_upload).1 = Raise (ErrorResponse "Object not found" 404))
    by (vm_compute; reflexivity).
  assert (Hpass : forall st, conditions_pass st None None None None)
    by (intros []; repeat split).
  split; [vm_compute; reflexivity|]. split; [vm_compute; reflexivity|].
  split; [exact Hrun|]. split; [exact Hpass|].
  intros st [_ H]. specialize (H (Hpass st)). rewrite H in Hrun. discriminate Hrun.
Qed.

Lemma check_preconditions_witness :
  describes hello (Present 1 1) /\
  (GcsObject.check_preconditions_by_value (Some "1") None (Some "1") None hello
     = (Ok tt, hello) <->
   conditions_pass (Present 1 1) (Some "1") None (Some "1") None) /\
  conditions_pass (Present 1 1) (Some "1") None (Some "1") None /\
  GcsObject.check_preconditions_by_value (Some "2") None (Some "1") None
    hello_after_refused_upload
    = (Raise (ErrorResponse "Object not found" 404), hello_after_refused_upload) /\
  GcsObject.check_preconditions_by_value (Some "x") None None None
    hello_after_refused_upload
    = (Raise ValueError, hello_after_refused_upload) /\
  GcsObject.check_preconditions_by_value (Some "1") None None None
    hello_after_refused_upload
    = (Raise (ErrorResponse "Precondition Failed" 412), hello_after_refused_upload).
Proof.
  assert (Hd : describes hello (Present 1 1)).
  { split; [lia|]. split; [vm_compute; reflexivity|].
    exists hello_revision. split; vm_compute; reflexivity. }
  assert (Hgen : GcsObject.generation hello_after_refused_upload <> Some 0).
  { intros H. vm_compute in H. discriminate H. }
  assert (Hlatest : GcsObject.get_latest hello_after_refused_upload = None)
    by (vm_compute; reflexivity).
  assert (Hpointer : Some 2 = GcsObject.generation hello_after_refused_upload)
    by (vm_compute; reflexivity).
  split; [exact Hd|]. split; [|split; [repeat split|split; [|split]]].
  - exact (proj1 (check_preconditions_by_value_decides hello
                    (Some "1") None (Some "1") None) (Present 1 1) Hd).
  - destruct (proj2 (check_preconditions_by_value_decides hello_after_refused_upload
                       (Some "2") None (Some "1") None) Hgen Hlatest) as (H404 & _).
    apply H404; [|exact I].
    exists 2. split; [vm_compute; reflexivity|exact Hpointer].
  - destruct (proj2 (check_preconditions_by_value_decides hello_after_refused_upload
                       (Some "x") None None None) Hgen Hlatest) as (_ & Hvalue & _).
    apply (Hvalue "x"); [reflexivity|vm_compute; reflexivity].
  - destruct (proj2 (check_preconditions_by_value_decides hello_after_refused_upload
                       (Some "1") None None None) Hgen Hlatest) as (_ & _ & H412 & _).
    apply (H412 "1" 1); [reflexivity|vm_compute; reflexivity|].
    rewrite <- Hpointer. discriminate.
Defined.

Lemma uploads_without_versioning_witness :
  run_uploads three_uploads (GcsObject.new "bucket" "object") = Some upload_trace /\
  length upload_trace = 3%nat /\
  forall (i : nat) revision self_i,
    upload_trace !! i = Some (revision, self_i) ->
    GcsObject.revisions self_i = {[0 + Z.of_nat i + 1 := revision]} /\
    GcsObjectVersion.generation revision = 0 + Z.of_nat i + 1 /\
    GcsObject.generation self_i = Some (0 + Z.of_nat i + 1).
Proof.
  assert (Hrun : run_uploads three_uploads (GcsObject.new "bucket" "object")
                 = Some upload_trace) by (vm_compute; reflexivity).
  split; [exact Hrun|]. split; [vm_compute; reflexivity|].
  exact (uploads_without_versioning three_uploads (GcsObject.new "bucket" "object") 0
           {| bucket_metadata := ∅; versioning_enabled := false |} upload_trace
           eq_refl eq_refl eq_refl Hrun).
Defined.

(** C6, as stated, fails.  An XML upload of "hello" declaring the digest
    AAAA is refused with the checksum-mismatch error; no revision is
    installed. *)
Lemma insert_xml_refuses_declared_md5 :
  GcsObject.xml_md5hash wrong_md5_request = Some "AAAA" /\
  (GcsObject.insert_xml gcs_url wrong_md5_request now
     (GcsObject.new "bucket" "object")).1 =
    Raise (ErrorResponse
             "Mismatched MD5 hash expected=hello..........., actual=AAAA" 400) /\
  GcsObject.revisions
    (GcsObject.insert_xml gcs_url wrong_md5_request now
       (GcsObject.new "bucket" "object")).2 = ∅.
Proof. repeat split; vm_compute; reflexivity. Qed.

Lemma insert_xml_validates_witness :
  GcsObject.generation (GcsObject.new "bucket" "object") = Some 0 /\
  GcsObject.xml_md5hash xml_request = Some "hello..........." /\
  exists revision self',
    GcsObject.insert_xml gcs_url xml_request now (GcsObject.new "bucket" "object")
      = (Ok revision, self') /\
    GcsObjectVersion.metadata revision !! "md5Hash" = Some (VStr "hello...........").
Proof.
  split; [reflexivity|]. split; [vm_compute; reflexivity|].
  refine (proj2 (proj2 (insert_xml_validates_declared_md5 gcs_url xml_request now
            (GcsObject.new "bucket" "object") 0 "hello..........." eq_refl _))
            constructed {| bucket_metadata := ∅; versioning_enabled := false |} _ _ _);
    vm_compute; reflexivity.
Defined.

Lemma hello_acl_entities :
  entry_entity <$> hello_acl =
  [Some "project-owners-123456789"; Some "project-editors-123456789";
   Some "project-viewers-123456789"].
Proof. vm_compute. reflexivity. Qed.

Lemma hello_acl_wf : acl_wf hello_acl.
Proof.
  split.
  - apply (Forall_fmap entry_entity (fun k => is_Some k)).
    rewrite hello_acl_entities. repeat constructor; eauto.
  - rewrite hello_acl_entities. repeat constructor; not_in_literals.
Qed.

Lemma repeated_acl_stored : acl_of hello_repeated = VList repeated_acl.
Proof. vm_compute. reflexivity. Qed.

Lemma get_acl_and_delete_acl_witness :
  (acl_of hello_revision = VList hello_acl /\
   GcsObjectVersion.get_acl "user-nobody" hello_revision =
     (Raise (ErrorResponse "Entity user-nobody not found in object object" 400),
      hello_revision) /\
   GcsObjectVersion.delete_acl "user-nobody" hello_revision =
     (Raise (KeyError "user-nobody"), hello_revision)) /\
  (viewers_entry ∈ hello_acl /\
   GcsObjectVersion.get_acl "project-viewers-123456789" hello_revision
     = (Ok viewers_entry, hello_revision) /\
   exists l',
     GcsObjectVersion.delete_acl "project-viewers-123456789" hello_revision =
       (Ok tt,
        GcsObjectVersion.set_metadata
          (<["acl" := VList l']> (GcsObjectVersion.metadata hello_revision))
          hello_revision) /\
     viewers_entry :: l' ≡ₚ hello_acl) /\
  (acl_of hello_repeated = VList repeated_acl /\
   (exists l',
      GcsObjectVersion.delete_acl "b" hello_repeated =
        (Ok tt,
         GcsObjectVersion.set_metadata
           (<["acl" := VList l']> (GcsObjectVersion.metadata hello_repeated))
           hello_repeated) /\
      NoDup (entry_entity <$> l') /\
      forall k, k ∈ entry_entity <$> l' <->
                k ∈ entry_entity <$> repeated_acl /\ k <> Some "b") /\
   acl_of (GcsObjectVersion.delete_acl "b" hello_repeated).2 =
     VList [acl_entry "a" "OWNER"]).
Proof.
  assert (Hacl : acl_of hello_revision = VList hello_acl) by (vm_compute; reflexivity).
  assert (He : entry_entity viewers_entry = Some "project-viewers-123456789")
    by (vm_compute; reflexivity).
  assert (Hin : viewers_entry ∈ hello_acl).
  { apply (list_elem_of_lookup_2 _ 2%nat). vm_compute. reflexivity. }
  assert (Hno : forall e, e ∈ hello_acl -> entry_entity e <> Some "user-nobody").
  { apply Forall_forall.
    apply (Forall_fmap entry_entity (fun k => k <> Some "user-nobody")).
    rewrite hello_acl_entities. repeat constructor; discriminate. }
  assert (Hb : acl_entry "b" "READER" ∈ repeated_acl).
  { apply (list_elem_of_lookup_2 _ 2%nat). reflexivity. }
  assert (Hnamed : Forall (fun e => is_Some (entry_entity e)) repeated_acl).
  { repeat constructor; vm_compute; eauto. }
  destruct (get_acl_and_delete_acl hello_revision "user-nobody"
              hello_acl Hacl (proj1 hello_acl_wf)) as (Hnone & _).
  destruct (get_acl_and_delete_acl hello_revision "project-viewers-123456789"
              hello_acl Hacl (proj1 hello_acl_wf)) as (_ & Hsome & _).
  destruct (get_acl_and_delete_acl hello_repeated "b"
              repeated_acl repeated_acl_stored Hnamed) as (_ & _ & Hrepeated).
  destruct (Hnone Hno) as [Hget' Hdel'].
  destruct (Hsome viewers_entry (proj2 hello_acl_wf) Hin He) as [Hget Hdel].
  destruct (Hrepeated (acl_entry "b" "READER") Hb)
    as (e0 & l' & _ & _ & _ & Hdelb & Hnd & _ & Hkeys); [vm_compute; reflexivity|].
  split; [|split].
  - split; [exact Hacl|]. split; [exact Hget'|exact Hdel'].
  - split; [exact Hin|]. split; [exact Hget|exact Hdel].
  - split; [exact repeated_acl_stored|]. split.
    + exists l'. split; [exact Hdelb|]. split; [exact Hnd|exact Hkeys].
    + vm_compute. reflexivity.
Defined.

End ObjectsOnTheTestbench.


Section RewritesOnTheTestbench.
Import Demo.

Lemma is_Some_default {A} (o : option A) (d : A) :
  match o with Some _ => true | None => false end = true -> o = Some (default d o).
Proof. by destruct o. Qed.

Lemma big_generation : GcsObject.generation big = Some 1.
Proof. vm_compute. reflexivity. Qed.

Lemma big_latest : GcsObject.get_revision_by_generation big (Some 1) = Some big_revision.
Proof.
  unfold big_revision, GcsObject.get_latest. rewrite big_generation.
  apply is_Some_default. vm_compute. reflexivity.
Qed.

Lemma big_len : Py.len (GcsObjectVersion.media big_revision) = 3145728.
Proof. vm_compute. reflexivity. Qed.

Lemma big_readable a body : source_readable (request a [] body) big_revision.
Proof.
  unfold source_readable, GcsObjectVersion.validate_encryption_for_read,
    bind, get_self, ret.
  replace (GcsObjectVersion.metadata big_revision !! "customerEncryption")
    with (@None pyval) by (vm_compute; reflexivity).
  reflexivity.
Qed.

Lemma token1_eq :
  GcsObject.make_rewrite_token operation1 "bucket" "copy"
    (Some (GcsObjectVersion.generation big_revision)) = token1.
Proof. vm_compute. reflexivity. Qed.

Lemma registry1_eq :
  GcsObject.rewrite_step big_path gcs_url (request [] [] "{}") now "bucket" "copy" registry
  = (Ok (GcsObject.rewrite_response 3145728 false None 1048576 token1),
     <[big_path := big1]> registry).
Proof.
  rewrite (rewrite_step_start_progress big_path gcs_url (request [] [] "{}") now
             "bucket" "copy" registry big (VDict ∅) (Some 1) big_revision).
  - cbv zeta. fold operation0. fold operation1. rewrite token1_eq, big_len. reflexivity.
  - apply lookup_singleton_eq.
  - by left.
  - reflexivity.
  - unfold source_generation. change (args (request [] [] "{}") !! "sourceGeneration")
      with (@None string). by rewrite big_generation.
  - exact big_latest.
  - apply big_readable.
  - rewrite big_len. reflexivity.
Qed.

Lemma token2_eq :
  GcsObject.make_rewrite_token (GcsObject.set_bytes_rewritten 2097152 operation0)
    "bucket" "copy" (Some (GcsObjectVersion.generation big_revision)) = token2.
Proof. vm_compute. reflexivity. Qed.

Lemma registry1_lookup : registry1 !! big_path = Some big1.
Proof. unfold registry1. rewrite registry1_eq. apply lookup_insert_eq. Qed.

Lemma big1_holds_token1 : GcsObject.rewrite_operations big1 !! token1 = Some operation1.
Proof. apply lookup_insert_eq. Qed.

Lemma operation1_captured :
  exists request0 destination,
    GcsObject.original_arguments operation1 =
      GcsObject.capture_rewrite_operation_arguments request0 destination destination.
Proof. by exists (request [] [] "{}"), "bucket". Qed.

Lemma big1_source :
  GcsObject.get_revision_by_generation big1 (GcsObject.actual_generation operation1)
    = Some big_revision.
Proof.
  unfold big1.
  change (GcsObject.actual_generation operation1) with (Some 1).
  exact (eq_trans
           (get_revision_after_table_update big _ _ (Some 1)) big_latest).
Qed.

(** The first continuation, for any query parameters that present the
    first token and any JSON body. *)
Lemma continuation_of_registry1 a :
  (list_to_map a : gmap string string) !! "rewriteToken" = Some token1 ->
  exists objects',
    GcsObject.rewrite_step big_path gcs_url (request a [] "{}") now "bucket" "copy"
      registry1 =
    (Ok (GcsObject.rewrite_response 3145728 false None 2097152 token2), objects').
Proof.
  intros Ha. eexists.
  rewrite (rewrite_step_continue_progress big_path gcs_url (request a [] "{}") now
             "bucket" "copy" registry1 big1 (VDict ∅) token1 operation1 big_revision).
  - cbv zeta. change (GcsObject.bytes_rewritten operation1 + 1048576) with 2097152.
    change (GcsObject.set_bytes_rewritten 2097152 operation1)
      with (GcsObject.set_bytes_rewritten 2097152 operation0).
    rewrite token2_eq, big_len. reflexivity.
  - exact registry1_lookup.
  - exact Ha.
  - discriminate.
  - reflexivity.
  - exact big1_holds_token1.
  - exact operation1_captured.
  - exact big1_source.
  - apply big_readable.
  - rewrite big_len. reflexivity.
Qed.

Lemma rewrite_step_accepts_changed_arguments_witness :
  registry1 !! big_path = Some big1 /\
  GcsObject.rewrite_operations big1 !! token1 = Some operation1 /\
  GcsObject.original_arguments operation1 !! "ifGenerationMatch" = Some VNone /\
  args drifted_request !! "ifGenerationMatch" = Some "7" /\
  exists token' objects',
    GcsObject.rewrite_step big_path gcs_url drifted_request now "bucket" "copy"
      registry1 =
    (Ok (GcsObject.rewrite_response
           (Py.len (GcsObjectVersion.media big_revision)) false None
           (GcsObject.bytes_rewritten operation1 + 1048576) token'),
     objects').
Proof.
  split; [exact registry1_lookup|]. split; [exact big1_holds_token1|].
  split; [vm_compute; reflexivity|]. split; [vm_compute; reflexivity|].
  apply (rewrite_step_accepts_changed_arguments big_path gcs_url drifted_request now
           "bucket" "copy" registry1 big1 (VDict ∅) token1 operation1 big_revision).
  - exact registry1_lookup.
  - vm_compute. reflexivity.
  - discriminate.
  - reflexivity.
  - exact big1_holds_token1.
  - exact operation1_captured.
  - exact big1_source.
  - apply big_readable.
  - rewrite big_len. reflexivity.
Defined.

(** C8, as stated, fails.  A continuation that presents the first token
    with a body that is not JSON raises before the table is touched: the
    registry is as it was, and a second call presenting the same token
    is not refused but returns the next progress record. *)
Lemma malformed_continuation_keeps_token :
  args malformed_request !! "rewriteToken" = Some token1 /\
  GcsObject.rewrite_step big_path gcs_url malformed_request now "bucket" "copy"
    registry1 = (Raise ValueError, registry1) /\
  (exists self, registry1 !! big_path = Some self /\
                is_Some (GcsObject.rewrite_operations self !! token1)) /\
  (exists objects',
     GcsObject.rewrite_step big_path gcs_url
       (request [("rewriteToken", token1)] [] "{}") now "bucket" "copy" registry1 =
     (Ok (GcsObject.rewrite_response 3145728 false None 2097152 token2), objects')).
Proof.
  split; [vm_compute; reflexivity|]. split; [|split].
  - apply rewrite_step_bad_body. reflexivity.
  - exists big1. split; [exact registry1_lookup|]. rewrite big1_holds_token1. eauto.
  - apply continuation_of_registry1. reflexivity.
Qed.

Lemma big1_tokens_wf : tokens_wf big1.
Proof.
  intros token op H. unfold big1 in H. simpl in H.
  apply lookup_insert_Some in H as [[<- <-]|[_ H]].
  - exists "1/bucket/copy/1". reflexivity.
  - replace (GcsObject.rewrite_operations big) with
      (∅ : gmap string GcsObject.RewriteOperation) in H by (vm_compute; reflexivity).
    by rewrite lookup_empty in H.
Qed.

Lemma rewrite_step_consumes_token_witness :
  registry1 !! big_path = Some big1 /\
  tokens_wf big1 /\
  exists r objects' self',
    GcsObject.rewrite_step big_path gcs_url (request [("rewriteToken", token1)] [] "{}")
      now "bucket" "copy" registry1 = (r, objects') /\
    objects' !! big_path = Some self' /\
    GcsObject.rewrite_operations self' !! token1 = None /\
    tokens_wf self' /\
    (GcsObject.rewrite_operations big1 !! token1 = None ->
     r = Raise (ErrorResponse "Invalid or expired token in rewrite" 410) /\
     objects' = registry1) /\
    (forall gcs_url' request' now' db' do' body',
       args request' !! "rewriteToken" = Some token1 ->
       json_loads (data request') = Some body' ->
       GcsObject.rewrite_step big_path gcs_url' request' now' db' do' objects' =
         (Raise (ErrorResponse "Invalid or expired token in rewrite" 410), objects')).
Proof.
  split; [exact registry1_lookup|]. split; [exact big1_tokens_wf|].
  apply (rewrite_step_consumes_token big_path gcs_url
           (request [("rewriteToken", token1)] [] "{}") now "bucket" "copy"
           registry1 big1 token1 (VDict ∅)).
  - intros x y Hxy. exact Hxy.
  - exact registry1_lookup.
  - exact big1_tokens_wf.
  - reflexivity.
  - discriminate.
  - reflexivity.
Defined.

End RewritesOnTheTestbench.

(** ** The further properties on the testbench *)

Section MoreOnTheTestbench.
Import Demo.

Lemma hello_acl_of : acl_of hello_revision = VList hello_acl.
Proof. vm_compute. reflexivity. Qed.

Lemma hello_id :
  exists id, default (VStr "") (GcsObjectVersion.metadata hello_revision !! "id") = VStr id.
Proof. eexists. vm_compute. reflexivity. Qed.

Lemma hello_selfLink :
  exists selfLink,
    GcsObjectVersion.metadata hello_revision !! "selfLink" = Some (VStr selfLink).
Proof. eexists. vm_compute. reflexivity. Qed.

Lemma hello_ready : acl_ready hello_revision.
Proof.
  split; [|split; [exact hello_id|exact hello_selfLink]].
  exists hello_acl. split; [exact hello_acl_of|exact hello_acl_wf].
Qed.

Lemma update_from_metadata_resets_witness :
  GcsObjectVersion.update_from_metadata now renaming_patch hello_revision
    = (Ok tt, hello_renamed) /\
  renaming_patch !! "name" = Some (VStr "other") /\
  GcsObjectVersion.metadata hello_renamed !! "name" = Some (VStr "object") /\
  GcsObjectVersion.metadata hello_renamed !! "contentType" = Some (VStr "text/plain").
Proof.
  assert (Hrun : GcsObjectVersion.update_from_metadata now renaming_patch hello_revision
                 = (Ok tt, hello_renamed)) by (vm_compute; reflexivity).
  split; [exact Hrun|]. split; [vm_compute; reflexivity|].
  split; [|vm_compute; reflexivity].
  destruct (update_from_metadata_resets_protected_fields now renaming_patch
              hello_revision hello_renamed Hrun) as ((_ & _ & Hname & _) & _).
  rewrite Hname. vm_compute. reflexivity.
Defined.

Lemma update_from_metadata_applies_witness :
  (exists self',
     GcsObjectVersion.update_from_metadata now renaming_patch hello_revision
       = (Ok tt, self') /\
     GcsObjectVersion.metadata self' !! "metageneration" = Some (VInt (1 + 1)) /\
     GcsObjectVersion.metadata self' !! "contentType" = Some (VStr "text/plain")) /\
  GcsObjectVersion.update_from_metadata now {["metageneration" := VStr "5"]} hello_revision
    = (Raise TypeError, hello_revision).
Proof.
  split.
  - destruct (update_from_metadata_applies_patch now renaming_patch hello_revision)
      as [Hint _]; [vm_compute; reflexivity..|].
    destruct (Hint 1) as (self' & Hrun & Hmg & Hkeys); [vm_compute; reflexivity|].
    exists self'. split; [exact Hrun|]. split; [exact Hmg|].
    rewrite Hkeys by not_in_literals. vm_compute. reflexivity.
  - destruct (update_from_metadata_applies_patch now {["metageneration" := VStr "5"]}
                hello_revision) as [_ Hother]; [vm_compute; reflexivity..|].
    apply (Hother (VStr "5")); [vm_compute; reflexivity|discriminate..].
Defined.

Lemma new_revision_describes_media_witness :
  GcsObjectVersion.media constructed = "hello" /\
  GcsObjectVersion.metadata constructed !! "size" = Some (VInt 5) /\
  GcsObjectVersion.metadata constructed !! "id" = Some (VStr "bucket/o/object/1").
Proof.
  destruct (new_revision_describes_media _ _ _ _ _ _ _ _ constructed_eq)
    as (Hmedia & _ & Hsize & _ & Hid & _).
  split; [rewrite Hmedia; vm_compute; reflexivity|].
  split; [rewrite Hsize, Hmedia; vm_compute; reflexivity|].
  rewrite Hid. vm_compute. reflexivity.
Defined.

Lemma insert_acl_then_get_acl_witness :
  exists entry self',
    GcsObjectVersion.insert_acl "user-jane" "READER" hello_revision = (Ok entry, self') /\
    GcsObjectVersion.get_acl "user-jane" self' = (Ok entry, self') /\
    Py.get entry "entity" VNone = Ok (VStr "user-jane") /\
    Py.get entry "role" VNone = Ok (VStr "READER").
Proof. exact (insert_acl_then_get_acl hello_revision "user-jane" "READER" hello_ready). Defined.

Lemma insert_acl_replaces_entry_witness :
  exists entry l',
    GcsObjectVersion.insert_acl "project-viewers-123456789" "OWNER" hello_revision =
      (Ok entry,
       GcsObjectVersion.set_metadata
         (<["acl" := VList l']> (GcsObjectVersion.metadata hello_revision))
         hello_revision) /\
    acl_wf l' /\
    length l' = 3%nat.
Proof.
  destruct (insert_acl_replaces_entry hello_revision "project-viewers-123456789" "OWNER"
              hello_acl hello_acl_of hello_acl_wf hello_id hello_selfLink)
    as (entry & l' & Hrun & Hwf & _ & Hlen).
  exists entry, l'. split; [exact Hrun|]. split; [exact Hwf|].
  rewrite Hlen. vm_compute. reflexivity.
Defined.

Lemma insert_acl_then_delete_acl_witness :
  exists entry self' self'',
    GcsObjectVersion.insert_acl "user-jane" "READER" hello_revision = (Ok entry, self') /\
    GcsObjectVersion.delete_acl "user-jane" self' = (Ok tt, self'') /\
    (forall e, e ∈ acl_entries self'' <->
       e ∈ acl_entries hello_revision /\ entry_entity e <> Some "user-jane").
Proof.
  destruct (insert_acl_then_delete_acl hello_revision "user-jane" "READER" hello_ready)
    as (entry & self' & self'' & Hins & Hdel & Hin & _).
  exists entry, self', self''. split; [exact Hins|]. split; [exact Hdel|exact Hin].
Defined.

Lemma update_predefined_acl_unknown_witness :
  ("bogus" ∉ predefined_acls) /\
  exists self',
    GcsObjectVersion._update_predefined_acl (Some "bogus") hello_revision =
      (Raise (ErrorResponse "Invalid predefinedAcl value" 400), self').
Proof.
  assert (Hno : "bogus" ∉ predefined_acls) by (unfold predefined_acls; not_in_literals).
  split; [exact Hno|].
  destruct (update_predefined_acl_refuses_unknown_policy hello_revision "bogus" Hno)
    as [_ Hexact].
  destruct (Hexact plain_bucket hello_ready eq_refl I) as (self' & Hrun & _).
  exists self'. exact Hrun.
Defined.

Lemma reset_predefined_acl_witness :
  exists self',
    GcsObjectVersion.reset_predefined_acl (Some "private") hello_revision = (Ok tt, self') /\
    acl_wf (acl_entries self') /\
    forall x,
      (exists e, e ∈ acl_entries self' /\ entry_entity e = Some x) <->
      x ∈ ["project-owners-123456789"; "project-owners"].
Proof.
  exact (reset_predefined_acl_keeps_only_policy_entries hello_revision plain_bucket
           (Some "private") hello_id hello_selfLink eq_refl I
           ltac:(unfold predefined_acls; simpl; in_literals)).
Defined.

Lemma acl_request_is_ok : acl_request_ok acl_request.
Proof.
  split.
  - change ("private" ∈ predefined_acls). unfold predefined_acls. in_literals.
  - exists "publicRead". vm_compute. reflexivity.
Qed.

Lemma new_succeeds_witness :
  exists revision,
    GcsObjectVersion.new gcs_url "bucket" "object" 1 acl_request "hello" now
      = Ok revision /\
    acl_wf (acl_entries revision).
Proof.
  exact (new_succeeds gcs_url "bucket" "object" 1 acl_request "hello" now plain_bucket
           eq_refl I I acl_request_is_ok).
Defined.

Lemma new_refuses_unknown_x_goog_acl_witness :
  GcsObjectVersion.new gcs_url "bucket" "object" 2
    (request [] [("x-goog-acl", "bogus")] "bye") "bye" now
  = Raise (ErrorResponse "Invalid predefinedAcl value bogus" 400).
Proof.
  destruct (new_refuses_unknown_x_goog_acl gcs_url "bucket" "object" 2
              (request [] [("x-goog-acl", "bogus")] "bye") "bye" now "bogus"
              eq_refl eq_refl) as [_ Hexact].
  apply (Hexact plain_bucket eq_refl I I).
  unfold predefined_acls. simpl. in_literals.
Defined.

Lemma captured_encryption_key_witness :
  GcsObjectVersion._capture_customer_encryption encrypted_request hello_revision
    = (Ok tt, hello_encrypted) /\
  GcsObjectVersion.validate_encryption_for_read encrypted_request "x-goog-encryption"
    hello_encrypted = (Ok tt, hello_encrypted) /\
  GcsObjectVersion.validate_encryption_for_read (request [] [] "") "x-goog-encryption"
    hello_encrypted
    = (Raise (ErrorResponse "Missing a SHA256 hash of the encryption key" 400),
       hello_encrypted).
Proof.
  assert (Hrun : GcsObjectVersion._capture_customer_encryption encrypted_request
                   hello_revision = (Ok tt, hello_encrypted))
    by (vm_compute; reflexivity).
  split; [exact Hrun|]. split.
  - rewrite (captured_encryption_key_is_required encrypted_request encrypted_request
               "x-goog-encryption" hello_revision hello_encrypted "key" eq_refl Hrun).
    reflexivity.
  - rewrite (captured_encryption_key_is_required encrypted_request (request [] [] "")
               "x-goog-encryption" hello_revision hello_encrypted "key" eq_refl Hrun).
    reflexivity.
Defined.

Lemma unencrypted_revision_witness :
  GcsObjectVersion.metadata constructed !! "customerEncryption" = None /\
  GcsObjectVersion.validate_encryption_for_read encrypted_request "x-goog-encryption"
    constructed
    = (Raise (ErrorResponse "Missing a SHA256 hash of the encryption key" 400),
       constructed).
Proof.
  destruct (unencrypted_revision_refuses_key gcs_url "bucket" "object" 1
              (request [] [] "hello") "hello" now constructed encrypted_request
              "x-goog-encryption" eq_refl constructed_eq) as [Hnone Hread].
  split; [exact Hnone|]. rewrite Hread. reflexivity.
Defined.

Lemma viewers_entry_in : viewers_entry ∈ hello_acl.
Proof. apply (list_elem_of_lookup_2 _ 2%nat). vm_compute. reflexivity. Qed.

Lemma patch_acl_checks_witness :
  GcsObjectVersion.patch_acl "project-viewers-123456789"
    (request [] [("if-none-match", "ABC=")] "{}") hello_revision
    = (Raise (ErrorResponse "Precondition Failed" 412), hello_revision) /\
  GcsObjectVersion.patch_acl "project-viewers-123456789"
    (request [] [("if-none-match", "XYZ=")] "{}") hello_revision
    = (Raise (ErrorResponse "Missing role value" 400), hello_revision).
Proof.
  assert (He : entry_entity viewers_entry = Some "project-viewers-123456789")
    by (vm_compute; reflexivity).
  assert (Hetag : Py.get viewers_entry "etag" VNone = Ok (VStr "XYZ="))
    by (vm_compute; reflexivity).
  split.
  - destruct (patch_acl_checks hello_revision "project-viewers-123456789"
                (request [] [("if-none-match", "ABC=")] "{}") hello_acl viewers_entry
                ∅ (VStr "XYZ=") hello_ready hello_acl_of viewers_entry_in He Hetag eq_refl)
      as (_ & H412 & _).
    apply H412; reflexivity.
  - destruct (patch_acl_checks hello_revision "project-viewers-123456789"
                (request [] [("if-none-match", "XYZ=")] "{}") hello_acl viewers_entry
                ∅ (VStr "XYZ=") hello_ready hello_acl_of viewers_entry_in He Hetag eq_refl)
      as (_ & _ & Hrole & _).
    apply Hrole; reflexivity.
Defined.

Lemma new_object_bucket :
  lookup_bucket (GcsObject.bucket_name (GcsObject.new "bucket" "object"))
    = Ok plain_bucket.
Proof. vm_compute. reflexivity. Qed.

Lemma insert_succeeds_witness :
  exists revision self',
    GcsObject.insert gcs_url acl_request now (GcsObject.new "bucket" "object")
      = (Ok revision, self') /\
    GcsObject.generation self' = Some (0 + 1) /\
    GcsObject.get_latest self' = Some revision /\
    GcsObjectVersion.media revision = "hello".
Proof.
  destruct (insert_succeeds gcs_url acl_request now (GcsObject.new "bucket" "object") 0
              plain_bucket eq_refl new_object_bucket I I acl_request_is_ok)
    as (revision & self' & Hrun & Hgen & Hlatest & _ & Hmedia & _).
  exists revision, self'. split; [exact Hrun|]. split; [exact Hgen|].
  split; [exact Hlatest|]. rewrite Hmedia. vm_compute. reflexivity.
Defined.

Lemma refused_upload :
  GcsObjectVersion.new gcs_url (GcsObject.bucket_name hello) (GcsObject.name hello) (1 + 1)
    (request [] [("x-goog-acl", "bogus")] "bye")
    (extract_media (request [] [("x-goog-acl", "bogus")] "bye")) now
  = Raise (ErrorResponse "Invalid predefinedAcl value bogus" 400).
Proof. vm_compute. reflexivity. Qed.

Lemma failed_upload_consumes_generation_witness :
  GcsObject.generation hello = Some 1 /\
  GcsObject.insert gcs_url (request [] [("x-goog-acl", "bogus")] "bye") now hello
    = (Raise (ErrorResponse "Invalid predefinedAcl value bogus" 400),
       GcsObject.set_generation (Some (1 + 1)) hello) /\
  GcsObject.get_latest (GcsObject.set_generation (Some (1 + 1)) hello) = None.
Proof.
  destruct (failed_upload_consumes_generation gcs_url
              (request [] [("x-goog-acl", "bogus")] "bye") now hello 1
              (ErrorResponse "Invalid predefinedAcl value bogus" 400)
              eq_refl refused_upload) as (Hinsert & _ & _ & Hnone & _).
  split; [reflexivity|]. split; [exact Hinsert|].
  apply Hnone. vm_compute. reflexivity.
Defined.

Lemma uploads_with_versioning_witness :
  run_uploads versioned_uploads (GcsObject.new "versioned" "object")
    = Some versioned_trace /\
  length versioned_trace = 2%nat /\
  forall (i : nat) revision self_i,
    versioned_trace !! i = Some (revision, self_i) ->
    GcsObject.generation self_i = Some (0 + Z.of_nat i + 1) /\
    GcsObject.get_latest self_i = Some revision /\
    (forall (j : nat) r s, (j < i)%nat -> versioned_trace !! j = Some (r, s) ->
       GcsObject.revisions self_i !! (0 + Z.of_nat j + 1) = Some r) /\
    (forall k, k <= 0 ->
       GcsObject.revisions self_i !! k =
       GcsObject.revisions (GcsObject.new "versioned" "object") !! k).
Proof.
  assert (Hrun : run_uploads versioned_uploads (GcsObject.new "versioned" "object")
                 = Some versioned_trace) by (vm_compute; reflexivity).
  split; [exact Hrun|]. split; [vm_compute; reflexivity|].
  exact (uploads_with_versioning versioned_uploads (GcsObject.new "versioned" "object") 0
           {| bucket_metadata := ∅; versioning_enabled := true |} versioned_trace
           eq_refl eq_refl eq_refl Hrun).
Defined.

Lemma two_generations_stored :
  GcsObject.generation two_generations = Some 2 /\
  is_Some (GcsObject.revisions two_generations !! 2) /\
  is_Some (GcsObject.revisions two_generations !! 1).
Proof.
  split; [vm_compute; reflexivity|]. split; vm_compute; eauto.
Qed.

Lemma del_revision_default_witness :
  exists g',
    GcsObject.del_revision (request [] [] "") two_generations =
      (Ok false,
       GcsObject.set_generation (Some g')
         (GcsObject.set_revisions (delete 2 (GcsObject.revisions two_generations))
            two_generations)) /\
    g' = 1.
Proof.
  destruct two_generations_stored as (Hg & H2 & H1).
  destruct (del_revision_default_moves_to_latest (request [] [] "") two_generations 2
              eq_refl Hg H2 (ex_intro _ 1 (conj (ltac:(discriminate) : (1 : Z) <> 2) H1)))
    as (g' & Hrun & _).
  exists g'. split; [exact Hrun|].
  assert (Hc : GcsObject.generation
                 (GcsObject.del_revision (request [] [] "") two_generations).2 = Some 1)
    by (vm_compute; reflexivity).
  rewrite Hrun in Hc. change (Some g' = Some 1) in Hc. by injection Hc.
Defined.

Lemma hello_revisions : GcsObject.revisions hello = {[1 := hello_revision]}.
Proof. vm_compute. reflexivity. Qed.

Lemma del_revision_last_witness :
  exists self',
    GcsObject.del_revision (request [("generation", "1")] [] "") hello = (Ok true, self') /\
    GcsObject.generation self' = None /\
    GcsObject.insert gcs_url (request [] [] "again") now self' = (Raise TypeError, self').
Proof.
  destruct (del_revision_last_then_upload (request [("generation", "1")] [] "") hello 1
              hello_revision hello_revisions
              (or_intror (ex_intro _ "1" (conj eq_refl eq_refl))))
    as (self' & Hrun & Hgen & _ & Hup).
  exists self'. split; [exact Hrun|]. split; [exact Hgen|].
  exact (proj1 (Hup gcs_url (request [] [] "again") now)).
Defined.

Lemma del_revision_named_witness :
  GcsObject.del_revision (request [("generation", "7")] [] "") two_generations
    = (Raise (KeyError "7"), two_generations) /\
  GcsObject.del_revision (request [("generation", "x")] [] "") two_generations
    = (Raise ValueError, two_generations) /\
  exists self',
    GcsObject.del_revision (request [("generation", "1")] [] "") two_generations
      = (Ok false, self') /\
    GcsObject.generation self' = Some 2.
Proof.
  destruct two_generations_stored as (Hg & H2 & H1).
  split; [|split].
  - destruct (del_revision_named_generation (request [("generation", "7")] [] "")
                two_generations "7" eq_refl) as (_ & Hkey & _).
    apply (Hkey 7); vm_compute; reflexivity.
  - destruct (del_revision_named_generation (request [("generation", "x")] [] "")
                two_generations "x" eq_refl) as (Hvalue & _).
    apply Hvalue. vm_compute. reflexivity.
  - destruct (del_revision_named_generation (request [("generation", "1")] [] "")
                two_generations "1" eq_refl) as (_ & _ & Hother).
    destruct (Hother 1 2 eq_refl H1 Hg ltac:(discriminate) H2)
      as (self' & Hrun & Hgen & _).
    exists self'. split; [exact Hrun|exact Hgen].
Defined.

Lemma hello_uploaded :
  run_upload Simple gcs_url (request [] [] "hello") now (GcsObject.new "bucket" "object")
    = Some (Ok hello_revision, hello).
Proof. simpl. by rewrite hello_inserted. Qed.

Lemma get_revision_after_upload_witness :
  GcsObject.get_revision (request [("generation", "1")] [] "") "generation" hello
    = (Ok (Some hello_revision), hello) /\
  GcsObject.get_revision (request [("generation", "3")] [] "") "generation" hello
    = (Raise (ErrorResponse "Precondition Failed: generation 3 not found" 400), hello).
Proof.
  split.
  - destruct (get_revision_after_upload Simple gcs_url (request [] [] "hello") now
                (GcsObject.new "bucket" "object") 0 plain_bucket hello_revision hello
                (request [("generation", "1")] [] "") "generation"
                eq_refl new_object_bucket hello_uploaded) as (_ & Hnamed & _).
    apply (Hnamed "1"); reflexivity.
  - destruct (get_revision_after_upload Simple gcs_url (request [] [] "hello") now
                (GcsObject.new "bucket" "object") 0 plain_bucket hello_revision hello
                (request [("generation", "3")] [] "") "generation"
                eq_refl new_object_bucket hello_uploaded) as (_ & _ & Hother).
    apply (Hother "3" 3); try reflexivity. discriminate.
Defined.

Lemma hello_stored : GcsObject.revisions hello !! 1 = Some hello_revision.
Proof. rewrite hello_revisions. apply lookup_singleton_eq. Qed.

Lemma empty_body : json_loads (data (request [] [] "{}")) = Some (VDict ∅).
Proof. vm_compute. reflexivity. Qed.

Lemma hello_md5 :
  GcsObjectVersion.metadata hello_revision !! "md5Hash" =
    Some (VStr (GcsObjectVersion.md5_b64 (GcsObjectVersion.media hello_revision))).
Proof. vm_compute. reflexivity. Qed.

Lemma update_revision_in_place_witness :
  let version' :=
    GcsObjectVersion.set_metadata
      (<["metageneration" := VInt (1 + 1)]>
         (GcsObjectVersion.merged now ∅ hello_revision)) hello_revision in
  GcsObject.update_revision (request [] [] "{}") now hello =
    (Ok version',
     GcsObject.set_revisions (<[1 := version']> (GcsObject.revisions hello)) hello).
Proof.
  intros version'.
  destruct (update_revision_in_place (request [] [] "{}") now hello 1 hello_revision ∅ 1
              (or_introl (conj eq_refl eq_refl)) hello_stored empty_body hello_md5)
    as (Hok & _);
    [vm_compute; reflexivity|].
  apply Hok. apply lookup_empty.
Defined.

Lemma patch_revision_witness :
  exists key,
    (key ∉ GcsObject.writeable_keys) /\
    @GcsObject.patch_revision keyed_collaborators overlay (request [] [] "name") hello =
      (Raise (ErrorResponse ("Invalid metadata change. " ++ key ++ " is not writeable")
                503),
       hello).
Proof.
  destruct (@patch_revision_writeable_keys keyed_collaborators overlay
              (request [] [] "name") hello {["name" := VStr "x"]}
              eq_refl (or_introl eq_refl)) as [Hno _].
  destruct Hno as (key & _ & Hnot & Hrun).
  - exists "name". split; [eexists; apply lookup_singleton_eq|].
    unfold GcsObject.writeable_keys. not_in_literals.
  - exists key. split; [exact Hnot|exact Hrun].
Defined.

Lemma hello_bucket : lookup_bucket (GcsObject.bucket_name hello) = Ok plain_bucket.
Proof. vm_compute. reflexivity. Qed.

Lemma plain_request_ok :
  encryption_headers_ok (request [] [] "{}") /\
  acl_request_ok (request [] [] "{}") /\
  default "projectPrivate" (args (request [] [] "{}") !! "destinationPredefinedAcl")
    ∈ predefined_acls.
Proof.
  split; [exact I|]. split; [split; exact I|].
  change ("projectPrivate" ∈ predefined_acls). unfold predefined_acls. in_literals.
Qed.

Lemma copy_from_witness :
  GcsObject.generation hello = Some 1 /\
  exists revision self',
    GcsObject.copy_from gcs_url (request [] [] "{}") now hello_revision hello
      = (Ok revision, self') /\
    GcsObject.generation self' = Some (1 + 1) /\
    GcsObject.get_latest self' = Some revision /\
    GcsObjectVersion.metadata revision !! "metageneration" = Some (VInt 2).
Proof.
  split; [reflexivity|].
  destruct plain_request_ok as (Henc & Hacl & Hknown).
  destruct (copy_from_installs_source_media gcs_url (request [] [] "{}") now
              hello_revision hello 1 eq_refl) as [_ Hok].
  destruct (Hok plain_bucket ∅) as (revision & self' & Hrun & Hgen & Hlatest & _ & _ & Hmg & _);
    [vm_compute; reflexivity | exact hello_bucket | exact I | exact Henc | exact Hacl
    | exact Hknown | exact empty_body | apply lookup_empty | apply lookup_empty |].
  exists revision, self'. repeat split; assumption.
Defined.

Lemma compose_from_witness :
  exists revision self',
    GcsObject.compose_from gcs_url (request [] [] "{}") now "hello world" hello
      = (Ok revision, self') /\
    GcsObject.get_latest self' = Some revision /\
    GcsObjectVersion.generation revision = 1 + 1 /\
    GcsObjectVersion.media revision = "hello world".
Proof.
  destruct plain_request_ok as (Henc & Hacl & Hknown).
  destruct (compose_from_installs_composed_media gcs_url (request [] [] "{}") now
              "hello world" hello 1 plain_bucket ∅
              eq_refl hello_bucket I Henc Hacl Hknown empty_body I)
    as (revision & self' & Hrun & _ & Hlatest & Hgen & Hmedia & _).
  exists revision, self'. split; [exact Hrun|]. split; [exact Hlatest|].
  split; [exact Hgen|]. rewrite Hmedia. vm_compute. reflexivity.
Defined.

Lemma make_rewrite_token_injective_witness :
  GcsObject.make_rewrite_token small_operation "a/b" "c" (Some 1) =
  GcsObject.make_rewrite_token (GcsObject.set_bytes_rewritten 0 small_operation)
    "a" "b/c" (Some 1) /\
  GcsObject.id small_operation =
    GcsObject.id (GcsObject.set_bytes_rewritten 0 small_operation).
Proof.
  assert (Heq :
    GcsObject.make_rewrite_token small_operation "a/b" "c" (Some 1) =
    GcsObject.make_rewrite_token (GcsObject.set_bytes_rewritten 0 small_operation)
      "a" "b/c" (Some 1)) by (vm_compute; reflexivity).
  split; [exact Heq|].
  exact (proj1 (make_rewrite_token_injective _ _ _ _ _ _ _ _
                  (fun x y (H : b64encode x = b64encode y) => H) Heq)).
Defined.

Lemma hello_len : Py.len (GcsObjectVersion.media hello_revision) = 5.
Proof. vm_compute. reflexivity. Qed.

Lemma rewrite_step_small_source_witness :
  exists response revision dest' objects',
    GcsObject.rewrite_step hello_path gcs_url (request [] [] "{}") now "bucket" "copy"
      hello_registry = (Ok response, objects') /\
    response !! "done" = Some (VBool true) /\
    response !! "objectSize" = Some (VInt 5) /\
    response !! "totalBytesRewritten" = Some (VInt 5) /\
    response !! "rewriteToken" = Some (VStr "") /\
    response !! "resource" = Some (VDict (GcsObjectVersion.metadata revision)) /\
    objects' !! ("bucket", "copy") = Some dest' /\
    GcsObject.get_latest dest' = Some revision /\
    GcsObjectVersion.generation revision = 0 + 1.
Proof.
  destruct plain_request_ok as (Henc & Hacl & _).
  destruct (rewrite_step_small_source_finishes_at_once hello_path gcs_url
              (request [] [] "{}") now "bucket" "copy" hello_registry hello (Some 1)
              hello_revision (GcsObject.new "bucket" "copy") 0 plain_bucket ∅)
    as (response & revision & dest' & objects' & Hrun & _ & Hdone & Hsize & Htotal
        & Htoken & Hresource & Hdest & Hlatest & Hgen & _);
    [ apply lookup_singleton_eq | discriminate | vm_compute; reflexivity
    | left; reflexivity | exact empty_body | apply lookup_empty | apply lookup_empty
    | vm_compute; reflexivity | vm_compute; reflexivity | vm_compute; reflexivity
    | rewrite hello_len; lia | reflexivity | vm_compute; reflexivity
    | vm_compute; reflexivity | exact I | exact Henc | exact Hacl | ].
  rewrite hello_len in Hsize, Htotal.
  exists response, revision, dest', objects'. repeat split; assumption.
Defined.

Lemma token_request_ok token :
  encryption_headers_ok (request [("rewriteToken", token)] [] "{}") /\
  acl_request_ok (request [("rewriteToken", token)] [] "{}").
Proof.
  split; [exact I|]. unfold acl_request_ok.
  replace (args (request [("rewriteToken", token)] [] "{}") !! "predefinedAcl")
    with (@None string); [split; exact I|].
  unfold request, args. cbn [list_to_map foldr]. simpl.
  rewrite lookup_insert_ne by done. by rewrite lookup_empty.
Qed.

Lemma rewrite_of_3MiB_witness :
  Py.len (GcsObjectVersion.media big_revision) = 3145728 /\
  exists response1 objects1 response2 objects2 response3 objects3,
    GcsObject.rewrite_step big_path gcs_url (request [] [] "{}") now
      "bucket" "copy" registry = (Ok response1, objects1) /\
    response1 !! "done" = Some (VBool false) /\
    response1 !! "totalBytesRewritten" = Some (VInt 1048576) /\
    response1 !! "rewriteToken" = Some (VStr token1) /\
    token1 <> EmptyString /\
    GcsObject.rewrite_step big_path gcs_url (request [("rewriteToken", token1)] [] "{}")
      now "bucket" "copy" objects1 = (Ok response2, objects2) /\
    response2 !! "done" = Some (VBool false) /\
    response2 !! "totalBytesRewritten" = Some (VInt 2097152) /\
    response2 !! "rewriteToken" = Some (VStr token2) /\
    token2 <> EmptyString /\
    GcsObject.rewrite_step big_path gcs_url (request [("rewriteToken", token2)] [] "{}")
      now "bucket" "copy" objects2 = (Ok response3, objects3) /\
    response3 !! "done" = Some (VBool true) /\
    response3 !! "totalBytesRewritten" = Some (VInt 3145728) /\
    response3 !! "rewriteToken" = Some (VStr EmptyString).
Proof.
  split; [exact big_len|].
  destruct (token_request_ok token2) as (Henc & Hacl).
  pose proof (rewrite_of_3MiB_takes_three_calls big_path gcs_url "bucket" "copy"
                registry big big_revision (Some 1)
                (request [] [] "{}") now (VDict ∅)
                (request [("rewriteToken", token1)] [] "{}") now (VDict ∅)
                (request [("rewriteToken", token2)] [] "{}") now ∅ 0 plain_bucket) as H.
  cbv zeta in H. fold operation0 in H. fold operation1 in H.
  rewrite token1_eq, token2_eq in H.
  apply H.
  - intros s Hs. exact Hs.
  - apply lookup_singleton_eq.
  - by left.
  - unfold source_generation. change (args (request [] [] "{}") !! "sourceGeneration")
      with (@None string). by rewrite big_generation.
  - exact big_latest.
  - exact big_len.
  - reflexivity.
  - reflexivity.
  - reflexivity.
  - apply lookup_empty.
  - apply lookup_empty.
  - apply big_readable.
  - apply big_readable.
  - apply big_readable.
  - reflexivity.
  - reflexivity.
  - vm_compute. reflexivity.
  - vm_compute. reflexivity.
  - vm_compute. reflexivity.
  - exact I.
  - exact Henc.
  - exact Hacl.
Defined.

Lemma rewrite_step_without_source_witness :
  GcsObject.get_latest hello_after_refused_upload = None /\
  GcsObject.rewrite_step hello_path gcs_url (request [] [] "{}") now "bucket" "copy"
    dangling_registry =
    (Raise AttributeError,
     <[hello_path :=
         GcsObject.set_rewrite_token_generator
           (GcsObject.rewrite_token_generator hello_after_refused_upload + 1)
           hello_after_refused_upload]> dangling_registry).
Proof.
  split; [vm_compute; reflexivity|].
  destruct (rewrite_step_without_source hello_path gcs_url (request [] [] "{}") now
              "bucket" "copy" dangling_registry hello_after_refused_upload (VDict ∅)
              (lookup_singleton_eq _ _) empty_body) as [Hstart _].
  apply (Hstart (Some 2)); [left; reflexivity|vm_compute; reflexivity..].
Defined.

Lemma parse_part_reads_rendered_witness :
  GcsObject._parse_part 2
    (render_part [("content-type", "text/plain"); ("x-goog-meta", "a b")] "hello: world") =
    Some (Ok ({["content-type" := "text/plain"; "x-goog-meta" := "a b"]}, "hello: world")).
Proof.
  rewrite (parse_part_reads_rendered_part
             [("content-type", "text/plain"); ("x-goog-meta", "a b")] "hello: world" 2).
  - vm_compute. reflexivity.
  - repeat constructor; vm_compute; reflexivity.
  - simpl. lia.
Defined.

Lemma parse_part_refuses_second_separator_witness :
  GcsObject._parse_part 1 ("a: b: c" ++ CRLF ++ "hello") = Some (Raise ValueError) /\
  GcsObject._parse_part 1 ("abc" ++ CRLF ++ "hello") = Some (Raise ValueError).
Proof.
  destruct (parse_part_refuses_second_separator 0 "hello") as [Htwo Hnone].
  split.
  - apply (Htwo "a" "b" "c"); vm_compute; reflexivity.
  - apply (Hnone "bc" "a"%char); vm_compute; reflexivity.
Defined.

Lemma xml_md5hash_reads_last_md5_witness :
  GcsObject.xml_md5hash (request [] [("x-goog-hash", "md5=old,crc32c=abc,md5=xyz,crc32c=def")] "hello") =
    Some "xyz" /\
  GcsObject.xml_md5hash (request [] [("x-goog-hash", "crc32c=abc")] "hello") = None.
Proof.
  split.
  - destruct (xml_md5hash_reads_last_md5
                (request [] [("x-goog-hash", "md5=old,crc32c=abc,md5=xyz,crc32c=def")] "hello")
                ["md5=old"; "crc32c=abc"; "md5=xyz"; "crc32c=def"]) as [_ Hlast];
      [ discriminate | repeat constructor | vm_compute; reflexivity | ].
    apply (Hlast ["md5=old"; "crc32c=abc"] "xyz" ["crc32c=def"]);
      [ reflexivity | repeat constructor ].
  - destruct (xml_md5hash_reads_last_md5
                (request [] [("x-goog-hash", "crc32c=abc")] "hello") ["crc32c=abc"])
      as [Hnone _];
      [ discriminate | repeat constructor | vm_compute; reflexivity | ].
    apply Hnone. repeat constructor.
Defined.

End MoreOnTheTestbench.
